(** * Bulk extraction of Unbounce pages and leads

    A shallow embedding of [bulk_data_extraction/unbounce_connection.py]
    (class [UnbounceConnection]) and the properties of its pagination loop,
    lead fan-out, rate counter, deadline guard and filter validation.

    Conventions of the embedding.
    - A JSON object returned by the API (a Python [dict]) is a finite map from
      field names to values, [gmap string string]; JSON scalars are kept by
      their text.
    - A pandas [DataFrame] (pandas as of the release of the code, where
      [DataFrame.append] exists) is the list of its rows in order, every row
      carrying its index label.  The API returns one schema per resource, so building a
      frame from a list of dicts, appending and [to_dict(orient='records')]
      never pad cells; a cell whose field is absent reads as [None] (NaN) and a
      column exists when some row has the field.
    - The outside world (the HTTP client, the clock, [time.sleep]) is an
      oracle: the n-th request and the n-th reading of the clock are given by
      functions, and every interaction is logged in a trace.
    - A [while] loop takes fuel; running out of fuel is [None], never a
      Python result.
    - [print] calls and the [call_counter]/[page_counter] variables that only
      feed them are left out. *)

From Stdlib Require Import ZArith Lia Ascii String List DecimalString.
From stdpp Require Import base numbers strings option gmap list.
Import list.

Set Warnings "-clear-no-such-hyp".

Open Scope string_scope.
Open Scope list_scope.
Open Scope Z_scope.

(** ** Python results *)

Inductive exn :=
| RecursionError
| AttributeError
| KeyError (k : string)
| ValueError
| TypeError
| UpstreamError (code : nat).

Inductive result (A : Type) :=
| Ok (a : A)
| Raise (e : exn).
Arguments Ok {A} a.
Arguments Raise {A} e.

Definition result_bind {A B} (r : result A) (k : A → result B) : result B :=
  match r with
  | Ok a => k a
  | Raise e => Raise e
  end.

(** ** Python values of the [filters] argument *)

#[warnings="-register-all"]
Inductive pyval :=
| PyNone
| PyInt (z : Z)
| PyStr (s : string)
| PyList (l : list pyval)
| PyDict (d : gmap string pyval).

(** [x in values] for a string [x] and a Python list. *)
Definition str_in (x : string) (values : list pyval) : bool :=
  existsb (λ v, match v with PyStr s => String.eqb s x | _ => false end) values.

(** ** Records and frames *)

Abbreviation record := (gmap string string).
Abbreviation cell := (option string).

Definition row : Type := nat * record.
Abbreviation DataFrame := (list row).

(** [pd.DataFrame(list_of_dicts)]: rows labelled 0, 1, 2, ... *)
Definition DataFrame_of (l : list record) : DataFrame :=
  imap (λ i r, (i, r)) l.

(** [df.append(other)]: the rows of [other] after those of [df], labels kept. *)
Definition append (df other : DataFrame) : DataFrame := df ++ other.

(** A column exists when some row has the field. *)
Definition has_column (c : string) (df : DataFrame) : bool :=
  existsb (λ r : row, bool_decide (is_Some (r.2 !! c))) df.

(** The cells of a row under [subset]: the key compared by [duplicated]. *)
Definition row_key (subset : list string) (r : row) : list cell :=
  (λ c, r.2 !! c) <$> subset.

Fixpoint duplicated_from (subset : list string) (seen : list (list cell))
    (df : DataFrame) : list bool :=
  match df with
  | [] => []
  | r :: df' =>
      bool_decide (row_key subset r ∈ seen)
        :: duplicated_from subset (row_key subset r :: seen) df'
  end.

(** [df.duplicated(subset=..., keep='first')]: a row is marked when an earlier
    row has the same key; a missing column is a [KeyError]. *)
Definition duplicated (subset : list string) (df : DataFrame) : result (list bool) :=
  match List.find (λ c, negb (has_column c df)) subset with
  | Some c => Raise (KeyError c)
  | None => Ok (duplicated_from subset [] df)
  end.

(** [df[mask]] for a boolean mask. *)
Fixpoint boolean_index (df : DataFrame) (mask : list bool) : DataFrame :=
  match df, mask with
  | r :: df', b :: mask' =>
      if b then r :: boolean_index df' mask' else boolean_index df' mask'
  | _, _ => []
  end.

(** [df.drop_duplicates(subset=..., keep='first')]. *)
Definition drop_duplicates (subset : list string) (df : DataFrame) : result DataFrame :=
  result_bind (duplicated subset df) (λ mask, Ok (boolean_index df (negb <$> mask))).

(** [a.equals(b)]: same labels and same cells, row by row. *)
Definition equals (a b : DataFrame) : bool := bool_decide (a = b).

(** [df.rename(columns={old: new})] on one record: the cell moves to the new
    name (the records renamed here, pages to ['page_id'] and leads to
    ['lead_id'], have no field of the new name). *)
Definition rename_field (old new : string) (r : record) : record :=
  match r !! old with
  | Some v => <[new := v]> (delete old r)
  | None => r
  end.

Definition rename (old new : string) (df : DataFrame) : DataFrame :=
  (λ r : row, (r.1, rename_field old new r.2)) <$> df.

(** [df[df[c].isin(values)]]. *)
Definition filter_isin (c : string) (values : list pyval) (df : DataFrame)
    : result DataFrame :=
  if has_column c df
  then Ok (List.filter (λ r : row,
             match r.2 !! c with
             | Some v => str_in v values
             | None => false
             end) df)
  else Raise (KeyError c).

(** [df[c]]: the column as a [Series]. *)
Definition column (c : string) (df : DataFrame) : result (list (nat * cell)) :=
  if has_column c df
  then Ok ((λ r : row, (r.1, r.2 !! c)) <$> df)
  else Raise (KeyError c).

(** [df[df[c] == value]]. *)
Definition filter_eq (c : string) (value : string) (df : DataFrame)
    : result DataFrame :=
  if has_column c df
  then Ok (List.filter (λ r : row,
             match r.2 !! c with
             | Some v => bool_decide (v = value)
             | None => false
             end) df)
  else Raise (KeyError c).

(** [df.to_dict(orient='records')]. *)
Definition to_dict_records (df : DataFrame) : list record := df.*2.

(** ** The outside world *)

(** Every interaction with the outside is logged, newest first. *)
Inductive event :=
| EvNow (t : Z)
| EvGetPages (from to : option string) (resp : result (list record))
| EvGetPageLeads (page_id : cell) (from to : option string)
    (resp : result (list record))
| EvSleep (secs : Z).

Abbreviation world := (list event).

Definition is_request (e : event) : bool :=
  match e with
  | EvGetPages _ _ _ | EvGetPageLeads _ _ _ _ => true
  | _ => false
  end.

Definition is_get_pages (e : event) : bool :=
  match e with EvGetPages _ _ _ => true | _ => false end.

Definition is_get_page_leads (e : event) : bool :=
  match e with EvGetPageLeads _ _ _ _ => true | _ => false end.

Definition is_now (e : event) : bool :=
  match e with EvNow _ => true | _ => false end.

Definition is_sleep (e : event) : bool :=
  match e with EvSleep _ => true | _ => false end.

Definition count_events (p : event → bool) (w : world) : nat :=
  length (List.filter p w).

(** The [unbounceapi] client: what the n-th request of the run answers
    ([limit='1000'] and [with_stats='true'] are fixed by the callers).  The
    answer is the list under ['pages'] (resp. ['leads']) or the exception the
    client raised. *)
Record Unbounce := {
  get_pages : nat → option string → option string → result (list record);
  get_page_leads :
    nat → cell → option string → option string → result (list record)
}.

(** [UnbounceConnection.__init__]. *)
Record UnbounceConnection := {
  get_timeout_time : Z;
  extract_timeout_time : Z;
  client : Unbounce
}.

(** State and exceptions over the trace; [None] is fuel exhaustion. *)
Definition M (A : Type) : Type := world → option (result A * world).

Definition ret {A} (a : A) : M A := λ w, Some (Ok a, w).

Definition raise {A} (e : exn) : M A := λ w, Some (Raise e, w).

Definition out_of_fuel {A} : M A := λ _, None.

Definition bind {A B} (m : M A) (k : A → M B) : M B :=
  λ w, match m w with
       | Some (Ok a, w') => k a w'
       | Some (Raise e, w') => Some (Raise e, w')
       | None => None
       end.

Definition lift {A} (r : result A) : M A := λ w, Some (r, w).

Notation "x <- m ;; k" := (bind m (λ x, k))
  (at level 100, m at next level, right associativity,
   format "'[v' x  <-  m  ;;  '/' k ']'").
Notation "m ;;; k" := (bind m (λ _, k))
  (at level 100, right associativity).

(** [(later - earlier).seconds] of a [timedelta], both instants in
    microseconds: the seconds field of the normalised difference, between 0
    and 86399; whole days go to the [days] field. *)
Definition timedelta_seconds (later earlier : Z) : Z :=
  ((later - earlier) `mod` 86400000000) `div` 1000000.

Section Extraction.

(** [datetime.now()], in microseconds: the n-th reading of the clock. *)
Variable now : nat → Z.

Definition datetime_now : M Z :=
  λ w, let t := now (count_events is_now w) in Some (Ok t, EvNow t :: w).

Definition time_sleep (secs : Z) : M unit :=
  λ w, Some (Ok tt, EvSleep secs :: w).

(** A request to the client: the answer depends on how many requests came
    before, and the request is logged with its answer. *)
Definition request (ev : result (list record) → event)
    (answer : nat → result (list record)) : M (list record) :=
  λ w, let r := answer (count_events is_request w) in Some (r, ev r :: w).

(** [self.client.pages.get_pages(_from=from, to=to, limit='1000',
    with_stats='true')['pages']]. *)
Definition client_get_pages (self : UnbounceConnection)
    (from to : option string) : M (list record) :=
  request (EvGetPages from to) (λ n, get_pages (client self) n from to).

(** [self.client.pages.get_page_leads(page_id=page_id, _from=from, to=to,
    limit='1000')['leads']]. *)
Definition client_get_page_leads (self : UnbounceConnection) (page_id : cell)
    (from to : option string) : M (list record) :=
  request (EvGetPageLeads page_id from to)
    (λ n, get_page_leads (client self) n page_id from to).

(** [records[-1][field]]. *)
Definition last_field (field : string) (records : list record) : result string :=
  match list.last records with
  | Some r =>
      match r !! field with
      | Some v => Ok v
      | None => Raise (KeyError field)
      end
  | None => Raise (KeyError field)
  end.

(** The deadline test at the head of both request loops. *)
Definition check_deadline (self : UnbounceConnection) (START_TIME : Z) : M unit :=
  t <- datetime_now ;;
  if timedelta_seconds t START_TIME >? extract_timeout_time self
  then raise RecursionError
  else ret tt.

(** The counter at the foot of both request loops. *)
Definition count_request (itr : Z) : M Z :=
  let itr := itr + 1 in
  if itr =? 495
  then (time_sleep 60 ;;; ret 0)
  else ret itr.

(** *** The request loop

    The [while cont] loops of [bulk_get_pages] and [bulk_get_leads] are the
    same text up to the request made, the columns compared by [duplicated] and
    the name of the creation field; [fetch], [subset] and [created] stand for
    these. *)

Record loop_state := {
  loop_df : DataFrame;
  loop_date_start : option string;
  loop_cont : bool;
  loop_itr : Z
}.

Section RequestLoop.

Variable self : UnbounceConnection.
Variable START_TIME : Z.
Variable fetch : option string → M (list record).
Variable subset : list string.
Variable created : string.

(** One pass through the body of the loop; the boolean tells whether the pass
    left the loop by [break]. *)
Definition request_body (st : loop_state) : M (bool * loop_state) :=
  check_deadline self START_TIME ;;;
  fetched <- fetch (loop_date_start st) ;;
  let new_df := DataFrame_of fetched in
  match fetched with
  | [] => ret (true, st)
  | _ =>
      let df := append (loop_df st) new_df in
      mask <- lift (duplicated subset df) ;;
      let dropped := boolean_index df mask in
      df <- lift (drop_duplicates subset df) ;;
      date_start <- lift (last_field created fetched) ;;
      let cont := negb (equals new_df dropped) in
      itr <- count_request (loop_itr st) ;;
      ret (false, {| loop_df := df;
                     loop_date_start := Some date_start;
                     loop_cont := cont;
                     loop_itr := itr |})
  end.

Fixpoint request_while (fuel : nat) (st : loop_state) : M loop_state :=
  if loop_cont st then
    match fuel with
    | O => out_of_fuel
    | S fuel' =>
        r <- request_body st ;;
        if r.1 then ret r.2 else request_while fuel' r.2
    end
  else ret st.

End RequestLoop.

(** *** [bulk_get_pages] *)

Definition pages_subset : list string := ["id"].

Definition pages_body (self : UnbounceConnection) (START_TIME : Z)
    (date_end : option string) : loop_state → M (bool * loop_state) :=
  request_body self START_TIME
    (λ date_start, client_get_pages self date_start date_end)
    pages_subset "createdAt".

Definition pages_while (fuel : nat) (self : UnbounceConnection) (START_TIME : Z)
    (date_end : option string) : loop_state → M loop_state :=
  request_while self START_TIME
    (λ date_start, client_get_pages self date_start date_end)
    pages_subset "createdAt" fuel.

(** Python truth of an optional list and of an optional string. *)
Definition truthy_list {A} (l : option (list A)) : bool :=
  match l with
  | Some (_ :: _) => true
  | _ => false
  end.

Definition truthy_str (s : option string) : bool :=
  match s with
  | Some s => negb (String.eqb s "")
  | None => false
  end.

(** The filters applied after the loop. *)
Definition pages_filters (domain_list page_id_list : option (list pyval))
    (state : option string) (pages_df : DataFrame) : result DataFrame :=
  result_bind
    (if truthy_list domain_list
     then filter_isin "domain" (default [] domain_list) pages_df
     else Ok pages_df) (λ pages_df,
  result_bind
    (if truthy_list page_id_list
     then filter_isin "page_id" (default [] page_id_list) pages_df
     else Ok pages_df) (λ pages_df,
  if truthy_str state
  then filter_eq "state" (default "" state) pages_df
  else Ok pages_df)).

Definition bulk_get_pages (fuel : nat) (self : UnbounceConnection)
    (date_start date_end : option string)
    (domain_list page_id_list : option (list pyval)) (state : option string)
    : M (list record) :=
  START_TIME <- datetime_now ;;
  st <- pages_while fuel self START_TIME date_end
          {| loop_df := []; loop_date_start := date_start;
             loop_cont := true; loop_itr := 0 |} ;;
  let pages_df := rename "id" "page_id" (loop_df st) in
  pages_df <- lift (pages_filters domain_list page_id_list state pages_df) ;;
  ret (to_dict_records pages_df).

(** *** [bulk_get_leads] *)

Definition leads_subset : list string :=
  ["created_at"; "id"; "page_id"; "variant_id"].

Definition leads_body (self : UnbounceConnection) (START_TIME : Z)
    (date_end : option string) (page_id : cell)
    : loop_state → M (bool * loop_state) :=
  request_body self START_TIME
    (λ date_start, client_get_page_leads self page_id date_start date_end)
    leads_subset "created_at".

Definition leads_while (fuel : nat) (self : UnbounceConnection) (START_TIME : Z)
    (date_end : option string) (page_id : cell) : loop_state → M loop_state :=
  request_while self START_TIME
    (λ date_start, client_get_page_leads self page_id date_start date_end)
    leads_subset "created_at" fuel.

(** [page_ids_all] is either the Python list passed by the caller or the
    ['page_id'] column of the pages just looked up. *)
Inductive page_ids :=
| IdsList (l : list pyval)
| IdsSeries (s : list (nat * cell)).

(** [page_ids_all.empty]: a [Series] has the attribute, a list has not. *)
Definition page_ids_empty (ids : page_ids) : result bool :=
  match ids with
  | IdsList _ => Raise AttributeError
  | IdsSeries s => Ok (bool_decide (s = []))
  end.

(** The values met by [for page_id in page_ids_all] (for a list, which never
    gets as far as the loop, the ids that are strings). *)
Definition page_ids_iter (ids : page_ids) : list cell :=
  match ids with
  | IdsList l => (λ v, match v with PyStr s => Some s | _ => None end) <$> l
  | IdsSeries s => s.*2
  end.

(** The [for page_id in page_ids_all] loop; the frame and the counter live
    across its passes, the cursor starts again from [OG_DATE_START]. *)
Fixpoint leads_for (fuel : nat) (self : UnbounceConnection) (START_TIME : Z)
    (OG_DATE_START date_end : option string) (ids : list cell)
    (leads_df : DataFrame) (itr : Z) : M (DataFrame * Z) :=
  match ids with
  | [] => ret (leads_df, itr)
  | page_id :: ids' =>
      st <- leads_while fuel self START_TIME date_end page_id
              {| loop_df := leads_df; loop_date_start := OG_DATE_START;
                 loop_cont := true; loop_itr := itr |} ;;
      leads_for fuel self START_TIME OG_DATE_START date_end ids'
        (loop_df st) (loop_itr st)
  end.

Definition bulk_get_leads (fuel : nat) (self : UnbounceConnection)
    (date_start date_end : option string)
    (lead_id_list page_id_list : option (list pyval)) : M (list record) :=
  START_TIME <- datetime_now ;;
  let OG_DATE_START := date_start in
  let leads_df : DataFrame := [] in
  page_ids_all <-
    (if truthy_list page_id_list
     then ret (IdsList (default [] page_id_list))
     else
       pages <- bulk_get_pages fuel self None date_end None None None ;;
       page_id <- lift (column "page_id" (DataFrame_of pages)) ;;
       ret (IdsSeries page_id)) ;;
  empty <- lift (page_ids_empty page_ids_all) ;;
  if (empty : bool) then ret []
  else
    let itr := 0 in
    r <- leads_for fuel self START_TIME OG_DATE_START date_end
           (page_ids_iter page_ids_all) leads_df itr ;;
    let leads_df := rename "id" "lead_id" r.1 in
    leads_df <- lift (if truthy_list lead_id_list
                      then filter_isin "lead_id" (default [] lead_id_list) leads_df
                      else Ok leads_df) ;;
    ret (to_dict_records leads_df).

(** *** Dates

    [datetime.strptime(s, '%Y-%m-%d')]: a four-digit year, a month written
    [1[0-2]|0[1-9]|[1-9]], a day written [3[01]|[12]\d|0[1-9]|[1-9]| [1-9]],
    nothing after; then the date has to exist (year at least 1, day within the
    month).  Every failure, a value that is no string included, reaches the
    caller's bare [except]; it is [None] here. *)

Definition digit (a : ascii) : option Z :=
  let n := Z.of_nat (nat_of_ascii a) in
  if (48 <=? n) && (n <=? 57) then Some (n - 48) else None.

Definition is_dash (a : ascii) : bool := Ascii.eqb a "-"%char.

Definition month_field (a b : ascii) : option Z :=
  match digit a, digit b with
  | Some 1, Some d => if d <=? 2 then Some (10 + d) else None
  | Some 0, Some d => if 1 <=? d then Some d else None
  | _, _ => None
  end.

Definition single_field (a : ascii) : option Z :=
  match digit a with
  | Some d => if 1 <=? d then Some d else None
  | None => None
  end.

Definition day_field (s : string) : option Z :=
  match s with
  | String a EmptyString => single_field a
  | String a (String b EmptyString) =>
      if Ascii.eqb a " "%char then single_field b
      else
        match digit a, digit b with
        | Some 3, Some d => if d <=? 1 then Some (30 + d) else None
        | Some 1, Some d => Some (10 + d)
        | Some 2, Some d => Some (20 + d)
        | Some 0, Some d => if 1 <=? d then Some d else None
        | _, _ => None
        end
  | _ => None
  end.

Definition is_leap (y : Z) : bool :=
  (y `mod` 4 =? 0) && (negb (y `mod` 100 =? 0) || (y `mod` 400 =? 0)).

Definition days_in_month (y m : Z) : Z :=
  if m =? 2 then (if is_leap y then 29 else 28)
  else if (m =? 4) || (m =? 6) || (m =? 9) || (m =? 11) then 30
  else 31.

Definition days_before_month (y m : Z) : Z :=
  foldr (λ k acc, days_in_month y k + acc) 0 (seqZ 1 (m - 1)).

Definition days_before_year (y : Z) : Z :=
  let p := y - 1 in
  p * 365 + p `div` 4 - p `div` 100 + p `div` 400.

(** A date at midnight, by its proleptic Gregorian ordinal. *)
Definition toordinal (y m d : Z) : Z :=
  days_before_year y + days_before_month y m + d.

Definition make_date (y m d : Z) : option Z :=
  if (1 <=? y) && (d <=? days_in_month y m)
  then Some (toordinal y m d)
  else None.

Definition strptime_ymd (s : string) : option Z :=
  match s with
  | String y1 (String y2 (String y3 (String y4 (String c1 rest)))) =>
      match digit y1, digit y2, digit y3, digit y4 with
      | Some a, Some b, Some c, Some d =>
          let y := ((a * 10 + b) * 10 + c) * 10 + d in
          if is_dash c1 then
            match rest with
            | String m1 (String c2 rest') =>
                if is_dash c2 then
                  m ← single_field m1; d ← day_field rest'; make_date y m d
                else
                  match rest' with
                  | String c3 rest'' =>
                      if is_dash c3 then
                        m ← month_field m1 c2; d ← day_field rest'';
                        make_date y m d
                      else None
                  | EmptyString => None
                  end
            | _ => None
            end
          else None
      | _, _, _, _ => None
      end
  | _ => None
  end.

Definition strptime (v : pyval) : option Z :=
  match v with
  | PyStr s => strptime_ymd s
  | _ => None
  end.

(** [str(v) + 'T00:00:00.000Z'], only reached for a string. *)
Definition with_midnight (v : pyval) : string :=
  match v with
  | PyStr s => s +:+ "T00:00:00.000Z"
  | _ => ""
  end.

(** *** [process_date_range] *)

Definition ACCEPTABLE_DATE_RANGE_KEYS : list string := ["date_start"; "date_end"].

Definition keys_within (d : gmap string pyval) (acceptable : list string) : bool :=
  forallb (λ k : string, bool_decide (k ∈ acceptable)) (map_to_list d).*1.

(** One of the two [if key in date_range.keys()] blocks: the formatted date
    and the parsed [datetime]. *)
Definition process_date (d : gmap string pyval) (key : string)
    : result (option string * option Z) :=
  match d !! key with
  | Some v =>
      match strptime v with
      | Some dt => Ok (Some (with_midnight v), Some dt)
      | None => Raise ValueError
      end
  | None => Ok (None, None)
  end.

Definition process_date_range (date_range : pyval)
    : result (option string * option string) :=
  match date_range with
  | PyDict d =>
      if keys_within d ACCEPTABLE_DATE_RANGE_KEYS then
        result_bind (process_date d "date_start") (λ '(date_start, datetime_start),
        result_bind (process_date d "date_end") (λ '(date_end, datetime_end),
        if truthy_str date_start && truthy_str date_end then
          let days := default 0 datetime_end - default 0 datetime_start in
          if days =? 0 then Raise ValueError
          else if days <? 0 then Raise ValueError
          else Ok (date_start, date_end)
        else Ok (date_start, date_end)))
      else Raise ValueError
  | _ => Raise TypeError
  end.

(** *** [process_bulk_pages], [process_bulk_leads], [bulk_extract] *)

(** The [if 'created_at' in filters.keys()] block. *)
Definition process_created_at (filters : gmap string pyval)
    : result (option string * option string) :=
  match filters !! "created_at" with
  | Some date_range => process_date_range date_range
  | None => Ok (None, None)
  end.

(** The blocks that accept a string or a list ([domain], [page_id],
    [lead_id]). *)
Definition process_str_or_list (filters : gmap string pyval) (key : string)
    : result (option (list pyval)) :=
  match filters !! key with
  | Some (PyStr s) => Ok (Some [PyStr s])
  | Some (PyList l) => Ok (Some l)
  | Some _ => Raise TypeError
  | None => Ok None
  end.

Definition ACCEPTABLE_STATE_TYPES : list string := ["published"; "unpublished"].

(** The [if 'state' in filters.keys()] block. *)
Definition process_state (filters : gmap string pyval) : result (option string) :=
  match filters !! "state" with
  | Some (PyStr s) =>
      if bool_decide (s ∈ ACCEPTABLE_STATE_TYPES) then Ok (Some s)
      else Raise ValueError
  | Some _ => Raise ValueError
  | None => Ok None
  end.

Definition ACCEPTABLE_PAGE_FILTER_TYPES : list string :=
  ["created_at"; "domain"; "page_id"; "state"].

Definition ACCEPTABLE_LEAD_FILTER_TYPES : list string :=
  ["created_at"; "lead_id"; "page_id"].

Definition process_bulk_pages (fuel : nat) (self : UnbounceConnection)
    (filters : pyval) : M (list record) :=
  match filters with
  | PyDict filters =>
      if keys_within filters ACCEPTABLE_PAGE_FILTER_TYPES then
        dates <- lift (process_created_at filters) ;;
        domain_list <- lift (process_str_or_list filters "domain") ;;
        page_id_list <- lift (process_str_or_list filters "page_id") ;;
        state <- lift (process_state filters) ;;
        bulk_get_pages fuel self dates.1 dates.2 domain_list page_id_list state
      else raise ValueError
  | _ => raise TypeError
  end.

Definition process_bulk_leads (fuel : nat) (self : UnbounceConnection)
    (filters : pyval) : M (list record) :=
  match filters with
  | PyDict filters =>
      if keys_within filters ACCEPTABLE_LEAD_FILTER_TYPES then
        dates <- lift (process_created_at filters) ;;
        lead_id_list <- lift (process_str_or_list filters "lead_id") ;;
        page_id_list <- lift (process_str_or_list filters "page_id") ;;
        bulk_get_leads fuel self dates.1 dates.2 lead_id_list page_id_list
      else raise ValueError
  | _ => raise TypeError
  end.

Definition ACCEPTABLE_OBJ_TYPES : list string := ["pages"; "leads"].

Definition bulk_extract (fuel : nat) (self : UnbounceConnection)
    (extract_obj : string) (filters : pyval) : M (list record) :=
  if bool_decide (extract_obj ∈ ACCEPTABLE_OBJ_TYPES) then
    if String.eqb extract_obj "pages"
    then process_bulk_pages fuel self filters
    else process_bulk_leads fuel self filters
  else raise ValueError.

End Extraction.

(** * Vocabulary of the properties *)

(** The rows kept by [drop_duplicates] and the rows it drops, when the keys
    in [seen] count as already met. *)
Definition firsts_from (subset : list string) (seen : list (list cell))
    (df : DataFrame) : DataFrame :=
  boolean_index df (negb <$> duplicated_from subset seen df).

Definition dups_from (subset : list string) (seen : list (list cell))
    (df : DataFrame) : DataFrame :=
  boolean_index df (duplicated_from subset seen df).

Definition keys (subset : list string) (df : DataFrame) : list (list cell) :=
  row_key subset <$> df.

(** The rows with key [k]. *)
Definition with_key (subset : list string) (k : list cell) (df : DataFrame)
    : DataFrame :=
  filter (λ r, row_key subset r = k) df.

(** The answer logged with a request. *)
Definition response (e : event) : option (result (list record)) :=
  match e with
  | EvGetPages _ _ r | EvGetPageLeads _ _ _ r => Some r
  | _ => None
  end.

(** The rows a logged request brought. *)
Definition event_rows (e : event) : DataFrame :=
  match response e with
  | Some (Ok fetched) => DataFrame_of fetched
  | _ => []
  end.

(** All rows brought by the requests of one kind, in the order of the
    requests (the trace is newest first). *)
Definition rows_of (kind : event → bool) (w : world) : DataFrame :=
  foldr (λ e acc, acc ++ (if kind e then event_rows e else [])) [] w.

(** [after] is [before] with, for every key, only its first row kept, in
    the order of [before]. *)
Definition keeps_first_seen (subset : list string) (before after : DataFrame)
    : Prop :=
  NoDup (keys subset after)
  ∧ after `sublist_of` before
  ∧ ∀ k, head (with_key subset k after) = head (with_key subset k before).

(** Every fetched row has exactly one row of its key in [result]. *)
Definition exactly_once (subset : list string) (fetched result : DataFrame)
    : Prop :=
  ∀ x, x ∈ fetched →
       length (with_key subset (row_key subset x) result) = 1%nat.

(** The state a loop is entered with, up to the cursor. *)
Definition entering (df : DataFrame) (date_start : option string) (itr : Z)
    : loop_state :=
  {| loop_df := df; loop_date_start := date_start;
     loop_cont := true; loop_itr := itr |}.

(** The test a page has to pass to be returned: membership of its
    ['domain'] and of its ['page_id'] in the lists given, equality of its
    ['state'] with the state given; a filter that was not given (or is empty)
    lets every page through. *)
Definition cell_in (values : option (list pyval)) (c : cell) : bool :=
  if truthy_list values
  then match c with
       | Some v => str_in v (default [] values)
       | None => false
       end
  else true.

Definition cell_is (value : option string) (c : cell) : bool :=
  if truthy_str value
  then match c with
       | Some v => bool_decide (v = default "" value)
       | None => false
       end
  else true.

Definition page_passes (domain_list page_id_list : option (list pyval))
    (state : option string) (r : record) : bool :=
  cell_in domain_list (r !! "domain")
  && cell_in page_id_list (r !! "page_id")
  && cell_is state (r !! "state").

(** *** Filters that have to be refused

    The filter keys accepted for the object extracted. *)
Definition acceptable_keys (extract_obj : string) : list string :=
  if String.eqb extract_obj "pages"
  then ACCEPTABLE_PAGE_FILTER_TYPES
  else ACCEPTABLE_LEAD_FILTER_TYPES.

Definition is_str_or_list (v : pyval) : Prop :=
  match v with
  | PyStr _ | PyList _ => True
  | _ => False
  end.

Definition is_dict (v : pyval) : Prop :=
  match v with
  | PyDict _ => True
  | _ => False
  end.

(** A value of ['created_at'] that is no mapping, has a key other than
    ['date_start'] and ['date_end'], has a date that is no string in the
    format [%Y-%m-%d], or has an end equal to or earlier than its start. *)
Inductive invalid_date_range : pyval → Prop :=
| date_range_not_dict v :
    ¬ is_dict v → invalid_date_range v
| date_range_unknown_key d k :
    is_Some (d !! k) → k ∉ ACCEPTABLE_DATE_RANGE_KEYS →
    invalid_date_range (PyDict d)
| date_range_malformed d k v :
    k ∈ ACCEPTABLE_DATE_RANGE_KEYS → d !! k = Some v → strptime v = None →
    invalid_date_range (PyDict d)
| date_range_not_positive d v_start v_end day_start day_end :
    d !! "date_start" = Some v_start → d !! "date_end" = Some v_end →
    strptime v_start = Some day_start → strptime v_end = Some day_end →
    day_end ≤ day_start →
    invalid_date_range (PyDict d).

(** A filters mapping with an unrecognized key, an invalid ['created_at'],
    a ['domain'], ['page_id'] or ['lead_id'] that is neither a string nor a
    list, or a ['state'] that is not one of the two publish states. *)
Inductive invalid_filters (extract_obj : string) (filters : gmap string pyval)
    : Prop :=
| filters_unknown_key k :
    is_Some (filters !! k) → k ∉ acceptable_keys extract_obj →
    invalid_filters extract_obj filters
| filters_created_at v :
    filters !! "created_at" = Some v → invalid_date_range v →
    invalid_filters extract_obj filters
| filters_wrong_type k v :
    k ∈ ["domain"; "page_id"; "lead_id"] → filters !! k = Some v →
    ¬ is_str_or_list v →
    invalid_filters extract_obj filters
| filters_state v :
    filters !! "state" = Some v →
    (∀ s, s ∈ ACCEPTABLE_STATE_TYPES → v ≠ PyStr s) →
    invalid_filters extract_obj filters.

(** The two exceptions raised by the validation. *)
Definition validation_error (e : exn) : Prop := e = ValueError ∨ e = TypeError.

(** *** The rate counter as a machine reading the trace

    [Counting itr] is the counter between two requests; [Pausing] means that
    the counter has just reached 495 and that the only thing that may follow
    is the pause of 60 seconds, which resets the counter. *)
Inductive governor :=
| Counting (itr : Z)
| Pausing.

Definition governor_step (counts : event → bool) (g : governor) (e : event)
    : option governor :=
  match g with
  | Pausing =>
      match e with
      | EvSleep 60 => Some (Counting 0)
      | _ => None
      end
  | Counting itr =>
      if is_sleep e then None
      else if counts e then
        if itr + 1 =? 495 then Some Pausing else Some (Counting (itr + 1))
      else Some (Counting itr)
  end.

(** The machine run over a trace, oldest event first; [None] when the trace
    is not one the machine allows. *)
Definition governor_run (counts : event → bool) (g : option governor)
    (w : world) : option governor :=
  foldr (λ e acc, acc ≫= (λ g, governor_step counts g e)) g w.

(** A request counts for the code when its page was not empty. *)
Definition brought_records (e : event) : bool :=
  match response e with
  | Some (Ok (_ :: _)) => true
  | _ => false
  end.

(** ** Concrete clients and clocks used in the examples *)

(** A clock that advances one second per reading. *)
Definition clock_1s (n : nat) : Z := Z.of_nat n * 1000000.

Definition page_p1 : record :=
  {[ "id" := "p1"; "createdAt" := "2019-08-09T10:00:00.000Z";
     "domain" := "get.example.com"; "state" := "published" ]}.

(** A clock whose first reading is 0 and whose later readings are 90001
    seconds after it. *)
Definition clock_25h (n : nat) : Z :=
  match n with
  | O => 0
  | S _ => 90001 * 1000000
  end.

(** The client that answers every page request with the one page [page_p1]
    and has no leads. *)
Definition client_same_page : Unbounce :=
  {| get_pages := λ _ _ _, Ok [page_p1];
     get_page_leads := λ _ _ _ _, Ok [] |}.

Definition lead_l1 : record :=
  {[ "id" := "l1"; "created_at" := "2019-08-10T08:30:00.000Z";
     "page_id" := "p1"; "variant_id" := "a" ]}.

(** The client that answers every page request with [page_p1] and every
    lead request with the one lead [lead_l1]. *)
Definition client_same_lead : Unbounce :=
  {| get_pages := λ _ _ _, Ok [page_p1];
     get_page_leads := λ _ _ _ _, Ok [lead_l1] |}.

Definition page_p2 : record :=
  {[ "id" := "p2"; "createdAt" := "2019-08-09T11:00:00.000Z";
     "domain" := "get.example.com"; "state" := "unpublished" ]}.

(** The client with two pages: the first request brings both, every later
    request brings the second one again (the cursor is inclusive); every
    lead request brings the one lead [lead_l1]. *)
Definition client_boundary : Unbounce :=
  {| get_pages := λ n _ _,
       match n with
       | O => Ok [page_p1; page_p2]
       | S _ => Ok [page_p2]
       end;
     get_page_leads := λ _ _ _ _, Ok [lead_l1] |}.

(** A page numbered [n]. *)
Definition numbered_page (n : nat) : record :=
  {[ "id" := NilEmpty.string_of_uint (Nat.to_uint n);
     "createdAt" := "2019-08-09T10:00:00.000Z" ]}.

(** A client with 495 pages: the first page request brings 494 of them, the
    second brings the last one, the third nothing; a lead request brings the
    one lead [lead_l1] when fewer than [k] requests came before it, and
    nothing afterwards. *)
Definition client_busy (k : nat) : Unbounce :=
  {| get_pages := λ n _ _,
       match n with
       | O => Ok (numbered_page <$> seq 0 494)
       | S O => Ok [numbered_page 494]
       | S (S _) => Ok []
       end;
     get_page_leads := λ n _ _ _,
       if decide (n < k)%nat then Ok [lead_l1] else Ok [] |}.

(** The client of an account without pages. *)
Definition client_no_pages : Unbounce :=
  {| get_pages := λ _ _ _, Ok [];
     get_page_leads := λ _ _ _ _, Ok [] |}.

Definition connection (c : Unbounce) (bulk_extract_timeout : Z)
    : UnbounceConnection :=
  {| get_timeout_time := 600;
     extract_timeout_time := bulk_extract_timeout;
     client := c |}.

(** * Frames: duplicates *)

Section Frames.

Variable subset : list string.

Lemma keys_nil : keys subset [] = [].
Proof. done. Qed.

Lemma keys_cons r df : keys subset (r :: df) = row_key subset r :: keys subset df.
Proof. done. Qed.

Lemma keys_app a b : keys subset (a ++ b) = keys subset a ++ keys subset b.
Proof. apply fmap_app. Qed.

Lemma elem_of_keys k df : k ∈ keys subset df ↔ ∃ r, r ∈ df ∧ row_key subset r = k.
Proof. unfold keys. rewrite list_elem_of_fmap. split; [intros (r & -> & ?) | intros (r & ? & <-)]; eauto. Qed.

Lemma duplicated_from_length seen df :
  length (duplicated_from subset seen df) = length df.
Proof.
  revert seen. induction df as [|r df IH]; intros seen; simpl; [done|].
  by rewrite IH.
Qed.

Lemma duplicated_from_ext s1 s2 df :
  (∀ k, k ∈ s1 ↔ k ∈ s2) →
  duplicated_from subset s1 df = duplicated_from subset s2 df.
Proof.
  revert s1 s2. induction df as [|r df IH]; intros s1 s2 Hs; simpl; [done|].
  f_equal.
  - apply bool_decide_ext, Hs.
  - apply IH. intros k. rewrite !elem_of_cons, Hs. done.
Qed.

Lemma duplicated_from_app seen a b :
  duplicated_from subset seen (a ++ b)
  = duplicated_from subset seen a
      ++ duplicated_from subset (keys subset a ++ seen) b.
Proof.
  revert seen. induction a as [|r a IH]; intros seen; simpl; [done|].
  f_equal. rewrite IH. apply (f_equal (app _)), duplicated_from_ext.
  intros k. rewrite !elem_of_app, !elem_of_cons, elem_of_app. tauto.
Qed.

Lemma boolean_index_app a b ma mb :
  length a = length ma →
  boolean_index (a ++ b) (ma ++ mb) = boolean_index a ma ++ boolean_index b mb.
Proof.
  revert ma. induction a as [|r a IH]; intros [|m ma] Hl; simpl in *; try done.
  rewrite IH by lia. by destruct m.
Qed.

Lemma firsts_from_nil seen : firsts_from subset seen [] = [].
Proof. done. Qed.

Lemma firsts_from_cons seen r df :
  firsts_from subset seen (r :: df)
  = if bool_decide (row_key subset r ∈ seen)
    then firsts_from subset (row_key subset r :: seen) df
    else r :: firsts_from subset (row_key subset r :: seen) df.
Proof. unfold firsts_from. simpl. by case_bool_decide. Qed.

Lemma dups_from_cons seen r df :
  dups_from subset seen (r :: df)
  = if bool_decide (row_key subset r ∈ seen)
    then r :: dups_from subset (row_key subset r :: seen) df
    else dups_from subset (row_key subset r :: seen) df.
Proof. unfold dups_from. simpl. by case_bool_decide. Qed.

Lemma firsts_from_ext s1 s2 df :
  (∀ k, k ∈ s1 ↔ k ∈ s2) → firsts_from subset s1 df = firsts_from subset s2 df.
Proof. intros Hs. unfold firsts_from. by rewrite (duplicated_from_ext s1 s2). Qed.

Lemma dups_from_ext s1 s2 df :
  (∀ k, k ∈ s1 ↔ k ∈ s2) → dups_from subset s1 df = dups_from subset s2 df.
Proof. intros Hs. unfold dups_from. by rewrite (duplicated_from_ext s1 s2). Qed.

Lemma firsts_from_app seen a b :
  firsts_from subset seen (a ++ b)
  = firsts_from subset seen a ++ firsts_from subset (keys subset a ++ seen) b.
Proof.
  unfold firsts_from. rewrite duplicated_from_app, fmap_app.
  apply boolean_index_app. by rewrite length_fmap, duplicated_from_length.
Qed.

Lemma dups_from_app seen a b :
  dups_from subset seen (a ++ b)
  = dups_from subset seen a ++ dups_from subset (keys subset a ++ seen) b.
Proof.
  unfold dups_from. rewrite duplicated_from_app.
  apply boolean_index_app. by rewrite duplicated_from_length.
Qed.

Lemma firsts_from_sublist seen df : firsts_from subset seen df `sublist_of` df.
Proof.
  revert seen. induction df as [|r df IH]; intros seen; [done|].
  rewrite firsts_from_cons. case_bool_decide.
  - by apply sublist_cons.
  - by apply sublist_skip.
Qed.

Lemma dups_from_sublist seen df : dups_from subset seen df `sublist_of` df.
Proof.
  revert seen. induction df as [|r df IH]; intros seen; [done|].
  rewrite dups_from_cons. case_bool_decide.
  - by apply sublist_skip.
  - by apply sublist_cons.
Qed.

Lemma elem_of_keys_firsts seen df k :
  k ∈ keys subset (firsts_from subset seen df) ↔ k ∈ keys subset df ∧ k ∉ seen.
Proof.
  revert seen. induction df as [|r df IH]; intros seen.
  - rewrite firsts_from_nil, keys_nil, elem_of_nil. tauto.
  - rewrite firsts_from_cons, keys_cons. case_bool_decide as Hr.
    + rewrite IH, !elem_of_cons. naive_solver.
    + rewrite keys_cons, !elem_of_cons, IH, !elem_of_cons.
      destruct (decide (k = row_key subset r)) as [->|]; naive_solver.
Qed.

Lemma NoDup_keys_firsts seen df : NoDup (keys subset (firsts_from subset seen df)).
Proof.
  revert seen. induction df as [|r df IH]; intros seen.
  - constructor.
  - rewrite firsts_from_cons. case_bool_decide; [apply IH|].
    rewrite keys_cons. constructor; [|apply IH].
    rewrite elem_of_keys_firsts, elem_of_cons. tauto.
Qed.

Lemma firsts_from_id seen df :
  NoDup (keys subset df) → (∀ k, k ∈ keys subset df → k ∉ seen) →
  firsts_from subset seen df = df ∧ dups_from subset seen df = [].
Proof.
  revert seen. induction df as [|r df IH]; intros seen Hnd Hseen; [done|].
  rewrite keys_cons in Hnd, Hseen. apply NoDup_cons in Hnd as [Hr Hnd].
  rewrite firsts_from_cons, dups_from_cons.
  rewrite bool_decide_eq_false_2 by (apply Hseen; left).
  destruct (IH (row_key subset r :: seen)) as [-> ->]; [done| |done].
  intros k Hk [->|Hin]%elem_of_cons; [done|].
  by apply (Hseen k); [right|].
Qed.

(** Deduplicating an already deduplicated prefix again changes nothing. *)
Lemma firsts_from_firsts_app a b :
  firsts_from subset [] (firsts_from subset [] a ++ b)
  = firsts_from subset [] (a ++ b).
Proof.
  rewrite !firsts_from_app.
  destruct (firsts_from_id [] (firsts_from subset [] a)) as [-> _].
  - apply NoDup_keys_firsts.
  - intros k _. apply not_elem_of_nil.
  - f_equal. apply firsts_from_ext. intros k.
    rewrite !elem_of_app, elem_of_keys_firsts. set_solver.
Qed.

Lemma dups_from_length seen df :
  (length (dups_from subset seen df) ≤ length df)%nat.
Proof. apply sublist_length, dups_from_sublist. Qed.

(** Every row is dropped exactly when every key was met before. *)
Lemma dups_from_all seen df :
  dups_from subset seen df = df ↔ ∀ r, r ∈ df → row_key subset r ∈ seen.
Proof.
  revert seen. induction df as [|r df IH]; intros seen.
  - split; [|done]. intros _ r Hr. by apply elem_of_nil in Hr.
  - rewrite dups_from_cons. case_bool_decide as Hr.
    + split.
      * intros [= Heq]. pose proof (proj1 (IH _) Heq) as Hall.
        intros r' [->|Hin]%elem_of_cons; [done|].
        specialize (Hall r' Hin). apply elem_of_cons in Hall as [->|]; done.
      * intros Hall. f_equal. apply (proj2 (IH _)). intros r' Hin.
        right. apply Hall. by right.
    + split.
      * intros Heq. pose proof (dups_from_length (row_key subset r :: seen) df) as Hl.
        rewrite Heq in Hl. simpl in Hl. lia.
      * intros Hall. destruct Hr. apply Hall. by left.
Qed.

(** The row kept for a key is the first row that had it. *)
Lemma head_with_key_firsts seen k df :
  k ∉ seen →
  head (with_key subset k (firsts_from subset seen df))
  = head (with_key subset k df).
Proof.
  unfold with_key. revert seen. induction df as [|r df IH]; intros seen Hk; [done|].
  rewrite firsts_from_cons. case_bool_decide as Hr.
  - assert (row_key subset r ≠ k) as Hne by congruence.
    rewrite (filter_cons_False _ r) by done.
    apply IH. rewrite elem_of_cons. intros [?|?]; congruence.
  - destruct (decide (row_key subset r = k)) as [Heq|Hne].
    + by rewrite !filter_cons_True.
    + rewrite !filter_cons_False by done.
      apply IH. rewrite elem_of_cons. intros [?|?]; congruence.
Qed.

Lemma with_key_length_NoDup k df :
  NoDup (keys subset df) → k ∈ keys subset df →
  length (with_key subset k df) = 1%nat.
Proof.
  unfold with_key. induction df as [|r df IH]; intros Hnd Hin.
  - by apply elem_of_nil in Hin.
  - rewrite keys_cons in Hnd, Hin. apply NoDup_cons in Hnd as [Hr Hnd].
    destruct (decide (row_key subset r = k)) as [Heq|Hne].
    + rewrite filter_cons_True by done. simpl. f_equal.
      destruct (filter _ df) as [|x l'] eqn:Hf; [done|].
      assert (x ∈ filter (λ r, row_key subset r = k) df) as Hx
        by (rewrite Hf; left).
      apply list_elem_of_filter in Hx as [Hk Hx].
      destruct Hr. rewrite Heq, <- Hk. apply elem_of_keys. eauto.
    + rewrite filter_cons_False by done. apply IH; [done|].
      apply elem_of_cons in Hin as [->|]; done.
Qed.

End Frames.

Lemma duplicated_Ok subset df mask :
  duplicated subset df = Ok mask → mask = duplicated_from subset [] df.
Proof. unfold duplicated. destruct (find _ _); congruence. Qed.

Lemma drop_duplicates_Ok subset df df' :
  drop_duplicates subset df = Ok df' → df' = firsts_from subset [] df.
Proof.
  unfold drop_duplicates, duplicated, firsts_from.
  destruct (find _ _); simpl; congruence.
Qed.

Lemma drop_duplicates_duplicated subset df mask :
  duplicated subset df = Ok mask →
  drop_duplicates subset df = Ok (firsts_from subset [] df).
Proof.
  unfold drop_duplicates, firsts_from. intros Hd.
  rewrite Hd. simpl. by rewrite (duplicated_Ok _ _ _ Hd).
Qed.

(** * The request loop, pass by pass *)

Section Passes.

Variable now : nat → Z.
Variable self : UnbounceConnection.
Variable START_TIME : Z.
Variable ev : option string → result (list record) → event.
Variable answer : option string → nat → result (list record).
Variable subset : list string.
Variable created : string.

Let body :=
  request_body now self START_TIME (λ ds, request (ev ds) (answer ds))
    subset created.
Let while :=
  request_while now self START_TIME (λ ds, request (ev ds) (answer ds))
    subset created.

(** What the counter logs after a counted request. *)
Definition pause_events (itr : Z) : world :=
  if itr + 1 =? 495 then [EvSleep 60] else [].

Definition next_itr (itr : Z) : Z :=
  if itr + 1 =? 495 then 0 else itr + 1.

(** One pass of the loop body with the monad unfolded. *)
Definition pass (st : loop_state) (w : world)
    : option (result (bool * loop_state) * world) :=
  let t := now (count_events is_now w) in
  let r := answer (loop_date_start st) (count_events is_request w) in
  let w1 := ev (loop_date_start st) r :: EvNow t :: w in
  if timedelta_seconds t START_TIME >? extract_timeout_time self
  then Some (Raise RecursionError, EvNow t :: w)
  else
    match r with
    | Raise e => Some (Raise e, w1)
    | Ok [] => Some (Ok (true, st), w1)
    | Ok fetched =>
        let df := loop_df st ++ DataFrame_of fetched in
        match duplicated subset df with
        | Raise e => Some (Raise e, w1)
        | Ok _ =>
            match last_field created fetched with
            | Raise e => Some (Raise e, w1)
            | Ok c =>
                Some (Ok (false,
                          {| loop_df := firsts_from subset [] df;
                             loop_date_start := Some c;
                             loop_cont :=
                               negb (equals (DataFrame_of fetched)
                                       (dups_from subset [] df));
                             loop_itr := next_itr (loop_itr st) |}),
                      pause_events (loop_itr st) ++ w1)
            end
        end
    end.

Lemma request_body_pass st w : body st w = pass st w.
Proof.
  unfold body, request_body, pass, check_deadline, bind, datetime_now, request.
  simpl. destruct (_ >? _); [done|]. simpl.
  destruct (answer _ _) as [[|r fetched]|e]; try done.
  unfold lift, append.
  destruct (duplicated subset _) as [mask|e] eqn:Hd; [|done].
  rewrite (drop_duplicates_duplicated _ _ _ Hd).
  destruct (last_field created _) as [c|e]; [|done].
  rewrite (duplicated_Ok _ _ _ Hd).
  unfold count_request, pause_events, next_itr, time_sleep, bind, ret, dups_from.
  by destruct (_ =? 495).
Qed.

(** What a pass that returns has done. *)
Lemma pass_Ok_inv st w b st' w' :
  pass st w = Some (Ok (b, st'), w') →
  let t := now (count_events is_now w) in
  let w1 fetched := ev (loop_date_start st) (Ok fetched) :: EvNow t :: w in
  ∃ fetched,
    answer (loop_date_start st) (count_events is_request w) = Ok fetched
    ∧ timedelta_seconds t START_TIME ≤ extract_timeout_time self
    ∧ ((fetched = [] ∧ b = true ∧ st' = st ∧ w' = w1 fetched)
       ∨ (fetched ≠ [] ∧ b = false
          ∧ (∃ c, last_field created fetched = Ok c
                  ∧ loop_date_start st' = Some c)
          ∧ loop_df st'
            = firsts_from subset [] (loop_df st ++ DataFrame_of fetched)
          ∧ loop_cont st'
            = negb (equals (DataFrame_of fetched)
                      (dups_from subset [] (loop_df st ++ DataFrame_of fetched)))
          ∧ loop_itr st' = next_itr (loop_itr st)
          ∧ w' = pause_events (loop_itr st) ++ w1 fetched)).
Proof.
  unfold pass. cbn zeta. intros Hp.
  destruct (_ >? _) eqn:Ht; [done|].
  rewrite Z.gtb_ltb in Ht. apply Z.ltb_ge in Ht.
  destruct (answer _ _) as [fetched|e] eqn:Ha; [|done].
  exists fetched. split; [done|]. split; [done|].
  destruct fetched as [|r fetched]; [left; by simplify_eq|right].
  destruct (duplicated _ _); [|done].
  destruct (last_field _ _) as [c|] eqn:Hc; [|done].
  simplify_eq. cbn. eauto 10.
Qed.

Lemma request_while_unfold fuel st w :
  while (S fuel) st w
  = if loop_cont st then
      match pass st w with
      | Some (Ok (true, st'), w') => Some (Ok st', w')
      | Some (Ok (false, st'), w') => while fuel st' w'
      | Some (Raise e, w') => Some (Raise e, w')
      | None => None
      end
    else Some (Ok st, w).
Proof.
  unfold while. simpl. destruct (loop_cont st); [|done].
  unfold bind. fold body. rewrite request_body_pass.
  destruct (pass st w) as [[[[[] st'] | e] w']|]; done.
Qed.

Lemma request_while_stop fuel st w :
  loop_cont st = false → while fuel st w = Some (Ok st, w).
Proof. intros Hc. unfold while. destruct fuel; simpl; by rewrite Hc. Qed.

(** Anything kept by every pass that returns is kept by the loop. *)
Lemma request_while_invariant (I : loop_state → world → Prop) :
  (∀ st w b st' w', I st w → pass st w = Some (Ok (b, st'), w') → I st' w') →
  ∀ fuel st w st' w',
    I st w → while fuel st w = Some (Ok st', w') → I st' w'.
Proof.
  intros Hpass. induction fuel as [|fuel IH]; intros st w st' w' HI Hrun.
  - unfold while in Hrun. simpl in Hrun.
    destruct (loop_cont st); unfold out_of_fuel, ret in Hrun; [done|].
    by simplify_eq.
  - rewrite request_while_unfold in Hrun.
    destruct (loop_cont st); [|by simplify_eq].
    destruct (pass st w) as [[[[[] st1] | e] w1]|] eqn:Hp; try done.
    + simplify_eq. by eapply Hpass.
    + eapply IH; [|done]. by eapply Hpass.
Qed.

(** More fuel never changes a result. *)
Lemma request_while_fuel fuel fuel' st w out :
  (fuel ≤ fuel')%nat → while fuel st w = Some out → while fuel' st w = Some out.
Proof.
  revert fuel' st w. induction fuel as [|fuel IH]; intros fuel' st w Hle Hrun.
  - unfold while in Hrun. simpl in Hrun.
    destruct (loop_cont st) eqn:Hc; unfold out_of_fuel, ret in Hrun; [done|].
    rewrite request_while_stop by done. congruence.
  - destruct fuel' as [|fuel']; [lia|].
    rewrite request_while_unfold in *.
    destruct (loop_cont st); [|done].
    destruct (pass st w) as [[[[[] st1] | e] w1]|]; try done.
    apply IH; [lia|done].
Qed.

End Passes.

(** * Frames built from fetched records *)

Lemma imap_records (f : nat → nat) (l : list record) :
  (imap (λ i r, (f i, r)) l).*2 = l.
Proof.
  revert f. induction l as [|r l IH]; intros f; simpl; [done|].
  f_equal. apply (IH (f ∘ S)).
Qed.

Lemma DataFrame_of_records l : (DataFrame_of l).*2 = l.
Proof. apply (imap_records (λ i, i)). Qed.

Lemma DataFrame_of_nil_inv l : DataFrame_of l = [] → l = [].
Proof. by destruct l. Qed.

Lemma elem_of_DataFrame_of (x : row) l : x ∈ DataFrame_of l → x.2 ∈ l.
Proof.
  intros Hx. rewrite <- (DataFrame_of_records l).
  apply list_elem_of_fmap. eauto.
Qed.

Lemma DataFrame_of_elem (r : record) l :
  r ∈ l → ∃ i, (i, r) ∈ DataFrame_of l.
Proof.
  rewrite <- (DataFrame_of_records l) at 1.
  intros ([i r'] & -> & Hin)%list_elem_of_fmap. eauto.
Qed.

Lemma has_column_true c (df : DataFrame) (r : row) :
  r ∈ df → is_Some (r.2 !! c) → has_column c df = true.
Proof.
  intros Hin Hc. unfold has_column. apply existsb_exists.
  exists r. split; [by apply list_elem_of_In|]. by apply bool_decide_eq_true.
Qed.

Lemma has_column_inv c (df : DataFrame) :
  has_column c df = true → ∃ r, r ∈ df ∧ is_Some (r.2 !! c).
Proof.
  unfold has_column. intros (r & Hin & Hc)%existsb_exists.
  exists r. split; [by apply list_elem_of_In|]. by apply bool_decide_eq_true in Hc.
Qed.

Lemma find_None_Forall {A} (f : A → bool) l :
  Forall (λ x, f x = false) l → List.find f l = None.
Proof. induction 1 as [|x l Hx _ IH]; simpl; [done|]. by rewrite Hx. Qed.

Lemma duplicated_columns subset df :
  Forall (λ c, has_column c df = true) subset →
  duplicated subset df = Ok (duplicated_from subset [] df).
Proof.
  intros Hall. unfold duplicated. rewrite find_None_Forall; [done|].
  eapply Forall_impl; [done|]. by intros c ->.
Qed.

(** The columns of [subset] exist in a frame that ends with records having
    them. *)
Lemma duplicated_fetched subset (df : DataFrame) r fetched :
  Forall (λ c, is_Some (r !! c)) subset →
  duplicated subset (df ++ DataFrame_of (r :: fetched))
  = Ok (duplicated_from subset [] (df ++ DataFrame_of (r :: fetched))).
Proof.
  intros Hr. apply duplicated_columns.
  eapply Forall_impl; [done|]. intros c Hc. simpl in Hc.
  apply (has_column_true c _ (0%nat, r)); [|done].
  apply elem_of_app. right. left.
Qed.

Section NetNew.

Variable subset : list string.

Lemma firsts_from_seen seen df :
  (∀ r, r ∈ df → row_key subset r ∈ seen) → firsts_from subset seen df = [].
Proof.
  intros Hall. destruct (firsts_from subset seen df) as [|x l] eqn:Hf; [done|].
  assert (row_key subset x ∈ keys subset (firsts_from subset seen df)) as Hx.
  { rewrite Hf, keys_cons. left. }
  apply elem_of_keys_firsts in Hx as [Hx Hn]. destruct Hn.
  apply elem_of_keys in Hx as (r & Hr & <-). by apply Hall.
Qed.

(** [new_df.equals(dropped)]: the loop stops exactly when every fetched
    record has a key already in the frame. *)
Lemma equals_dropped df new :
  NoDup (keys subset df) →
  equals new (dups_from subset [] (df ++ new)) = true
  ↔ ∀ r, r ∈ new → row_key subset r ∈ keys subset df.
Proof.
  intros Hnd. unfold equals. rewrite bool_decide_eq_true, dups_from_app.
  destruct (firsts_from_id subset [] df Hnd) as [_ ->].
  { intros k _. apply not_elem_of_nil. }
  rewrite app_nil_r. simpl. rewrite <- dups_from_all. split; congruence.
Qed.

Lemma firsts_no_new df new :
  NoDup (keys subset df) →
  (∀ r, r ∈ new → row_key subset r ∈ keys subset df) →
  firsts_from subset [] (df ++ new) = df.
Proof.
  intros Hnd Hall. rewrite firsts_from_app.
  destruct (firsts_from_id subset [] df Hnd) as [-> _].
  { intros k _. apply not_elem_of_nil. }
  rewrite app_nil_r, firsts_from_seen by done. apply app_nil_r.
Qed.

(** A first page is never without new records. *)
Lemma equals_dropped_first r new :
  equals (r :: new) (dups_from subset [] (r :: new)) = false.
Proof.
  apply not_true_iff_false.
  rewrite (equals_dropped [] (r :: new)) by constructor.
  intros Hall. specialize (Hall r (list_elem_of_here _ _)).
  by apply elem_of_nil in Hall.
Qed.

End NetNew.

(** * [bulk_get_pages] *)

Section Pages.

Variable now : nat → Z.
Variable self : UnbounceConnection.

Definition pages_ev (date_end ds : option string) : result (list record) → event :=
  EvGetPages ds date_end.

Definition pages_answer (date_end ds : option string) (n : nat)
    : result (list record) :=
  get_pages (client self) n ds date_end.

Definition pages_pass (START_TIME : Z) (date_end : option string)
    : loop_state → world → option (result (bool * loop_state) * world) :=
  pass now self START_TIME (pages_ev date_end) (pages_answer date_end)
    pages_subset "createdAt".

Lemma pages_while_unfold fuel START_TIME date_end st w :
  pages_while now (S fuel) self START_TIME date_end st w
  = if loop_cont st then
      match pages_pass START_TIME date_end st w with
      | Some (Ok (true, st'), w') => Some (Ok st', w')
      | Some (Ok (false, st'), w') =>
          pages_while now fuel self START_TIME date_end st' w'
      | Some (Raise e, w') => Some (Raise e, w')
      | None => None
      end
    else Some (Ok st, w).
Proof.
  apply (request_while_unfold now self START_TIME (pages_ev date_end)
           (pages_answer date_end)).
Qed.

(** [bulk_get_pages] with the monad unfolded. *)
Lemma bulk_get_pages_unfold fuel date_start date_end domain_list page_id_list
    state w :
  bulk_get_pages now fuel self date_start date_end domain_list page_id_list
    state w
  = let START_TIME := now (count_events is_now w) in
    match pages_while now fuel self START_TIME date_end
            {| loop_df := []; loop_date_start := date_start;
               loop_cont := true; loop_itr := 0 |} (EvNow START_TIME :: w) with
    | Some (Ok st, w') =>
        match pages_filters domain_list page_id_list state
                (rename "id" "page_id" (loop_df st)) with
        | Ok df => Some (Ok (to_dict_records df), w')
        | Raise e => Some (Raise e, w')
        end
    | Some (Raise e, w') => Some (Raise e, w')
    | None => None
    end.
Proof.
  unfold bulk_get_pages, bind, datetime_now. simpl.
  by destruct (pages_while _ _ _ _ _ _ _) as [[[st|e] w']|].
Qed.

End Pages.

(** * Termination of the page loop *)

Section PagesTermination.

Variable now : nat → Z.
Variable self : UnbounceConnection.

Lemma count_events_cons p e w :
  count_events p (e :: w)
  = if p e then S (count_events p w) else count_events p w.
Proof. unfold count_events. simpl. by destruct (p e). Qed.

Lemma count_events_app p w1 w2 :
  count_events p (w1 ++ w2) = (count_events p w1 + count_events p w2)%nat.
Proof. unfold count_events. by rewrite List.filter_app, length_app. Qed.

Lemma count_request_pause itr : count_events is_request (pause_events itr) = 0%nat.
Proof. unfold pause_events. by destruct (_ =? _). Qed.

Lemma count_now_pause itr : count_events is_now (pause_events itr) = 0%nat.
Proof. unfold pause_events. by destruct (_ =? _). Qed.

(** The page frame after a first page [p], and the state the loop is in. *)
Definition first_frame (p : list record) : DataFrame :=
  firsts_from pages_subset [] (DataFrame_of p).

Lemma pages_key_id (r : row) : row_key pages_subset r = [r.2 !! "id"].
Proof. done. Qed.

Lemma deadline_not_exceeded t START_TIME :
  timedelta_seconds t START_TIME ≤ extract_timeout_time self →
  (timedelta_seconds t START_TIME >? extract_timeout_time self) = false.
Proof. intros. rewrite Z.gtb_ltb. by apply Z.ltb_ge. Qed.

Lemma pages_while_stop fuel START_TIME date_end st w :
  loop_cont st = false →
  pages_while now fuel self START_TIME date_end st w = Some (Ok st, w).
Proof.
  apply (request_while_stop now self START_TIME (pages_ev date_end)
           (pages_answer self date_end)).
Qed.

Lemma to_dict_records_rename old new df :
  to_dict_records (rename old new df) = rename_field old new <$> df.*2.
Proof.
  unfold to_dict_records, rename. rewrite <- !list_fmap_compose.
  by apply list_fmap_ext.
Qed.

Lemma first_row_kept subset (r0 : row) new :
  r0 ∈ firsts_from subset [] (r0 :: new).
Proof.
  rewrite firsts_from_cons, bool_decide_eq_false_2 by apply not_elem_of_nil.
  left.
Qed.

(** The second request ends the loop when it brings nothing new. *)
Lemma pages_two_requests fuel date_start date_end r l c q :
  get_pages (client self) 0 date_start date_end = Ok (r :: l) →
  is_Some (r !! "id") →
  last_field "createdAt" (r :: l) = Ok c →
  get_pages (client self) 1 (Some c) date_end = Ok q →
  (q ≠ [] → ∃ c', last_field "createdAt" q = Ok c') →
  (∀ x, x ∈ q → ∃ y, y ∈ r :: l ∧ x !! "id" = y !! "id") →
  timedelta_seconds (now 1) (now 0) ≤ extract_timeout_time self →
  timedelta_seconds (now 2) (now 0) ≤ extract_timeout_time self →
  (2 ≤ fuel)%nat →
  ∃ w,
    bulk_get_pages now fuel self date_start date_end None None None []
    = Some (Ok (rename_field "id" "page_id" <$> (first_frame (r :: l)).*2), w)
    ∧ count_events is_request w = 2%nat
    ∧ count_events is_sleep w = 0%nat.
Proof.
  intros Hp Hid Hc Hq Hqc Hqid Ht1 Ht2 Hfuel.
  rewrite bulk_get_pages_unfold. cbn zeta.
  destruct fuel as [|[|fuel]]; [lia..|].
  rewrite pages_while_unfold. cbn [loop_cont].
  unfold pages_pass, pass. cbn [loop_df loop_date_start loop_itr].
  rewrite !count_events_cons. cbn [is_now is_request count_events List.filter length].
  rewrite (deadline_not_exceeded _ _ Ht1).
  unfold pages_answer at 1. rewrite Hp. cbn match. rewrite app_nil_l.
  rewrite (duplicated_columns pages_subset).
  2:{ repeat constructor. apply (has_column_true _ _ (0%nat, r)); [left|done]. }
  rewrite Hc. unfold first_frame.
  assert (∃ new, DataFrame_of (r :: l) = (0%nat, r) :: new) as [new Hdf]
    by (eexists; reflexivity).
  rewrite Hdf, equals_dropped_first. cbn [negb].
  set (df1 := firsts_from pages_subset [] ((0%nat, r) :: new)).
  assert (NoDup (keys pages_subset df1)) as Hnd by apply NoDup_keys_firsts.
  assert (∀ x, x ∈ DataFrame_of q → row_key pages_subset x ∈ keys pages_subset df1)
    as Hseen.
  { intros x Hx. apply elem_of_DataFrame_of, Hqid in Hx as (y & Hy & Hxy).
    apply DataFrame_of_elem in Hy as [i Hy]. rewrite Hdf in Hy.
    apply elem_of_keys_firsts. split; [|apply not_elem_of_nil].
    apply elem_of_keys. exists (i, y). split; [done|].
    rewrite !pages_key_id. simpl. by rewrite Hxy. }
  rewrite pages_while_unfold. cbn [loop_cont].
  unfold pages_pass, pass. cbn [loop_df loop_date_start loop_itr].
  change (pause_events 0) with (@nil event). rewrite app_nil_l.
  rewrite !count_events_cons.
  cbn [is_now is_request pages_ev count_events List.filter length].
  rewrite (deadline_not_exceeded _ _ Ht2).
  unfold pages_answer at 1. rewrite Hq.
  destruct q as [|x q'].
  - cbn [loop_df]. unfold pages_filters. cbn [truthy_list truthy_str result_bind].
    rewrite to_dict_records_rename. eexists. split; [reflexivity|].
    by rewrite !count_events_cons.
  - destruct Hqc as [c' Hc']; [done|].
    rewrite (duplicated_columns pages_subset).
    2:{ repeat constructor. apply (has_column_true _ _ (0%nat, r)); [|done].
        apply elem_of_app. left. apply first_row_kept. }
    rewrite Hc'.
    rewrite (proj2 (equals_dropped pages_subset df1 _ Hnd) Hseen).
    rewrite (firsts_no_new pages_subset df1 _ Hnd Hseen).
    cbn [negb]. rewrite pages_while_stop by done. cbn [loop_df].
    unfold pages_filters. cbn [truthy_list truthy_str result_bind].
    rewrite to_dict_records_rename. eexists. split; [reflexivity|].
    change (next_itr 0) with 1. change (pause_events 1) with (@nil event).
    by rewrite app_nil_l, !count_events_cons.
Qed.

Local Ltac stopped :=
  eexists _, _; split; [reflexivity|];
  unfold count_events, pages_ev; simpl; lia.

(** With a client that always answers the same one-record page the loop
    never makes a third request, whatever the record and the clock. *)
Lemma same_record_at_most_two_requests fuel date_start date_end r :
  (∀ n ds, get_pages (client self) n ds date_end = Ok [r]) →
  (2 ≤ fuel)%nat →
  ∃ out w,
    bulk_get_pages now fuel self date_start date_end None None None []
    = Some (out, w)
    ∧ (count_events is_request w ≤ 2)%nat.
Proof.
  intros Hsame Hfuel.
  rewrite bulk_get_pages_unfold. cbn zeta.
  destruct fuel as [|[|fuel]]; [lia..|].
  rewrite pages_while_unfold. cbn [loop_cont].
  unfold pages_pass, pass. cbn [loop_df loop_date_start loop_itr].
  rewrite !count_events_cons. cbn [is_now is_request count_events List.filter length].
  destruct (_ >? _); [stopped|].
  unfold pages_answer at 1. rewrite Hsame. cbn match. rewrite app_nil_l.
  destruct (duplicated _ _); [|stopped].
  destruct (last_field _ _) as [c|]; [|stopped].
  change (DataFrame_of [r]) with [(0%nat, r)].
  rewrite equals_dropped_first. cbn [negb].
  set (df1 := firsts_from pages_subset [] [(0%nat, r)]).
  assert (NoDup (keys pages_subset df1)) as Hnd by apply NoDup_keys_firsts.
  assert (∀ x, x ∈ [(0%nat, r)] → row_key pages_subset x ∈ keys pages_subset df1)
    as Hseen.
  { intros x ->%list_elem_of_singleton. apply elem_of_keys.
    exists (0%nat, r). split; [apply first_row_kept|done]. }
  rewrite pages_while_unfold. cbn [loop_cont].
  unfold pages_pass, pass. cbn [loop_df loop_date_start loop_itr].
  change (pause_events 0) with (@nil event). rewrite app_nil_l.
  rewrite !count_events_cons.
  cbn [is_now is_request pages_ev count_events List.filter length].
  destruct (_ >? _); [stopped|].
  unfold pages_answer at 1. rewrite Hsame. cbn match.
  change (DataFrame_of [r]) with [(0%nat, r)].
  destruct (duplicated _ _); [|stopped].
  destruct (last_field _ _) as [c'|]; [|stopped].
  rewrite (proj2 (equals_dropped pages_subset df1 _ Hnd) Hseen).
  cbn [negb]. rewrite pages_while_stop by done. cbn [loop_df].
  unfold pages_filters. cbn [truthy_list truthy_str result_bind].
  eexists _, _. split; [reflexivity|].
  change (next_itr 0) with 1. change (pause_events 1) with (@nil event).
  by rewrite app_nil_l, !count_events_cons.
Qed.

End PagesTermination.

(** * Claims on the termination of the page loop *)






(** * [bulk_get_leads] *)

Section Leads.

Variable now : nat → Z.
Variable self : UnbounceConnection.

(** The filter applied to the leads after the loops. *)
Definition leads_filter (lead_id_list : option (list pyval)) (leads_df : DataFrame)
    : result DataFrame :=
  if truthy_list lead_id_list
  then filter_isin "lead_id" (default [] lead_id_list) leads_df
  else Ok leads_df.

(** [bulk_get_leads] with the monad unfolded. *)
Lemma bulk_get_leads_unfold fuel date_start date_end lead_id_list page_id_list w :
  bulk_get_leads now fuel self date_start date_end lead_id_list page_id_list w
  = let START_TIME := now (count_events is_now w) in
    let w0 := EvNow START_TIME :: w in
    if truthy_list page_id_list then Some (Raise AttributeError, w0)
    else
      match bulk_get_pages now fuel self None date_end None None None w0 with
      | Some (Ok pages, w1) =>
          match column "page_id" (DataFrame_of pages) with
          | Ok page_id =>
              if bool_decide (page_id = []) then Some (Ok [], w1)
              else
                match leads_for now fuel self START_TIME date_start date_end
                        page_id.*2 [] 0 w1 with
                | Some (Ok r, w2) =>
                    match leads_filter lead_id_list (rename "id" "lead_id" r.1) with
                    | Ok df => Some (Ok (to_dict_records df), w2)
                    | Raise e => Some (Raise e, w2)
                    end
                | Some (Raise e, w2) => Some (Raise e, w2)
                | None => None
                end
          | Raise e => Some (Raise e, w1)
          end
      | Some (Raise e, w1) => Some (Raise e, w1)
      | None => None
      end.
Proof.
  unfold bulk_get_leads, leads_filter, bind, datetime_now, ret, lift. cbn zeta.
  destruct (truthy_list page_id_list); [done|].
  destruct (bulk_get_pages _ _ _ _ _ _ _ _ _) as [[[pages|e] w1]|]; try done.
  destruct (column _ _) as [page_id|e]; [|done]. simpl.
  destruct (bool_decide _); [done|].
  by destruct (leads_for _ _ _ _ _ _ _ _ _ _) as [[[r|e] w2]|].
Qed.

(** A column that exists has at least one cell: the test
    [page_ids_all.empty] never holds on a column that could be taken. *)
Lemma column_not_empty c df ser : column c df = Ok ser → ser ≠ [].
Proof.
  unfold column. destruct (has_column c df) eqn:Hc; [|done].
  intros [= <-]. apply has_column_inv in Hc as (r & Hr & _).
  destruct df; [by apply elem_of_nil in Hr|done].
Qed.

End Leads.

(** * Claims on the choice of the parent ids *)

(** C2 (defect of the code).  With a non-empty page-id list passed,
    [bulk_get_leads] never reaches its loop: [page_ids_all] is the Python list
    itself and [page_ids_all.empty] raises [AttributeError], after the clock
    was read once and before any request. *)
Theorem leads_page_id_list_raises (now : nat → Z) (fuel : nat)
    (self : UnbounceConnection) (date_start date_end : option string)
    (lead_id_list : option (list pyval)) (id : pyval) (ids : list pyval)
    (w : world) :
  bulk_get_leads now fuel self date_start date_end lead_id_list
    (Some (id :: ids)) w
  = Some (Raise AttributeError, EvNow (now (count_events is_now w)) :: w).
Proof. by rewrite bulk_get_leads_unfold. Qed.

(** The same through the entry point, for the documented filter
    [{'page_id': 'abc'}]. *)
Example bulk_extract_leads_page_id_raises :
  bulk_extract clock_1s 10 (connection client_same_page 3600) "leads"
    (PyDict {[ "page_id" := PyStr "abc" ]}) []
  = Some (Raise AttributeError, [EvNow 0]).
Proof. vm_compute. reflexivity. Qed.

(** C3 (defect of the code).  When the account has no page, the lookup
    returns the empty list and taking the ['page_id'] column of the empty
    frame raises [KeyError] before the emptiness test: no lead request is
    made, and no empty list is returned either. *)
Theorem leads_without_pages_raises (now : nat → Z) (fuel : nat)
    (self : UnbounceConnection) (date_start date_end : option string)
    (lead_id_list : option (list pyval)) :
  get_pages (client self) 0 None date_end = Ok [] →
  timedelta_seconds (now 2%nat) (now 1%nat) ≤ extract_timeout_time self →
  (1 ≤ fuel)%nat →
  ∃ w,
    bulk_get_leads now fuel self date_start date_end lead_id_list None []
    = Some (Raise (KeyError "page_id"), w)
    ∧ count_events is_get_page_leads w = 0%nat
    ∧ count_events is_get_pages w = 1%nat.
Proof.
  intros Hp Ht Hfuel. rewrite bulk_get_leads_unfold. cbn zeta.
  cbn [truthy_list]. rewrite bulk_get_pages_unfold. cbn zeta.
  destruct fuel as [|fuel]; [lia|].
  rewrite pages_while_unfold. cbn [loop_cont].
  unfold pages_pass, pass. cbn [loop_df loop_date_start loop_itr].
  rewrite !count_events_cons. cbn [is_now is_request count_events List.filter length].
  rewrite (deadline_not_exceeded _ _ _ Ht).
  unfold pages_answer at 1. rewrite Hp. cbn.
  eexists. split; [reflexivity|]. done.
Qed.

Lemma leads_without_pages_raises_witness :
  ∃ w,
    bulk_get_leads clock_1s 1 (connection client_no_pages 3600)
      None None None None []
    = Some (Raise (KeyError "page_id"), w)
    ∧ count_events is_get_page_leads w = 0%nat
    ∧ count_events is_get_pages w = 1%nat.
Proof.
  apply (leads_without_pages_raises clock_1s 1 (connection client_no_pages 3600)
           None None None).
  - reflexivity.
  - vm_compute. discriminate.
  - lia.
Defined.


(** * Claims on the deadline *)

Lemma timedelta_seconds_range later earlier :
  0 ≤ timedelta_seconds later earlier ≤ 86399.
Proof.
  unfold timedelta_seconds.
  pose proof (Z.mod_pos_bound (later - earlier) 86400000000 eq_refl) as Hm.
  split.
  - apply Z.div_pos; lia.
  - apply Z.lt_succ_r. apply Z.div_lt_upper_bound; lia.
Qed.

(** Within the first day the test compares the whole seconds elapsed. *)
Lemma timedelta_seconds_first_day later earlier :
  0 ≤ later - earlier < 86400000000 →
  timedelta_seconds later earlier = (later - earlier) `div` 1000000.
Proof. intros H. unfold timedelta_seconds. by rewrite Z.mod_small. Qed.

Lemma check_deadline_run now self START_TIME w :
  check_deadline now self START_TIME w
  = let t := now (count_events is_now w) in
    if timedelta_seconds t START_TIME >? extract_timeout_time self
    then Some (Raise RecursionError, EvNow t :: w)
    else Some (Ok tt, EvNow t :: w).
Proof.
  unfold check_deadline, bind, datetime_now, raise, ret. cbn zeta.
  by destruct (_ >? _).
Qed.

(** A limit of a day or more is never enforced. *)
Lemma check_deadline_day (now : nat → Z) (self : UnbounceConnection)
    (START_TIME : Z) (w : world) :
  86399 ≤ extract_timeout_time self →
  check_deadline now self START_TIME w
  = Some (Ok tt, EvNow (now (count_events is_now w)) :: w).
Proof.
  intros Hlimit. rewrite check_deadline_run. cbn zeta.
  pose proof (timedelta_seconds_range (now (count_events is_now w)) START_TIME).
  rewrite deadline_not_exceeded; [done|lia].
Qed.

(** C4 (defect of the code).  The test reads the [seconds] field of the
    elapsed [timedelta], which starts again from 0 after each whole day.
    With a limit of 90000 seconds and a check made 90001 seconds after the
    start, the field reads 3601: no [RecursionError] is raised, the request
    is made and the result is returned. *)
Theorem deadline_missed_after_a_day :
  (clock_25h 1 - clock_25h 0) > 90000 * 1000000
  ∧ timedelta_seconds (clock_25h 1) (clock_25h 0) = 3601
  ∧ bulk_get_pages clock_25h 1 (connection client_no_pages 90000)
      None None None None None []
    = Some (Ok [], [EvGetPages None None (Ok []); EvNow 90001000000; EvNow 0]).
Proof. vm_compute. repeat split. Qed.

(** * Passes of the two loops *)

Definition leads_ev (page_id : cell) (date_end ds : option string)
    : result (list record) → event :=
  EvGetPageLeads page_id ds date_end.

Definition leads_answer (self : UnbounceConnection) (page_id : cell)
    (date_end ds : option string) (n : nat) : result (list record) :=
  get_page_leads (client self) n page_id ds date_end.

Definition leads_pass (now : nat → Z) (self : UnbounceConnection)
    (START_TIME : Z) (date_end : option string) (page_id : cell)
    : loop_state → world → option (result (bool * loop_state) * world) :=
  pass now self START_TIME (leads_ev page_id date_end)
    (leads_answer self page_id date_end) leads_subset "created_at".

Lemma pages_body_pass now self START_TIME date_end st w :
  pages_body now self START_TIME date_end st w
  = pages_pass now self START_TIME date_end st w.
Proof.
  apply (request_body_pass now self START_TIME (pages_ev date_end)
           (pages_answer self date_end)).
Qed.

Lemma leads_body_pass now self START_TIME date_end page_id st w :
  leads_body now self START_TIME date_end page_id st w
  = leads_pass now self START_TIME date_end page_id st w.
Proof.
  apply (request_body_pass now self START_TIME (leads_ev page_id date_end)
           (leads_answer self page_id date_end)).
Qed.

(** * Claim on the cursor *)

(** C9.  A pass of either loop that fetched a non-empty page leaves the loop
    with [date_start] equal to the creation field of the last record of the
    page as it was answered (['createdAt'] for pages, ['created_at'] for
    leads); a pass that fetched an empty page leaves by [break] with the
    state untouched. *)
Theorem cursor_from_last_fetched_record (now : nat → Z)
    (self : UnbounceConnection) (START_TIME : Z) (date_end : option string)
    (page_id : cell) (st : loop_state) (w : world) (b : bool)
    (st' : loop_state) (w' : world) :
  (pages_body now self START_TIME date_end st w = Some (Ok (b, st'), w') →
   ∃ fetched,
     get_pages (client self) (count_events is_request w) (loop_date_start st)
       date_end = Ok fetched
     ∧ ((fetched = [] ∧ b = true ∧ st' = st)
        ∨ (b = false
           ∧ ∃ r c, list.last fetched = Some r ∧ r !! "createdAt" = Some c
                    ∧ loop_date_start st' = Some c)))
  ∧ (leads_body now self START_TIME date_end page_id st w
     = Some (Ok (b, st'), w') →
     ∃ fetched,
       get_page_leads (client self) (count_events is_request w) page_id
         (loop_date_start st) date_end = Ok fetched
       ∧ ((fetched = [] ∧ b = true ∧ st' = st)
          ∨ (b = false
             ∧ ∃ r c, list.last fetched = Some r ∧ r !! "created_at" = Some c
                      ∧ loop_date_start st' = Some c))).
Proof.
  assert (∀ field fetched c, last_field field fetched = Ok c →
            ∃ r, list.last fetched = Some r ∧ r !! field = Some c) as Hlast.
  { intros field fetched c. unfold last_field.
    destruct (list.last fetched) as [r|]; [|done].
    destruct (r !! field) eqn:Hf; [|done]. intros [= <-]. eauto. }
  split.
  - rewrite pages_body_pass. intros Hp. apply pass_Ok_inv in Hp.
    destruct Hp as (fetched & Ha & _ & Hcases). exists fetched. split; [done|].
    destruct Hcases as [(-> & -> & -> & _)|(_ & -> & (c & Hc & Hds) & _)].
    + by left.
    + right. split; [done|]. apply Hlast in Hc as (r & Hr & Hc). eauto.
  - rewrite leads_body_pass. intros Hp. apply pass_Ok_inv in Hp.
    destruct Hp as (fetched & Ha & _ & Hcases). exists fetched. split; [done|].
    destruct Hcases as [(-> & -> & -> & _)|(_ & -> & (c & Hc & Hds) & _)].
    + by left.
    + right. split; [done|]. apply Hlast in Hc as (r & Hr & Hc). eauto.
Qed.

Definition loop_start : loop_state :=
  {| loop_df := []; loop_date_start := None; loop_cont := true; loop_itr := 0 |}.

Definition after_page_p1 : loop_state :=
  {| loop_df := [(0%nat, page_p1)];
     loop_date_start := Some "2019-08-09T10:00:00.000Z";
     loop_cont := true; loop_itr := 1 |}.

Definition after_lead_l1 : loop_state :=
  {| loop_df := [(0%nat, lead_l1)];
     loop_date_start := Some "2019-08-10T08:30:00.000Z";
     loop_cont := true; loop_itr := 1 |}.

Lemma cursor_from_last_fetched_record_witness :
  (∃ fetched,
     get_pages client_same_lead 0 None None = Ok fetched
     ∧ ((fetched = [] ∧ false = true ∧ after_page_p1 = loop_start)
        ∨ (false = false
           ∧ ∃ r c, list.last fetched = Some r ∧ r !! "createdAt" = Some c
                    ∧ loop_date_start after_page_p1 = Some c)))
  ∧ (∃ fetched,
       get_page_leads client_same_lead 0 (Some "p1") None None = Ok fetched
       ∧ ((fetched = [] ∧ false = true ∧ after_lead_l1 = loop_start)
          ∨ (false = false
             ∧ ∃ r c, list.last fetched = Some r ∧ r !! "created_at" = Some c
                      ∧ loop_date_start after_lead_l1 = Some c))).
Proof.
  split.
  - apply (proj1 (cursor_from_last_fetched_record clock_1s
                    (connection client_same_lead 3600) 0 None (Some "p1")
                    loop_start [EvNow 0] false after_page_p1
                    [EvGetPages None None (Ok [page_p1]); EvNow 1000000; EvNow 0])).
    vm_compute. reflexivity.
  - apply (proj2 (cursor_from_last_fetched_record clock_1s
                    (connection client_same_lead 3600) 0 None (Some "p1")
                    loop_start [EvNow 0] false after_lead_l1
                    [EvGetPageLeads (Some "p1") None None (Ok [lead_l1]);
                     EvNow 1000000; EvNow 0])).
    vm_compute. reflexivity.
Defined.

(** The cursor follows the page as it was answered, not the frame: when the
    page brings again the older of two pages already held, the cursor goes
    back to its date although the frame still ends with the newer page. *)
Example cursor_not_from_deduplicated_frame :
  match pages_body clock_1s (connection client_same_page 3600) 0 None
          {| loop_df := [(0%nat, page_p1); (1%nat, page_p2)];
             loop_date_start := Some "2019-08-09T11:00:00.000Z";
             loop_cont := true; loop_itr := 1 |} [EvNow 0] with
  | Some (Ok (_, st'), _) =>
      loop_date_start st' = page_p1 !! "createdAt"
      ∧ list.last (loop_df st') = Some (1%nat, page_p2)
      ∧ page_p2 !! "createdAt" = Some "2019-08-09T11:00:00.000Z"
      ∧ page_p1 !! "createdAt" = Some "2019-08-09T10:00:00.000Z"
  | _ => False
  end.
Proof. vm_compute. repeat split. Qed.

(** * What a loop adds to the trace *)

Lemma rows_of_cons kind e w :
  rows_of kind (e :: w) = rows_of kind w ++ (if kind e then event_rows e else []).
Proof. done. Qed.

Lemma rows_of_app kind d w :
  rows_of kind (d ++ w) = rows_of kind w ++ rows_of kind d.
Proof.
  induction d as [|e d IH].
  - by rewrite app_nil_r.
  - rewrite <- app_comm_cons, !rows_of_cons, IH. by rewrite app_assoc.
Qed.

Lemma rows_of_pause kind itr : rows_of kind (pause_events itr) = [].
Proof.
  unfold pause_events. destruct (_ =? _); [|done].
  rewrite rows_of_cons. by destruct (kind (EvSleep 60)).
Qed.

Lemma governor_run_app counts g d w :
  governor_run counts g (d ++ w) = governor_run counts (governor_run counts g w) d.
Proof. apply foldr_app. Qed.

Lemma governor_run_cons counts g e w :
  governor_run counts g (e :: w)
  = governor_run counts g w ≫= (λ g, governor_step counts g e).
Proof. done. Qed.

Lemma firsts_keeps_first_seen subset df :
  keeps_first_seen subset df (firsts_from subset [] df).
Proof.
  split; [apply NoDup_keys_firsts|]. split; [apply firsts_from_sublist|].
  intros k. apply head_with_key_firsts, not_elem_of_nil.
Qed.

Section Traces.

Variable now : nat → Z.
Variable self : UnbounceConnection.
Variable START_TIME : Z.
Variable ev : option string → result (list record) → event.
Variable answer : option string → nat → result (list record).
Variable subset : list string.
Variable created : string.
Variable kind : event → bool.

Hypothesis ev_response : ∀ ds r, response (ev ds r) = Some r.
Hypothesis ev_kind : ∀ ds r, kind (ev ds r) = true.

(** What one loop, or one pass, leaves: the events [d] added to the trace,
    the frame as the first-seen rows of the old frame followed by the rows
    fetched, and the counter as the machine finds it after reading [d]. *)
Definition segment (st : loop_state) (w : world) (st' : loop_state)
    (w' : world) : Prop :=
  ∃ d,
    w' = d ++ w
    ∧ Forall (λ e, kind e = true ∨ response e = None) d
    ∧ loop_df st' = firsts_from subset [] (loop_df st ++ rows_of kind d)
    ∧ 0 ≤ loop_itr st' < 495
    ∧ governor_run brought_records (Some (Counting (loop_itr st))) d
      = Some (Counting (loop_itr st')).

Lemma ev_not_sleep ds r : is_sleep (ev ds r) = false.
Proof. pose proof (ev_response ds r). by destruct (ev ds r). Qed.

Lemma ev_brought ds r :
  brought_records (ev ds r) = match r with Ok (_ :: _) => true | _ => false end.
Proof. unfold brought_records. by rewrite ev_response. Qed.

Lemma ev_rows ds r :
  event_rows (ev ds r) = match r with Ok p => DataFrame_of p | _ => [] end.
Proof. unfold event_rows. by rewrite ev_response. Qed.

Lemma rows_of_pass_events ds fetched t :
  rows_of kind [ev ds (Ok fetched); EvNow t] = DataFrame_of fetched.
Proof.
  rewrite !rows_of_cons, ev_kind, ev_rows.
  by destruct (kind (EvNow t)).
Qed.

Lemma segment_refl st w :
  NoDup (keys subset (loop_df st)) → 0 ≤ loop_itr st < 495 → segment st w st w.
Proof.
  intros Hnd Hitr. exists []. repeat split; try done; try lia.
  simpl. rewrite app_nil_r.
  symmetry. apply firsts_from_id; [done|]. intros k _. apply not_elem_of_nil.
Qed.

Lemma segment_trans st w st1 w1 st2 w2 :
  segment st w st1 w1 → segment st1 w1 st2 w2 → segment st w st2 w2.
Proof.
  intros (d1 & -> & Hk1 & Hdf1 & Hi1 & Hg1) (d2 & -> & Hk2 & Hdf2 & Hi2 & Hg2).
  exists (d2 ++ d1). split; [by rewrite app_assoc|].
  split; [by apply Forall_app|]. split; [|split; [done|]].
  - rewrite Hdf2, Hdf1, firsts_from_firsts_app, rows_of_app.
    by rewrite app_assoc.
  - by rewrite governor_run_app, Hg1.
Qed.

Lemma pass_segment st w b st' w' :
  NoDup (keys subset (loop_df st)) → 0 ≤ loop_itr st < 495 →
  pass now self START_TIME ev answer subset created st w
  = Some (Ok (b, st'), w') →
  segment st w st' w'.
Proof.
  intros Hnd Hitr Hp. apply pass_Ok_inv in Hp. cbn zeta in Hp.
  destruct Hp as (fetched & Ha & _ & Hcases).
  destruct Hcases as [(-> & -> & -> & ->)
                     |(Hne & -> & _ & Hdf & _ & Hi & ->)].
  - exists [ev (loop_date_start st) (Ok []); EvNow (now (count_events is_now w))].
    split; [done|]. split.
    { constructor; [left; apply ev_kind|]. constructor; [by right|]. constructor. }
    split; [|split; [done|]].
    + rewrite rows_of_pass_events. simpl. rewrite app_nil_r. symmetry.
      apply firsts_from_id; [done|]. intros k _. apply not_elem_of_nil.
    + rewrite !governor_run_cons. simpl.
      unfold governor_step. by rewrite ev_not_sleep, ev_brought.
  - exists (pause_events (loop_itr st)
            ++ [ev (loop_date_start st) (Ok fetched);
                EvNow (now (count_events is_now w))]).
    split; [by rewrite <- app_assoc|]. split.
    { apply Forall_app. split.
      - unfold pause_events. destruct (_ =? _); [|constructor].
        constructor; [by right|]. constructor.
      - constructor; [left; apply ev_kind|]. constructor; [by right|].
        constructor. }
    split; [|split].
    + by rewrite Hdf, rows_of_app, rows_of_pause, app_nil_r, rows_of_pass_events.
    + rewrite Hi. unfold next_itr. destruct (_ =? _) eqn:He; lia.
    + rewrite governor_run_app, !governor_run_cons. simpl.
      rewrite ev_not_sleep, ev_brought.
      destruct fetched as [|r fetched]; [done|].
      rewrite Hi. unfold next_itr, pause_events.
      by destruct (_ =? _) eqn:He.
Qed.

Lemma while_segment fuel st w st' w' :
  NoDup (keys subset (loop_df st)) → 0 ≤ loop_itr st < 495 →
  request_while now self START_TIME (λ ds, request (ev ds) (answer ds))
    subset created fuel st w = Some (Ok st', w') →
  segment st w st' w'.
Proof.
  intros Hnd Hitr Hrun.
  apply (request_while_invariant now self START_TIME ev answer subset created
           (λ st1 w1, segment st w st1 w1)) in Hrun; [done| |].
  - intros st1 w1 b st2 w2 Hseg Hp. eapply segment_trans; [done|].
    destruct Hseg as (d & _ & _ & Hdf & Hi & _).
    eapply pass_segment; [|done|done].
    rewrite Hdf. apply NoDup_keys_firsts.
  - by apply segment_refl.
Qed.

End Traces.

(** * The two loops as segments of the trace *)

Lemma segment_ext subset kind a a' b b' w w' :
  loop_df a = loop_df a' → loop_itr a = loop_itr a' →
  loop_df b = loop_df b' → loop_itr b = loop_itr b' →
  segment subset kind a w b w' → segment subset kind a' w b' w'.
Proof.
  intros Ha1 Ha2 Hb1 Hb2 (d & Hw & Hk & Hdf & Hi & Hg).
  exists d. by rewrite <- Ha1, <- Ha2, <- Hb1, <- Hb2.
Qed.

Lemma keeps_first_seen_exactly_once subset before after :
  keeps_first_seen subset before after → exactly_once subset before after.
Proof.
  intros (Hnd & _ & Hhead) x Hx. apply with_key_length_NoDup; [done|].
  specialize (Hhead (row_key subset x)). unfold with_key in Hhead.
  destruct (filter _ after) as [|y l] eqn:Hf.
  - assert (x ∈ filter (λ r, row_key subset r = row_key subset x) before) as Hx'
      by (by apply list_elem_of_filter).
    destruct (filter _ before); [by apply elem_of_nil in Hx'|done].
  - assert (y ∈ filter (λ r, row_key subset r = row_key subset x) after) as Hy
      by (rewrite Hf; left).
    apply list_elem_of_filter in Hy as [Hy1 Hy2].
    apply elem_of_keys. eauto.
Qed.

Section Loops.

Variable now : nat → Z.
Variable self : UnbounceConnection.
Variable START_TIME : Z.
Variable date_end : option string.

Lemma pages_pass_segment st w b st' w' :
  NoDup (keys pages_subset (loop_df st)) → 0 ≤ loop_itr st < 495 →
  pages_pass now self START_TIME date_end st w = Some (Ok (b, st'), w') →
  segment pages_subset is_get_pages st w st' w'.
Proof.
  apply (pass_segment now self START_TIME (pages_ev date_end)
           (pages_answer self date_end) pages_subset "createdAt" is_get_pages);
    done.
Qed.

Lemma pages_while_segment fuel st w st' w' :
  NoDup (keys pages_subset (loop_df st)) → 0 ≤ loop_itr st < 495 →
  pages_while now fuel self START_TIME date_end st w = Some (Ok st', w') →
  segment pages_subset is_get_pages st w st' w'.
Proof.
  apply (while_segment now self START_TIME (pages_ev date_end)
           (pages_answer self date_end) pages_subset "createdAt" is_get_pages);
    done.
Qed.

Lemma leads_while_segment fuel page_id st w st' w' :
  NoDup (keys leads_subset (loop_df st)) → 0 ≤ loop_itr st < 495 →
  leads_while now fuel self START_TIME date_end page_id st w
  = Some (Ok st', w') →
  segment leads_subset is_get_page_leads st w st' w'.
Proof.
  apply (while_segment now self START_TIME (leads_ev page_id date_end)
           (leads_answer self page_id date_end) leads_subset "created_at"
           is_get_page_leads); done.
Qed.

Lemma leads_for_segment fuel OG_DATE_START ids leads_df itr w leads_df' itr' w' :
  NoDup (keys leads_subset leads_df) → 0 ≤ itr < 495 →
  leads_for now fuel self START_TIME OG_DATE_START date_end ids leads_df itr w
  = Some (Ok (leads_df', itr'), w') →
  segment leads_subset is_get_page_leads
    (entering leads_df OG_DATE_START itr) w
    (entering leads_df' OG_DATE_START itr') w'.
Proof.
  revert leads_df itr w.
  induction ids as [|page_id ids IH]; intros leads_df itr w Hnd Hitr Hrun.
  - unfold leads_for, ret in Hrun. simplify_eq. by apply segment_refl.
  - simpl in Hrun. unfold bind in Hrun.
    destruct (leads_while _ _ _ _ _ _ _ _) as [[[st1|e] w1]|] eqn:Hw; try done.
    apply leads_while_segment in Hw; [|done..].
    eapply segment_trans; [exact Hw|].
    destruct Hw as (d & _ & _ & Hdf & Hi & _).
    eapply segment_ext; [| | | |eapply IH; [| |exact Hrun]]; try done.
    + rewrite Hdf. apply NoDup_keys_firsts.
Qed.

End Loops.

(** * Claim on the accumulated frame *)

(** C7.  After the deduplication step of a pass of either loop, the frame
    holds one row per key (['id'] for pages; ['created_at'], ['id'],
    ['page_id'], ['variant_id'] for leads): of the old frame followed by the
    page just fetched it keeps, for every key, the first row, in the same
    order.  The frame the page loop ends with, and the frame the loop over
    the page ids ends with, are in this way the first-seen rows of all that
    the requests of the loop brought, so that a record brought by two
    consecutive requests is there exactly once. *)
Theorem accumulated_frame_keeps_first_seen (now : nat → Z)
    (self : UnbounceConnection) (START_TIME : Z)
    (date_start date_end : option string) (page_id : cell) (fuel : nat)
    (ids : list cell) (st : loop_state) (w : world) (st' : loop_state)
    (w' : world) (leads_df' : DataFrame) (itr' : Z) :
  (pages_body now self START_TIME date_end st w = Some (Ok (false, st'), w') →
   ∃ fetched,
     get_pages (client self) (count_events is_request w) (loop_date_start st)
       date_end = Ok fetched
     ∧ keeps_first_seen pages_subset (loop_df st ++ DataFrame_of fetched)
         (loop_df st'))
  ∧ (leads_body now self START_TIME date_end page_id st w
     = Some (Ok (false, st'), w') →
     ∃ fetched,
       get_page_leads (client self) (count_events is_request w) page_id
         (loop_date_start st) date_end = Ok fetched
       ∧ keeps_first_seen leads_subset (loop_df st ++ DataFrame_of fetched)
           (loop_df st'))
  ∧ (pages_while now fuel self START_TIME date_end (entering [] date_start 0) w
     = Some (Ok st', w') →
     ∃ d,
       w' = d ++ w
       ∧ keeps_first_seen pages_subset (rows_of is_get_pages d) (loop_df st')
       ∧ exactly_once pages_subset (rows_of is_get_pages d) (loop_df st'))
  ∧ (leads_for now fuel self START_TIME date_start date_end ids [] 0 w
     = Some (Ok (leads_df', itr'), w') →
     ∃ d,
       w' = d ++ w
       ∧ keeps_first_seen leads_subset (rows_of is_get_page_leads d) leads_df'
       ∧ exactly_once leads_subset (rows_of is_get_page_leads d) leads_df').
Proof.
  split; [|split; [|split]].
  - rewrite pages_body_pass. intros Hp. apply pass_Ok_inv in Hp.
    destruct Hp as (fetched & Ha & _ & [(_ & ? & _)|(_ & _ & _ & Hdf & _)]);
      [done|].
    exists fetched. split; [done|]. rewrite Hdf. apply firsts_keeps_first_seen.
  - rewrite leads_body_pass. intros Hp. apply pass_Ok_inv in Hp.
    destruct Hp as (fetched & Ha & _ & [(_ & ? & _)|(_ & _ & _ & Hdf & _)]);
      [done|].
    exists fetched. split; [done|]. rewrite Hdf. apply firsts_keeps_first_seen.
  - intros Hrun. apply pages_while_segment in Hrun; [|constructor|done].
    destruct Hrun as (d & -> & _ & Hdf & _). exists d. split; [done|].
    simpl in Hdf. rewrite Hdf.
    split; [|apply keeps_first_seen_exactly_once]; apply firsts_keeps_first_seen.
  - intros Hrun. apply leads_for_segment in Hrun; [|constructor|done].
    destruct Hrun as (d & -> & _ & Hdf & _). exists d. split; [done|].
    simpl in Hdf. rewrite Hdf.
    split; [|apply keeps_first_seen_exactly_once]; apply firsts_keeps_first_seen.
Qed.

Definition after_two_pages : loop_state :=
  {| loop_df := [(0%nat, page_p1); (1%nat, page_p2)];
     loop_date_start := Some "2019-08-09T11:00:00.000Z";
     loop_cont := true; loop_itr := 1 |}.

Definition after_boundary_page : loop_state :=
  {| loop_df := [(0%nat, page_p1); (1%nat, page_p2)];
     loop_date_start := Some "2019-08-09T11:00:00.000Z";
     loop_cont := false; loop_itr := 2 |}.

Definition trace_two_pages : world :=
  [EvGetPages None None (Ok [page_p1; page_p2]); EvNow 1000000; EvNow 0].

Definition trace_boundary_page : world :=
  [EvGetPages (Some "2019-08-09T11:00:00.000Z") None (Ok [page_p2]);
   EvNow 2000000] ++ trace_two_pages.

Definition trace_one_lead : world :=
  [EvGetPageLeads (Some "p1") None None (Ok [lead_l1]); EvNow 1000000; EvNow 0].

Definition trace_lead_again : world :=
  [EvGetPageLeads (Some "p1") (Some "2019-08-10T08:30:00.000Z") None
     (Ok [lead_l1]);
   EvNow 2000000] ++ trace_one_lead.

Lemma accumulated_frame_keeps_first_seen_witness :
  (∃ fetched,
     get_pages client_boundary 0 None None = Ok fetched
     ∧ keeps_first_seen pages_subset ([] ++ DataFrame_of fetched)
         (loop_df after_two_pages))
  ∧ (∃ fetched,
       get_page_leads client_boundary 0 (Some "p1") None None = Ok fetched
       ∧ keeps_first_seen leads_subset ([] ++ DataFrame_of fetched)
           (loop_df after_lead_l1))
  ∧ (∃ d,
       trace_boundary_page = d ++ [EvNow 0]
       ∧ keeps_first_seen pages_subset (rows_of is_get_pages d)
           (loop_df after_boundary_page)
       ∧ exactly_once pages_subset (rows_of is_get_pages d)
           (loop_df after_boundary_page))
  ∧ (∃ d,
       trace_lead_again = d ++ [EvNow 0]
       ∧ keeps_first_seen leads_subset (rows_of is_get_page_leads d)
           [(0%nat, lead_l1)]
       ∧ exactly_once leads_subset (rows_of is_get_page_leads d)
           [(0%nat, lead_l1)]).
Proof.
  pose (self := connection client_boundary 3600).
  split; [|split; [|split]].
  - apply (proj1 (accumulated_frame_keeps_first_seen clock_1s self 0 None None
                    (Some "p1") 2 [Some "p1"] loop_start [EvNow 0]
                    after_two_pages trace_two_pages [] 0)).
    vm_compute. reflexivity.
  - apply (proj1 (proj2 (accumulated_frame_keeps_first_seen clock_1s self 0
                           None None (Some "p1") 2 [Some "p1"] loop_start
                           [EvNow 0] after_lead_l1 trace_one_lead [] 0))).
    vm_compute. reflexivity.
  - apply (proj1 (proj2 (proj2 (accumulated_frame_keeps_first_seen clock_1s
                                  self 0 None None (Some "p1") 2 [Some "p1"]
                                  loop_start [EvNow 0] after_boundary_page
                                  trace_boundary_page [] 0)))).
    vm_compute. reflexivity.
  - apply (proj2 (proj2 (proj2 (accumulated_frame_keeps_first_seen clock_1s
                                  self 0 None None (Some "p1") 2 [Some "p1"]
                                  loop_start [EvNow 0] loop_start
                                  trace_lead_again [(0%nat, lead_l1)] 2)))).
    vm_compute. reflexivity.
Defined.

(** * Claim on the list returned by [bulk_get_pages] *)

Lemma rename_field_lookup (old new : string) (r : record) k :
  old ≠ new →
  rename_field old new r !! k
  = match r !! old with
    | Some v => if decide (k = new) then Some v
                else if decide (k = old) then None else r !! k
    | None => r !! k
    end.
Proof.
  intros Hne. unfold rename_field. destruct (r !! old) as [v|] eqn:Hold; [|done].
  destruct (decide (k = new)) as [->|Hk]; [by rewrite lookup_insert_eq|].
  rewrite lookup_insert_ne by done.
  destruct (decide (k = old)) as [->|Hk']; [by rewrite lookup_delete_eq|].
  by rewrite lookup_delete_ne.
Qed.

Lemma filter_sublist {A} (f : A → bool) (l : list A) :
  List.filter f l `sublist_of` l.
Proof.
  induction l as [|x l IH]; simpl; [done|].
  destruct (f x); [by apply sublist_skip|by apply sublist_cons].
Qed.

Lemma filter_filter {A} (f g : A → bool) (l : list A) :
  List.filter g (List.filter f l) = List.filter (λ x, f x && g x) l.
Proof.
  induction l as [|x l IH]; simpl; [done|].
  destruct (f x); simpl; [destruct (g x)|]; by rewrite ?IH.
Qed.

Lemma filter_rows (f : record → bool) (df : DataFrame) :
  (List.filter (λ r : row, f r.2) df).*2 = List.filter f df.*2.
Proof.
  induction df as [|r df IH]; [done|].
  rewrite fmap_cons. cbn [List.filter].
  destruct (f r.2); [rewrite fmap_cons|]; by rewrite IH.
Qed.

Lemma pages_filters_Ok domain_list page_id_list state df df' :
  pages_filters domain_list page_id_list state df = Ok df' →
  df'.*2 = List.filter (page_passes domain_list page_id_list state) df.*2.
Proof.
  unfold pages_filters. intros Hf.
  rewrite <- filter_rows. unfold page_passes.
  assert (∀ c values (d d' : DataFrame),
            (if truthy_list values then filter_isin c (default [] values) d
             else Ok d) = Ok d' →
            d' = List.filter (λ r : row, cell_in values (r.2 !! c)) d) as Hin.
  { intros c values d d'. unfold cell_in, filter_isin.
    destruct (truthy_list values).
    - destruct (has_column c d); [|done]. by intros [= <-].
    - intros [= <-]. symmetry. by apply forallb_filter_id, forallb_forall. }
  destruct (if truthy_list domain_list then _ else _) as [d1|] eqn:H1; [|done].
  apply Hin in H1. simpl in Hf.
  destruct (if truthy_list page_id_list then _ else _) as [d2|] eqn:H2; [|done].
  apply Hin in H2. simpl in Hf.
  assert (df' = List.filter (λ r : row, cell_is state (r.2 !! "state")) d2)
    as ->.
  { unfold cell_is, filter_eq in *. destruct (truthy_str state).
    - destruct (has_column "state" d2); [|done]. by simplify_eq.
    - simplify_eq. symmetry. by apply forallb_filter_id, forallb_forall. }
  subst d2 d1. rewrite !filter_filter. f_equal.
  apply List.filter_ext. intros r. apply andb_assoc.
Qed.



(** * Claims on the rate counter *)

(** What the machine has read when it is between two requests: 495 counted
    requests for every pause. *)
Lemma governor_run_count counts c0 (d : world) g :
  (∀ e, is_sleep e = true → counts e = false) →
  0 ≤ c0 < 495 →
  governor_run counts (Some (Counting c0)) d = Some g →
  match g with
  | Counting c =>
      0 ≤ c < 495
      ∧ c0 + Z.of_nat (count_events counts d)
        = 495 * Z.of_nat (count_events is_sleep d) + c
  | Pausing =>
      c0 + Z.of_nat (count_events counts d)
      = 495 * (Z.of_nat (count_events is_sleep d) + 1)
  end.
Proof.
  intros Hsleep Hc0. revert g. induction d as [|e d IH]; intros g Hrun.
  - simpl in Hrun. simplify_eq. unfold count_events. simpl. lia.
  - rewrite governor_run_cons in Hrun.
    destruct (governor_run counts _ d) as [g1|]; [|done].
    specialize (IH g1 eq_refl). simpl in Hrun.
    rewrite !count_events_cons.
    destruct g1 as [c1|]; simpl in Hrun.
    + destruct (is_sleep e) eqn:Hs; [done|].
      destruct (counts e).
      * destruct (c1 + 1 =? 495) eqn:He; simplify_eq; lia.
      * simplify_eq. lia.
    + destruct e as [| | |secs]; try done.
      assert (secs = 60) as -> by (by repeat case_match).
      change (governor_step counts Pausing (EvSleep 60)) with
        (Some (Counting 0)) in Hrun.
      simplify_eq. rewrite (Hsleep (EvSleep 60) eq_refl). simpl. lia.
Qed.

Lemma brought_records_not_sleep e : is_sleep e = true → brought_records e = false.
Proof. by destruct e. Qed.

Lemma is_request_not_sleep e : is_sleep e = true → is_request e = false.
Proof. by destruct e. Qed.

(** What [bulk_get_pages] adds to the trace when it returns. *)
Lemma bulk_get_pages_trace now fuel self date_start date_end domain_list
    page_id_list state w out w' :
  bulk_get_pages now fuel self date_start date_end domain_list page_id_list
    state w = Some (Ok out, w') →
  ∃ d itr,
    w' = d ++ w
    ∧ Forall (λ e, is_get_pages e = true ∨ response e = None) d
    ∧ governor_run brought_records (Some (Counting 0)) d = Some (Counting itr).
Proof.
  rewrite bulk_get_pages_unfold. cbn zeta. intros Hrun.
  destruct (pages_while _ _ _ _ _ _ _) as [[[st|e] w1]|] eqn:Hw; try done.
  destruct (pages_filters _ _ _ _) as [df'|] eqn:Hf; [|done].
  simplify_eq.
  apply pages_while_segment in Hw; [|constructor|done].
  destruct Hw as (d & -> & Hk & _ & _ & Hg). simpl in Hg.
  exists (d ++ [EvNow (now (count_events is_now w))]), (loop_itr st).
  split; [by rewrite <- app_assoc|]. split.
  - apply Forall_app. split; [done|]. constructor; [by right|constructor].
  - by rewrite governor_run_app.
Qed.

(** The run of a leads operation against [client_busy 497]. *)
Definition busy_run : option (result (list record) * world) :=
  bulk_get_leads clock_1s 3 (connection (client_busy 497) 3600)
    None None None None [].

(** The run returns after 499 requests, 496 of which brought records (2 for
    the lookup of the page ids, 494 for the leads), without a pause: one
    counter for the whole operation would have paused, whether it counts every
    request or only those that brought records. *)
Lemma busy_run_rejected :
  match busy_run with
  | Some (Ok _, w) =>
      count_events is_request w = 499%nat
      ∧ count_events brought_records w = 496%nat
      ∧ count_events is_sleep w = 0%nat
      ∧ governor_run is_request (Some (Counting 0)) w = None
      ∧ governor_run brought_records (Some (Counting 0)) w = None
  | _ => False
  end.
Proof. vm_compute. repeat split. Qed.

(** C5, as stated, fails: there is no counter shared by the whole leads
    operation and counting every request.  The trace of [busy_run] is
    rejected by the machine that counts every request of the operation from
    its start and wants a pause after the 495th. *)
Lemma shared_counter_counterexample :
  ¬ (∀ (now : nat → Z) (fuel : nat) (self : UnbounceConnection)
       (date_start date_end : option string)
       (lead_id_list page_id_list : option (list pyval))
       (out : list record) (w : world),
       bulk_get_leads now fuel self date_start date_end lead_id_list
         page_id_list [] = Some (Ok out, w) →
       ∃ itr, governor_run is_request (Some (Counting 0)) w
              = Some (Counting itr)).
Proof.
  intros Hclaim. pose proof busy_run_rejected as Hrej.
  destruct busy_run as [[[out|e] w]|] eqn:Hrun; [|done..].
  destruct Hrej as (_ & _ & _ & Hnone & _).
  destruct (Hclaim clock_1s 3%nat (connection (client_busy 497) 3600)
              None None None None out w Hrun) as [itr Hg].
  congruence.
Qed.

(** A run in which the counter of the loop over the page ids reaches 495:
    it pauses once, although 498 requests brought records. *)
Example leads_counter_pauses_once :
  match bulk_get_leads clock_1s 3 (connection (client_busy 600) 3600)
          None None None None [] with
  | Some (Ok _, w) =>
      count_events brought_records w = 498%nat
      ∧ count_events is_sleep w = 1%nat
  | _ => False
  end.
Proof. vm_compute. repeat split. Qed.

(** The trace of a leads operation that returns, read by the machine: the
    lookup of the page ids and the loop over the page ids are two parts, each
    accepted from a counter at 0 by the machine that counts the requests that
    brought records (as the code is written, a pass that fetched an empty page
    leaves the loop before the counter is touched). *)
Lemma rate_counters_read_by_machine (now : nat → Z) (fuel : nat)
    (self : UnbounceConnection) (date_start date_end : option string)
    (lead_id_list page_id_list : option (list pyval)) (w : world)
    (out : list record) (w' : world) :
  bulk_get_leads now fuel self date_start date_end lead_id_list page_id_list w
  = Some (Ok out, w') →
  ∃ d_leads d_pages itr_leads itr_pages,
    w' = d_leads ++ d_pages ++ EvNow (now (count_events is_now w)) :: w
    ∧ Forall (λ e, is_get_pages e = true ∨ response e = None) d_pages
    ∧ Forall (λ e, is_get_page_leads e = true ∨ response e = None) d_leads
    ∧ governor_run brought_records (Some (Counting 0)) d_pages
      = Some (Counting itr_pages)
    ∧ governor_run brought_records (Some (Counting 0)) d_leads
      = Some (Counting itr_leads)
    ∧ Z.of_nat (count_events brought_records d_pages)
      = 495 * Z.of_nat (count_events is_sleep d_pages) + itr_pages
    ∧ Z.of_nat (count_events brought_records d_leads)
      = 495 * Z.of_nat (count_events is_sleep d_leads) + itr_leads
    ∧ 0 ≤ itr_pages < 495 ∧ 0 ≤ itr_leads < 495.
Proof.
  rewrite bulk_get_leads_unfold. cbn zeta. intros Hrun.
  destruct (truthy_list page_id_list); [done|].
  destruct (bulk_get_pages _ _ _ _ _ _ _ _ _) as [[[pages|e] w1]|] eqn:Hpages;
    try done.
  destruct (column _ _) as [page_id|e] eqn:Hcol; [|done].
  rewrite bool_decide_eq_false_2 in Hrun by (by eapply column_not_empty).
  destruct (leads_for _ _ _ _ _ _ _ _ _ _) as [[[[leads_df itr] | e] w2]|]
    eqn:Hleads; try done.
  destruct (leads_filter _ _); [|done]. simplify_eq.
  apply bulk_get_pages_trace in Hpages as (d_pages & itr_pages & -> & Hkp & Hgp).
  apply leads_for_segment in Hleads; [|constructor|done].
  destruct Hleads as (d_leads & -> & Hkl & _ & _ & Hgl). simpl in Hgl.
  exists d_leads, d_pages, itr, itr_pages.
  pose proof (governor_run_count _ 0 _ _ brought_records_not_sleep
                ltac:(lia) Hgp) as [? ?].
  pose proof (governor_run_count _ 0 _ _ brought_records_not_sleep
                ltac:(lia) Hgl) as [? ?].
  repeat split; try done; lia.
Qed.


Lemma count_brought_le_requests (d : world) :
  (count_events brought_records d ≤ count_events is_request d)%nat.
Proof.
  induction d as [|e d IH]; [done|]. rewrite !count_events_cons.
  destruct e as [|? ? [[|]|]|? ? ? [[|]|]|]; simpl; lia.
Qed.

(** C5, amended.  A leads operation has no counter in common with the lookup
    of the page ids: [bulk_get_pages] counts in a counter of its own, started
    at 0 and dropped when the lookup returns, and [bulk_get_leads] starts a
    second counter at 0, which the loops of all the page ids share.  In
    either loop a pass that fetched a non-empty page adds one to the counter;
    when the counter reaches 495 in this way, the pause of 60 seconds follows
    at once, before the next request, and the counter is 0 again; otherwise
    the pass does not pause.  So, in each of the two parts of the trace of an
    operation that returns, the requests that brought records are at most 495
    for every pause plus the count left, and this number is at most the
    number of requests of the part. *)
Theorem rate_counter_per_loop (now : nat → Z) (fuel : nat)
    (self : UnbounceConnection) (START_TIME : Z)
    (date_start date_end : option string) (page_id : cell)
    (lead_id_list page_id_list : option (list pyval))
    (st : loop_state) (w : world) (st' : loop_state) (w' : world)
    (out : list record) :
  (pages_body now self START_TIME date_end st w = Some (Ok (false, st'), w') →
   ∃ fetched t,
     fetched ≠ []
     ∧ if loop_itr st + 1 =? 495
       then loop_itr st' = 0
            ∧ w' = EvSleep 60
                     :: EvGetPages (loop_date_start st) date_end (Ok fetched)
                     :: EvNow t :: w
       else loop_itr st' = loop_itr st + 1
            ∧ w' = EvGetPages (loop_date_start st) date_end (Ok fetched)
                     :: EvNow t :: w)
  ∧ (leads_body now self START_TIME date_end page_id st w
     = Some (Ok (false, st'), w') →
     ∃ fetched t,
       fetched ≠ []
       ∧ if loop_itr st + 1 =? 495
         then loop_itr st' = 0
              ∧ w' = EvSleep 60
                       :: EvGetPageLeads page_id (loop_date_start st) date_end
                            (Ok fetched)
                       :: EvNow t :: w
         else loop_itr st' = loop_itr st + 1
              ∧ w' = EvGetPageLeads page_id (loop_date_start st) date_end
                       (Ok fetched)
                       :: EvNow t :: w)
  ∧ (bulk_get_leads now fuel self date_start date_end lead_id_list
       page_id_list w = Some (Ok out, w') →
     ∃ d_leads d_pages itr_leads itr_pages,
       w' = d_leads ++ d_pages ++ EvNow (now (count_events is_now w)) :: w
       ∧ Forall (λ e, is_get_pages e = true ∨ response e = None) d_pages
       ∧ Forall (λ e, is_get_page_leads e = true ∨ response e = None) d_leads
       ∧ 0 ≤ itr_pages < 495 ∧ 0 ≤ itr_leads < 495
       ∧ Z.of_nat (count_events brought_records d_pages)
         ≤ 495 * Z.of_nat (count_events is_sleep d_pages) + itr_pages
         ≤ Z.of_nat (count_events is_request d_pages)
       ∧ Z.of_nat (count_events brought_records d_leads)
         ≤ 495 * Z.of_nat (count_events is_sleep d_leads) + itr_leads
         ≤ Z.of_nat (count_events is_request d_leads)).
Proof.
  split; [|split].
  - rewrite pages_body_pass. intros Hp. apply pass_Ok_inv in Hp.
    destruct Hp as (fetched & _ & _ & [(_ & ? & _)|(Hne & _ & _ & _ & _ & Hi & ->)]);
      [done|].
    exists fetched, (now (count_events is_now w)). split; [done|].
    rewrite Hi. unfold next_itr, pause_events. by destruct (_ =? _).
  - rewrite leads_body_pass. intros Hp. apply pass_Ok_inv in Hp.
    destruct Hp as (fetched & _ & _ & [(_ & ? & _)|(Hne & _ & _ & _ & _ & Hi & ->)]);
      [done|].
    exists fetched, (now (count_events is_now w)). split; [done|].
    rewrite Hi. unfold next_itr, pause_events. by destruct (_ =? _).
  - intros Hrun. apply rate_counters_read_by_machine in Hrun.
    destruct Hrun as (d_leads & d_pages & itr_leads & itr_pages & -> & Hkp & Hkl
                      & _ & _ & Hcp & Hcl & Hip & Hil).
    exists d_leads, d_pages, itr_leads, itr_pages.
    pose proof (count_brought_le_requests d_pages).
    pose proof (count_brought_le_requests d_leads).
    repeat split; try done; lia.
Qed.

Definition state_494 : loop_state :=
  {| loop_df := []; loop_date_start := None; loop_cont := true; loop_itr := 494 |}.

Definition paused_after_page_p1 : loop_state :=
  {| loop_df := [(0%nat, page_p1)];
     loop_date_start := Some "2019-08-09T10:00:00.000Z";
     loop_cont := true; loop_itr := 0 |}.

Definition paused_after_lead_l1 : loop_state :=
  {| loop_df := [(0%nat, lead_l1)];
     loop_date_start := Some "2019-08-10T08:30:00.000Z";
     loop_cont := true; loop_itr := 0 |}.

Definition trace_one_page : world :=
  [EvGetPages None None (Ok [page_p1]); EvNow 1000000; EvNow 0].

Definition trace_of_small_leads_run : world :=
  [EvGetPageLeads (Some "p2") None None (Ok [lead_l1]);
   EvNow 7000000;
   EvGetPageLeads (Some "p1") (Some "2019-08-10T08:30:00.000Z") None
     (Ok [lead_l1]);
   EvNow 6000000;
   EvGetPageLeads (Some "p1") None None (Ok [lead_l1]);
   EvNow 5000000;
   EvGetPages (Some "2019-08-09T11:00:00.000Z") None (Ok [page_p2]);
   EvNow 4000000;
   EvGetPages None None (Ok [page_p1; page_p2]);
   EvNow 3000000; EvNow 2000000; EvNow 1000000; EvNow 0].

Lemma rate_counter_per_loop_witness :
  (∃ fetched t,
     fetched ≠ []
     ∧ if loop_itr state_494 + 1 =? 495
       then loop_itr paused_after_page_p1 = 0
            ∧ EvSleep 60 :: trace_one_page
              = EvSleep 60
                  :: EvGetPages (loop_date_start state_494) None (Ok fetched)
                  :: EvNow t :: [EvNow 0]
       else loop_itr paused_after_page_p1 = loop_itr state_494 + 1
            ∧ EvSleep 60 :: trace_one_page
              = EvGetPages (loop_date_start state_494) None (Ok fetched)
                  :: EvNow t :: [EvNow 0])
  ∧ (∃ fetched t,
       fetched ≠ []
       ∧ if loop_itr state_494 + 1 =? 495
         then loop_itr paused_after_lead_l1 = 0
              ∧ EvSleep 60 :: trace_one_lead
                = EvSleep 60
                    :: EvGetPageLeads (Some "p1") (loop_date_start state_494)
                         None (Ok fetched)
                    :: EvNow t :: [EvNow 0]
         else loop_itr paused_after_lead_l1 = loop_itr state_494 + 1
              ∧ EvSleep 60 :: trace_one_lead
                = EvGetPageLeads (Some "p1") (loop_date_start state_494) None
                    (Ok fetched)
                    :: EvNow t :: [EvNow 0])
  ∧ (∃ d_leads d_pages itr_leads itr_pages,
       trace_of_small_leads_run
       = d_leads ++ d_pages
           ++ EvNow (clock_1s (count_events is_now [EvNow 0])) :: [EvNow 0]
       ∧ Forall (λ e, is_get_pages e = true ∨ response e = None) d_pages
       ∧ Forall (λ e, is_get_page_leads e = true ∨ response e = None) d_leads
       ∧ 0 ≤ itr_pages < 495 ∧ 0 ≤ itr_leads < 495
       ∧ Z.of_nat (count_events brought_records d_pages)
         ≤ 495 * Z.of_nat (count_events is_sleep d_pages) + itr_pages
         ≤ Z.of_nat (count_events is_request d_pages)
       ∧ Z.of_nat (count_events brought_records d_leads)
         ≤ 495 * Z.of_nat (count_events is_sleep d_leads) + itr_leads
         ≤ Z.of_nat (count_events is_request d_leads)).
Proof.
  pose (self := connection client_same_lead 3600).
  pose (self' := connection client_boundary 3600).
  split; [|split].
  - apply (proj1 (rate_counter_per_loop clock_1s 2 self 0 None None (Some "p1")
                    None None state_494 [EvNow 0] paused_after_page_p1
                    (EvSleep 60 :: trace_one_page) [])).
    vm_compute. reflexivity.
  - apply (proj1 (proj2 (rate_counter_per_loop clock_1s 2 self 0 None None
                           (Some "p1") None None state_494 [EvNow 0]
                           paused_after_lead_l1 (EvSleep 60 :: trace_one_lead)
                           []))).
    vm_compute. reflexivity.
  - apply (proj2 (proj2 (rate_counter_per_loop clock_1s 2 self' 0 None None
                           (Some "p1") None None state_494 [EvNow 0] state_494
                           trace_of_small_leads_run
                           [<["lead_id" := "l1"]> (delete "id" lead_l1)]))).
    vm_compute. reflexivity.
Defined.

(** * Claim on the validation of the filters *)

Lemma keys_within_false (d : gmap string pyval) acceptable k :
  is_Some (d !! k) → k ∉ acceptable → keys_within d acceptable = false.
Proof.
  intros [v Hv] Hk. apply not_true_iff_false. unfold keys_within.
  rewrite forallb_forall. intros Hall. apply Hk.
  specialize (Hall k). rewrite bool_decide_eq_true in Hall. apply Hall.
  apply list_elem_of_In, list_elem_of_fmap. exists (k, v).
  split; [done|]. by apply elem_of_map_to_list.
Qed.

Lemma with_midnight_truthy v day :
  strptime v = Some day → truthy_str (Some (with_midnight v)) = true.
Proof. destruct v as [| |s| |]; try done. by destruct s. Qed.

Lemma process_date_raise d key e :
  process_date d key = Raise e → e = ValueError ∧ ∃ v, d !! key = Some v
                                                     ∧ strptime v = None.
Proof.
  unfold process_date. destruct (d !! key) as [v|]; [|done].
  destruct (strptime v) eqn:Hs; [done|]. intros [= <-]. eauto.
Qed.

Lemma process_date_Ok d key ds dt v :
  process_date d key = Ok (ds, dt) → d !! key = Some v →
  ds = Some (with_midnight v) ∧ dt = strptime v ∧ is_Some (strptime v).
Proof.
  unfold process_date. intros Hp Hv. rewrite Hv in Hp.
  destruct (strptime v); [|done]. by simplify_eq.
Qed.

Lemma process_date_range_raise v e :
  process_date_range v = Raise e → validation_error e.
Proof.
  unfold process_date_range, validation_error.
  destruct v as [| | | |d]; try (intros [= <-]; by right).
  destruct (keys_within _ _); [|intros [= <-]; by left].
  destruct (process_date d "date_start") as [[ds dts]|e1] eqn:H1; simpl.
  2:{ apply process_date_raise in H1 as [-> _]. intros [= <-]. by left. }
  destruct (process_date d "date_end") as [[de dte]|e2] eqn:H2; simpl.
  2:{ apply process_date_raise in H2 as [-> _]. intros [= <-]. by left. }
  repeat case_match; intros [= <-]; by left.
Qed.

Lemma process_date_range_invalid v :
  invalid_date_range v → ∃ e, process_date_range v = Raise e.
Proof.
  intros Hinv. destruct Hinv as [v Hv|d k Hk Hn|d k v Hk Hv Hs
                                |d vs ve s e Hvs Hve Hs He Hle].
  - destruct v as [| | | |d]; [by eexists..|]. by destruct Hv.
  - unfold process_date_range. rewrite (keys_within_false d _ k) by done.
    by eexists.
  - unfold process_date_range. destruct (keys_within _ _); [|by eexists].
    destruct (process_date d "date_start") as [[ds dts]|e1] eqn:H1; simpl;
      [|by eexists].
    destruct (process_date d "date_end") as [[de dte]|e2] eqn:H2; simpl;
      [|by eexists].
    exfalso. apply elem_of_cons in Hk as [->|Hk].
    + apply (process_date_Ok _ _ _ _ v) in H1 as (_ & _ & [? Hsome]); [|done].
      congruence.
    + apply list_elem_of_singleton in Hk as ->.
      apply (process_date_Ok _ _ _ _ v) in H2 as (_ & _ & [? Hsome]); [|done].
      congruence.
  - unfold process_date_range. destruct (keys_within _ _); [|by eexists].
    destruct (process_date d "date_start") as [[ds dts]|e1] eqn:H1; simpl;
      [|by eexists].
    destruct (process_date d "date_end") as [[de dte]|e2] eqn:H2; simpl;
      [|by eexists].
    apply (process_date_Ok _ _ _ _ vs) in H1 as (-> & -> & _); [|done].
    apply (process_date_Ok _ _ _ _ ve) in H2 as (-> & -> & _); [|done].
    rewrite (with_midnight_truthy _ _ Hs), (with_midnight_truthy _ _ He).
    rewrite Hs, He. simpl.
    destruct (e - s =? 0) eqn:H0; [by eexists|].
    destruct (e - s <? 0) eqn:Hlt; [by eexists|].
    exfalso. apply Z.eqb_neq in H0. apply Z.ltb_ge in Hlt. lia.
Qed.

Lemma process_created_at_raise filters e :
  process_created_at filters = Raise e → validation_error e.
Proof.
  unfold process_created_at. destruct (filters !! "created_at"); [|done].
  apply process_date_range_raise.
Qed.

Lemma process_str_or_list_raise filters key e :
  process_str_or_list filters key = Raise e → validation_error e.
Proof.
  unfold process_str_or_list, validation_error.
  repeat case_match; try done; intros [= <-]; by right.
Qed.

Lemma process_str_or_list_Ok filters key v l :
  filters !! key = Some v → process_str_or_list filters key = Ok l →
  is_str_or_list v.
Proof.
  unfold process_str_or_list. intros ->. by destruct v.
Qed.

Lemma process_state_raise filters e :
  process_state filters = Raise e → validation_error e.
Proof.
  unfold process_state, validation_error.
  repeat case_match; try done; intros [= <-]; by left.
Qed.

Lemma process_state_Ok filters v st :
  filters !! "state" = Some v → process_state filters = Ok st →
  ∃ s, s ∈ ACCEPTABLE_STATE_TYPES ∧ v = PyStr s.
Proof.
  unfold process_state. intros ->. destruct v as [| |s| |]; try done.
  case_bool_decide; [|done]. eauto.
Qed.

Lemma process_bulk_pages_unfold now fuel self filters w :
  process_bulk_pages now fuel self (PyDict filters) w
  = if keys_within filters ACCEPTABLE_PAGE_FILTER_TYPES then
      match process_created_at filters with
      | Raise e => Some (Raise e, w)
      | Ok dates =>
          match process_str_or_list filters "domain" with
          | Raise e => Some (Raise e, w)
          | Ok domain_list =>
              match process_str_or_list filters "page_id" with
              | Raise e => Some (Raise e, w)
              | Ok page_id_list =>
                  match process_state filters with
                  | Raise e => Some (Raise e, w)
                  | Ok state =>
                      bulk_get_pages now fuel self dates.1 dates.2 domain_list
                        page_id_list state w
                  end
              end
          end
      end
    else Some (Raise ValueError, w).
Proof.
  unfold process_bulk_pages, bind, lift, raise.
  by repeat case_match.
Qed.

Lemma process_bulk_leads_unfold now fuel self filters w :
  process_bulk_leads now fuel self (PyDict filters) w
  = if keys_within filters ACCEPTABLE_LEAD_FILTER_TYPES then
      match process_created_at filters with
      | Raise e => Some (Raise e, w)
      | Ok dates =>
          match process_str_or_list filters "lead_id" with
          | Raise e => Some (Raise e, w)
          | Ok lead_id_list =>
              match process_str_or_list filters "page_id" with
              | Raise e => Some (Raise e, w)
              | Ok page_id_list =>
                  bulk_get_leads now fuel self dates.1 dates.2 lead_id_list
                    page_id_list w
              end
          end
      end
    else Some (Raise ValueError, w).
Proof.
  unfold process_bulk_leads, bind, lift, raise.
  by repeat case_match.
Qed.

Local Ltac not_listed :=
  let H := fresh in
  intros H;
  repeat (apply elem_of_cons in H as [H|H]; [discriminate H|]);
  by apply elem_of_nil in H.


(** What [strptime] takes for a date in the format: months and days of one
    digit pass, dates that do not exist and other shapes do not. *)
Example strptime_ymd_examples :
  strptime_ymd "2020-01-01" = Some 737425
  ∧ strptime_ymd "2020-1-1" = Some 737425
  ∧ strptime_ymd "2020-02-29" = Some 737484
  ∧ strptime_ymd "2019-02-29" = None
  ∧ strptime_ymd "2020-13-01" = None
  ∧ strptime_ymd "01/01/2020" = None
  ∧ strptime_ymd "2020-01-01T00:00:00" = None.
Proof. vm_compute. repeat split. Qed.

(** The filters [{'created_at': {'date_start': start, 'date_end': end}}]. *)
Definition created_between (date_start date_end : string) : gmap string pyval :=
  {[ "created_at" :=
       PyDict {[ "date_start" := PyStr date_start;
                 "date_end" := PyStr date_end ]} ]}.


(** The rejections the specification lists, run through the entry point. *)
Example equal_dates_rejected :
  bulk_extract clock_1s 10 (connection client_same_page 3600) "pages"
    (PyDict (created_between "2020-01-01" "2020-01-01")) []
  = Some (Raise ValueError, []).
Proof. vm_compute. reflexivity. Qed.

Example inverted_dates_rejected :
  bulk_extract clock_1s 10 (connection client_same_page 3600) "pages"
    (PyDict (created_between "2020-02-01" "2020-01-01")) []
  = Some (Raise ValueError, []).
Proof. vm_compute. reflexivity. Qed.

Example malformed_date_rejected :
  bulk_extract clock_1s 10 (connection client_same_page 3600) "leads"
    (PyDict (created_between "2020-02-30" "2020-03-01")) []
  = Some (Raise ValueError, []).
Proof. vm_compute. reflexivity. Qed.

Example unknown_key_rejected :
  bulk_extract clock_1s 10 (connection client_same_page 3600) "leads"
    (PyDict {[ "state" := PyStr "published" ]}) []
  = Some (Raise ValueError, []).
Proof. vm_compute. reflexivity. Qed.

Example wrong_type_rejected :
  bulk_extract clock_1s 10 (connection client_same_page 3600) "pages"
    (PyDict {[ "domain" := PyInt 7 ]}) []
  = Some (Raise TypeError, []).
Proof. vm_compute. reflexivity. Qed.

Example invalid_state_rejected :
  bulk_extract clock_1s 10 (connection client_same_page 3600) "pages"
    (PyDict {[ "state" := PyStr "draft" ]}) []
  = Some (Raise ValueError, []).
Proof. vm_compute. reflexivity. Qed.

(** A range of one day is accepted and the extraction starts. *)
Example one_day_accepted :
  match bulk_extract clock_1s 10 (connection client_same_page 3600) "pages"
          (PyDict (created_between "2020-01-01" "2020-01-02")) [] with
  | Some (Ok _, w) => count_events is_request w = 2%nat
  | _ => False
  end.
Proof. vm_compute. reflexivity. Qed.

(** * Further properties of the extraction *)

(** ** Filters that are accepted

    What the two [process_bulk_*] methods hand over when they accept the
    filters: a date with the midnight suffix, a string as a list of one
    string, a list as it is, the state as it is. *)

Definition date_in (d : gmap string pyval) (key : string) : option string :=
  match d !! key with
  | Some (PyStr s) => Some (s +:+ "T00:00:00.000Z")
  | _ => None
  end.

Definition date_given (filters : gmap string pyval) (key : string)
    : option string :=
  match filters !! "created_at" with
  | Some (PyDict d) => date_in d key
  | _ => None
  end.

Definition list_given (filters : gmap string pyval) (key : string)
    : option (list pyval) :=
  match filters !! key with
  | Some (PyStr s) => Some [PyStr s]
  | Some (PyList l) => Some l
  | _ => None
  end.

Definition state_given (filters : gmap string pyval) : option string :=
  match filters !! "state" with
  | Some (PyStr s) => Some s
  | _ => None
  end.

Lemma forallb_false_inv {A} (f : A → bool) (l : list A) :
  forallb f l = false → ∃ x, x ∈ l ∧ f x = false.
Proof.
  induction l as [|x l IH]; simpl; [done|].
  destruct (f x) eqn:Hx; simpl.
  - intros (y & Hy & Hf)%IH. exists y. split; [by right|done].
  - intros _. exists x. split; [left|done].
Qed.

Lemma keys_within_false_inv (d : gmap string pyval) acceptable :
  keys_within d acceptable = false →
  ∃ k, is_Some (d !! k) ∧ k ∉ acceptable.
Proof.
  unfold keys_within. intros (k & Hk & Hn)%forallb_false_inv.
  apply list_elem_of_fmap in Hk as ([k' v] & -> & Hkv).
  apply elem_of_map_to_list in Hkv. exists k'. split; [by eexists|].
  by apply bool_decide_eq_false in Hn.
Qed.

Lemma strptime_Some_str v day : strptime v = Some day → ∃ s, v = PyStr s.
Proof. destruct v; try done. eauto. Qed.

Lemma midnight_truthy s : truthy_str (Some (s +:+ "T00:00:00.000Z")) = true.
Proof. by destruct s. Qed.

Lemma process_date_cases d key :
  (∃ v, d !! key = Some v ∧ strptime v = None)
  ∨ (d !! key = None ∧ process_date d key = Ok (None, None))
  ∨ (∃ s day, d !! key = Some (PyStr s) ∧ strptime (PyStr s) = Some day
              ∧ process_date d key
                = Ok (Some (s +:+ "T00:00:00.000Z"), Some day)).
Proof.
  unfold process_date. destruct (d !! key) as [v|] eqn:Hv; [|by right; left].
  destruct (strptime v) as [day|] eqn:Hs; [|left; eauto].
  destruct (strptime_Some_str _ _ Hs) as [s ->].
  right; right. exists s, day. by rewrite Hs.
Qed.

Lemma process_date_range_cases (date_range : pyval) :
  invalid_date_range date_range
  ∨ ∃ d, date_range = PyDict d
         ∧ process_date_range date_range
           = Ok (date_in d "date_start", date_in d "date_end").
Proof.
  destruct date_range as [| | | |d];
    try (left; apply date_range_not_dict; by intros []).
  unfold process_date_range.
  destruct (keys_within d _) eqn:Hkeys.
  2:{ apply keys_within_false_inv in Hkeys as (k & Hk & Hn).
      left. by eapply date_range_unknown_key. }
  destruct (process_date_cases d "date_start")
    as [(v & Hv & Hs)|[(Hv1 & ->)|(s1 & day1 & Hv1 & Hs1 & ->)]].
  { left. eapply (date_range_malformed d "date_start"); [left|done..]. }
  - destruct (process_date_cases d "date_end")
      as [(v & Hv & Hs)|[(Hv2 & ->)|(s2 & day2 & Hv2 & Hs2 & ->)]].
    { left. eapply (date_range_malformed d "date_end"); [right; left|done..]. }
    + right. exists d. split; [done|]. unfold date_in. by rewrite Hv1, Hv2.
    + right. exists d. split; [done|]. unfold date_in. by rewrite Hv1, Hv2.
  - destruct (process_date_cases d "date_end")
      as [(v & Hv & Hs)|[(Hv2 & ->)|(s2 & day2 & Hv2 & Hs2 & ->)]].
    { left. eapply (date_range_malformed d "date_end"); [right; left|done..]. }
    + right. exists d. split; [done|]. unfold date_in. rewrite Hv1, Hv2.
      cbn [result_bind]. by rewrite midnight_truthy.
    + cbn [result_bind].
      rewrite !midnight_truthy. simpl.
      destruct (day2 - day1 =? 0) eqn:H0.
      { left. apply Z.eqb_eq in H0.
        eapply date_range_not_positive; [done..|lia]. }
      destruct (day2 - day1 <? 0) eqn:Hlt.
      { left. apply Z.ltb_lt in Hlt.
        eapply date_range_not_positive; [done..|lia]. }
      right. exists d. split; [done|]. unfold date_in. by rewrite Hv1, Hv2.
Qed.


Lemma process_created_at_cases filters :
  invalid_filters "pages" filters ∧ invalid_filters "leads" filters
  ∨ process_created_at filters
    = Ok (date_given filters "date_start", date_given filters "date_end").
Proof.
  unfold process_created_at, date_given.
  destruct (filters !! "created_at") as [v|] eqn:Hv; [|by right].
  destruct (process_date_range_cases v) as [Hinv|(d & -> & ->)];
    [|by right].
  left. split; by eapply filters_created_at.
Qed.

Lemma process_str_or_list_cases filters key :
  (∃ v, filters !! key = Some v ∧ ¬ is_str_or_list v)
  ∨ process_str_or_list filters key = Ok (list_given filters key).
Proof.
  unfold process_str_or_list, list_given.
  destruct (filters !! key) as [[| | | |]|]; try (by right);
    left; eexists; (split; [done|by intros []]).
Qed.

Lemma process_state_cases filters :
  (∃ v, filters !! "state" = Some v
        ∧ ∀ s, s ∈ ACCEPTABLE_STATE_TYPES → v ≠ PyStr s)
  ∨ process_state filters = Ok (state_given filters).
Proof.
  unfold process_state, state_given.
  destruct (filters !! "state") as [[| |s| |]|]; try (by right);
    try (left; eexists; split; [done|]; by intros).
  case_bool_decide as Hs; [by right|].
  left. eexists. split; [done|]. intros s' Hs' [= ->]. done.
Qed.



(** ** The exceptions of the request loop *)

Lemma duplicated_Raise subset df e :
  duplicated subset df = Raise e →
  ∃ c, e = KeyError c ∧ c ∈ subset ∧ has_column c df = false.
Proof.
  unfold duplicated. destruct (find _ subset) as [c|] eqn:Hf; [|done].
  intros [= <-]. apply find_some in Hf as [Hin Hc].
  exists c. split; [done|]. split; [by apply list_elem_of_In|].
  by apply negb_true_iff.
Qed.

Lemma last_field_Raise field records e :
  last_field field records = Raise e →
  e = KeyError field
  ∧ ∀ r, list.last records = Some r → r !! field = None.
Proof.
  unfold last_field. destruct (list.last records) as [r|].
  - destruct (r !! field) eqn:Hf; [done|]. intros [= <-].
    split; [done|]. by intros ? [= <-].
  - intros [= <-]. split; [done|]. by intros.
Qed.

Section Failures.

Variable now : nat → Z.
Variable self : UnbounceConnection.
Variable START_TIME : Z.
Variable ev : option string → result (list record) → event.
Variable answer : option string → nat → result (list record).
Variable subset : list string.
Variable created : string.

(** Why a pass can raise: the deadline, the client, a column of the key that
    no record has, or the creation field that the last record has not. *)
Inductive pass_failure (st : loop_state) (w : world) (e : exn) (w' : world)
    : Prop :=
| failure_deadline t :
    t = now (count_events is_now w) →
    timedelta_seconds t START_TIME > extract_timeout_time self →
    e = RecursionError → w' = EvNow t :: w →
    pass_failure st w e w'
| failure_client t :
    t = now (count_events is_now w) →
    answer (loop_date_start st) (count_events is_request w) = Raise e →
    w' = ev (loop_date_start st) (Raise e) :: EvNow t :: w →
    pass_failure st w e w'
| failure_key_column t fetched c :
    t = now (count_events is_now w) →
    answer (loop_date_start st) (count_events is_request w) = Ok fetched →
    fetched ≠ [] → c ∈ subset →
    has_column c (loop_df st ++ DataFrame_of fetched) = false →
    e = KeyError c →
    w' = ev (loop_date_start st) (Ok fetched) :: EvNow t :: w →
    pass_failure st w e w'
| failure_created_field t fetched r :
    t = now (count_events is_now w) →
    answer (loop_date_start st) (count_events is_request w) = Ok fetched →
    list.last fetched = Some r → r !! created = None →
    e = KeyError created →
    w' = ev (loop_date_start st) (Ok fetched) :: EvNow t :: w →
    pass_failure st w e w'.

Lemma pass_Raise_inv st w e w' :
  pass now self START_TIME ev answer subset created st w = Some (Raise e, w') →
  pass_failure st w e w'.
Proof.
  unfold pass. cbn zeta. intros Hp.
  destruct (_ >? _) eqn:Ht.
  { simplify_eq. eapply failure_deadline; try done.
    rewrite Z.gtb_ltb in Ht. apply Z.ltb_lt in Ht. lia. }
  destruct (answer _ _) as [fetched|e'] eqn:Ha.
  2:{ simplify_eq. by eapply failure_client. }
  destruct fetched as [|r0 fetched]; [done|].
  destruct (duplicated _ _) as [mask|e'] eqn:Hd.
  2:{ simplify_eq. apply duplicated_Raise in Hd as (c & -> & Hc & Hcol).
      by eapply failure_key_column. }
  destruct (last_field _ _) as [c|e'] eqn:Hc; [done|].
  simplify_eq. apply last_field_Raise in Hc as [-> Hlast].
  destruct (list.last (r0 :: fetched)) as [r|] eqn:Hr.
  - eapply failure_created_field; try done. by apply Hlast.
  - by apply last_None in Hr.
Qed.

(** An exception of the loop is the exception of its last pass, and the
    passes before it kept what every pass keeps. *)
Lemma request_while_Raise (I : loop_state → world → Prop) fuel st w e w' :
  (∀ st w b st' w',
     I st w →
     pass now self START_TIME ev answer subset created st w
     = Some (Ok (b, st'), w') → I st' w') →
  I st w →
  request_while now self START_TIME (λ ds, request (ev ds) (answer ds))
    subset created fuel st w = Some (Raise e, w') →
  ∃ st1 w1,
    I st1 w1
    ∧ pass now self START_TIME ev answer subset created st1 w1
      = Some (Raise e, w').
Proof.
  intros Hpass. revert st w. induction fuel as [|fuel IH]; intros st w HI Hrun.
  - simpl in Hrun. destruct (loop_cont st); by unfold out_of_fuel, ret in Hrun.
  - rewrite request_while_unfold in Hrun.
    destruct (loop_cont st); [|done].
    destruct (pass _ _ _ _ _ _ _ st w) as [[[[[] st1] | e1] w1]|] eqn:Hp;
      try done.
    + eapply IH; [|done]. by eapply Hpass.
    + simplify_eq. eauto.
Qed.

End Failures.

Lemma has_column_false c (df : DataFrame) :
  has_column c df = false → ∀ r, r ∈ df → r.2 !! c = None.
Proof.
  intros Hc r Hr. destruct (r.2 !! c) eqn:Hrc; [|done].
  rewrite (has_column_true c df r) in Hc; [done..|by eexists].
Qed.

Lemma pages_filters_Raise domain_list page_id_list state df e :
  pages_filters domain_list page_id_list state df = Raise e →
  ∃ c, e = KeyError c
       ∧ ((c = "domain" ∧ truthy_list domain_list = true)
          ∨ (c = "page_id" ∧ truthy_list page_id_list = true)
          ∨ (c = "state" ∧ truthy_str state = true)).
Proof.
  unfold pages_filters, filter_isin, filter_eq.
  destruct (truthy_list domain_list) eqn:Hd.
  - destruct (has_column "domain" df); simpl.
    2:{ intros [= <-]. eauto 10. }
    destruct (truthy_list page_id_list) eqn:Hp.
    + destruct (has_column "page_id" _); simpl.
      2:{ intros [= <-]. eauto 10. }
      destruct (truthy_str state) eqn:Hs; [|done].
      destruct (has_column "state" _); [done|]. intros [= <-]. eauto 10.
    + simpl. destruct (truthy_str state) eqn:Hs; [|done].
      destruct (has_column "state" _); [done|]. intros [= <-]. eauto 10.
  - simpl. destruct (truthy_list page_id_list) eqn:Hp.
    + destruct (has_column "page_id" _); simpl.
      2:{ intros [= <-]. eauto 10. }
      destruct (truthy_str state) eqn:Hs; [|done].
      destruct (has_column "state" _); [done|]. intros [= <-]. eauto 10.
    + simpl. destruct (truthy_str state) eqn:Hs; [|done].
      destruct (has_column "state" _); [done|]. intros [= <-]. eauto 10.
Qed.

(** The client whose every request fails with the same exception. *)
Definition client_down (code : nat) : Unbounce :=
  {| get_pages := λ _ _ _, Raise (UpstreamError code);
     get_page_leads := λ _ _ _ _, Raise (UpstreamError code) |}.



(** ** No request after a request that failed *)

(** A logged request that the client answered with an exception. *)
Definition failed (e : event) : bool :=
  match response e with
  | Some (Raise _) => true
  | _ => false
  end.

(** What an operation added to the trace, against its outcome: when it
    returned, no request failed; when it raised, no request but possibly the
    last event failed, and if it did the exception raised is the client's. *)
Definition attempts {A} (out : result A) (d : world) : Prop :=
  match out with
  | Ok _ => Forall (λ e, failed e = false) d
  | Raise x =>
      ∃ e0 d', d = e0 :: d'
               ∧ Forall (λ e, failed e = false) d'
               ∧ ∀ y, response e0 = Some (Raise y) → y = x
  end.

Section Attempts.

Variable now : nat → Z.
Variable self : UnbounceConnection.
Variable START_TIME : Z.
Variable ev : option string → result (list record) → event.
Variable answer : option string → nat → result (list record).
Variable subset : list string.
Variable created : string.

Hypothesis ev_response : ∀ ds r, response (ev ds r) = Some r.

Lemma ev_failed ds r :
  failed (ev ds r) = match r with Raise _ => true | Ok _ => false end.
Proof. unfold failed. by rewrite ev_response. Qed.

Let unbroken_from (w : world) (st1 : loop_state) (w1 : world) : Prop :=
  ∃ d, w1 = d ++ w ∧ Forall (λ e, failed e = false) d.

Lemma pass_unbroken w st1 w1 b st2 w2 :
  unbroken_from w st1 w1 →
  pass now self START_TIME ev answer subset created st1 w1
  = Some (Ok (b, st2), w2) →
  unbroken_from w st2 w2.
Proof.
  intros (d & -> & Hq) Hp. apply pass_Ok_inv in Hp. cbn zeta in Hp.
  destruct Hp as (fetched & _ & _ & [(_ & _ & _ & ->)|(_ & _ & _ & _ & _ & _ & ->)]).
  - exists ([ev (loop_date_start st1) (Ok fetched);
             EvNow (now (count_events is_now (d ++ w)))] ++ d).
    split; [done|]. apply Forall_app. split; [|done].
    constructor; [by rewrite ev_failed|]. by constructor.
  - exists ((pause_events (loop_itr st1)
             ++ [ev (loop_date_start st1) (Ok fetched);
                 EvNow (now (count_events is_now (d ++ w)))]) ++ d).
    split; [by rewrite <- !app_assoc|]. apply Forall_app. split; [|done].
    apply Forall_app. split.
    + unfold pause_events. destruct (_ =? _); by repeat constructor.
    + constructor; [by rewrite ev_failed|]. by constructor.
Qed.

Lemma while_attempts fuel st w out w' :
  request_while now self START_TIME (λ ds, request (ev ds) (answer ds))
    subset created fuel st w = Some (out, w') →
  ∃ d, w' = d ++ w ∧ attempts out d.
Proof.
  intros Hrun. destruct out as [st'|x].
  - apply (request_while_invariant now self START_TIME ev answer subset
             created (unbroken_from w)) in Hrun; [done| |].
    + intros. by eapply pass_unbroken.
    + by exists [].
  - apply (request_while_Raise now self START_TIME ev answer subset created
             (unbroken_from w)) in Hrun.
    + destruct Hrun as (st1 & w1 & (d & -> & Hq) & Hp).
      apply pass_Raise_inv in Hp.
      destruct Hp as [t _ _ _ ->|t _ Ha ->|t fetched c _ _ _ _ _ _ ->
                     |t fetched r _ _ _ _ _ ->].
      * exists (EvNow t :: d). split; [done|]. by exists (EvNow t), d.
      * exists ([ev (loop_date_start st1) (Raise x); EvNow t] ++ d).
        split; [done|]. eexists _, _. split; [done|].
        split; [by constructor|]. intros y. rewrite ev_response. by intros [= ->].
      * exists ([ev (loop_date_start st1) (Ok fetched); EvNow t] ++ d).
        split; [done|]. eexists _, _. split; [done|].
        split; [by constructor|]. intros y. by rewrite ev_response.
      * exists ([ev (loop_date_start st1) (Ok fetched); EvNow t] ++ d).
        split; [done|]. eexists _, _. split; [done|].
        split; [by constructor|]. intros y. by rewrite ev_response.
    + intros. by eapply pass_unbroken.
    + by exists [].
Qed.

End Attempts.

Lemma attempts_extend {A} (out : result A) (d d0 : world) :
  Forall (λ e, failed e = false) d0 → attempts out d → attempts out (d ++ d0).
Proof.
  intros H0. destruct out as [a|x]; simpl.
  - intros Hq. by apply Forall_app.
  - intros (e0 & d' & -> & Hq & He). exists e0, (d' ++ d0).
    split; [done|]. split; [by apply Forall_app|done].
Qed.

Lemma attempts_unbroken {A} (out : result A) (d : world) :
  Forall (λ e, failed e = false) d → d ≠ [] → attempts out d.
Proof.
  intros Hq Hd. destruct out as [a|x]; [done|].
  destruct d as [|e0 d']; [done|]. apply Forall_cons in Hq as [H0 Hq].
  exists e0, d'. split; [done|]. split; [done|].
  intros y Hy. unfold failed in H0. by rewrite Hy in H0.
Qed.

Lemma bulk_get_pages_attempts now fuel self date_start date_end domain_list
    page_id_list state w out w' :
  bulk_get_pages now fuel self date_start date_end domain_list page_id_list
    state w = Some (out, w') →
  ∃ d, w' = d ++ w ∧ d ≠ [] ∧ attempts out d.
Proof.
  rewrite bulk_get_pages_unfold. cbn zeta. intros Hrun.
  destruct (pages_while _ _ _ _ _ _ _) as [[out1 w1]|] eqn:Hw; [|done].
  apply (while_attempts now self _ (pages_ev date_end)
           (pages_answer self date_end) pages_subset "createdAt") in Hw
    as (d & -> & Hd); [|done].
  assert (Forall (λ e, failed e = false) [EvNow (now (count_events is_now w))])
    as Hnow by (by constructor).
  exists (d ++ [EvNow (now (count_events is_now w))]).
  assert (d ++ [EvNow (now (count_events is_now w))] ≠ []) as Hne
    by (by destruct d).
  destruct out1 as [st|x].
  - simpl in Hd.
    destruct (pages_filters _ _ _ _); simplify_eq;
      (split; [by rewrite <- app_assoc|]); (split; [done|]);
      apply attempts_unbroken; try done; by apply Forall_app.
  - simplify_eq. split; [by rewrite <- app_assoc|]. split; [done|].
    by apply attempts_extend.
Qed.

Lemma leads_for_attempts now fuel self START_TIME OG_DATE_START date_end ids
    leads_df itr w out w' :
  leads_for now fuel self START_TIME OG_DATE_START date_end ids leads_df itr w
  = Some (out, w') →
  ∃ d, w' = d ++ w ∧ attempts out d.
Proof.
  revert leads_df itr w. induction ids as [|page_id ids IH];
    intros leads_df itr w Hrun.
  - simpl in Hrun. unfold ret in Hrun. simplify_eq. exists [].
    split; [done|]. constructor.
  - simpl in Hrun. unfold bind in Hrun.
    destruct (leads_while _ _ _ _ _ _ _ _) as [[out1 w1]|] eqn:Hw; [|done].
    apply (while_attempts now self _ (leads_ev page_id date_end)
             (leads_answer self page_id date_end) leads_subset "created_at")
      in Hw as (d1 & -> & Hd1); [|done].
    destruct out1 as [st1|x].
    + apply IH in Hrun as (d2 & -> & Hd2). exists (d2 ++ d1).
      split; [by rewrite app_assoc|]. by apply attempts_extend.
    + simplify_eq. by exists d1.
Qed.

(** The client whose requests for pages are answered by the page [page_p1]
    and whose requests for leads fail. *)
Definition client_leads_down (code : nat) : Unbounce :=
  {| get_pages := λ _ _ _, Ok [page_p1];
     get_page_leads := λ _ _ _ _, Raise (UpstreamError code) |}.

(** X5.  Whatever the outcome of [bulk_get_leads], neither loop goes on
    after a request that the client answered with an exception: when the
    operation returns, none of its requests failed; when it raises, no
    request failed except possibly the very last thing it did, and then the
    exception it raises is the one of the client. *)
Theorem leads_operation_stops_at_client_exception (now : nat → Z) (fuel : nat)
    (self : UnbounceConnection) (date_start date_end : option string)
    (lead_id_list page_id_list : option (list pyval)) (w : world)
    (out : result (list record)) (w' : world) :
  bulk_get_leads now fuel self date_start date_end lead_id_list page_id_list w
  = Some (out, w') →
  ∃ d, w' = d ++ w ∧ attempts out d.
Proof.
  rewrite bulk_get_leads_unfold. cbn zeta. intros Hrun.
  set (t0 := now (count_events is_now w)) in *.
  assert (Forall (λ e, failed e = false) [EvNow t0]) as Hnow by (by constructor).
  destruct (truthy_list page_id_list).
  { simplify_eq. exists [EvNow t0]. split; [done|]. by apply attempts_unbroken. }
  destruct (bulk_get_pages _ _ _ _ _ _ _ _ _) as [[out1 w1]|] eqn:Hpages;
    [|done].
  apply bulk_get_pages_attempts in Hpages as (d1 & -> & Hne1 & Hd1).
  destruct out1 as [pages|x].
  2:{ simplify_eq. exists (d1 ++ [EvNow t0]).
      split; [by rewrite <- app_assoc|]. by apply attempts_extend. }
  simpl in Hd1.
  assert (Forall (λ e, failed e = false) (d1 ++ [EvNow t0])) as Hq1
    by (by apply Forall_app).
  assert (d1 ++ [EvNow t0] ≠ []) as Hne by (by destruct d1).
  destruct (column _ _) as [page_id|x].
  2:{ simplify_eq. exists (d1 ++ [EvNow t0]).
      split; [by rewrite <- app_assoc|]. by apply attempts_unbroken. }
  destruct (bool_decide _).
  { simplify_eq. exists (d1 ++ [EvNow t0]).
    split; [by rewrite <- app_assoc|]. done. }
  destruct (leads_for _ _ _ _ _ _ _ _ _ _) as [[out2 w2]|] eqn:Hleads; [|done].
  apply leads_for_attempts in Hleads as (d2 & -> & Hd2).
  exists (d2 ++ d1 ++ [EvNow t0]).
  split.
  { destruct out2 as [r|x]; [destruct (leads_filter _ _)|]; simplify_eq;
      by rewrite <- !app_assoc. }
  destruct out2 as [r|x].
  - simpl in Hd2.
    assert (Forall (λ e, failed e = false) (d2 ++ d1 ++ [EvNow t0])) as Hq
      by (by apply Forall_app).
    destruct (leads_filter _ _); simplify_eq; [done|].
    apply attempts_unbroken; [done|]. by destruct d2.
  - simplify_eq. by apply attempts_extend.
Qed.

Lemma leads_operation_stops_at_client_exception_witness :
  ∃ d,
    [EvGetPageLeads (Some "p1") None None (Raise (UpstreamError 503));
     EvNow 4000000;
     EvGetPages (Some "2019-08-09T10:00:00.000Z") None (Ok [page_p1]);
     EvNow 3000000;
     EvGetPages None None (Ok [page_p1]);
     EvNow 2000000; EvNow 1000000; EvNow 0] = d ++ []
    ∧ attempts (@Raise (list record) (UpstreamError 503)) d.
Proof.
  apply (leads_operation_stops_at_client_exception clock_1s 5
           (connection (client_leads_down 503) 3600) None None None None []).
  vm_compute. reflexivity.
Defined.

(** ** An account without pages, a page without leads *)

(** What the filters of [bulk_get_pages] give on the frame without rows and
    without columns. *)
Definition filters_on_nothing (domain_list page_id_list : option (list pyval))
    (state : option string) : result (list record) :=
  if truthy_list domain_list then Raise (KeyError "domain")
  else if truthy_list page_id_list then Raise (KeyError "page_id")
  else if truthy_str state then Raise (KeyError "state")
  else Ok [].

(** X6.  When the first page is empty, [bulk_get_pages] stops after this
    one request.  It returns the empty list when no filter was given; with a
    filter it raises the [KeyError] of the column of the first filter given
    (domain, then page id, then state), the empty frame having no column. *)
Theorem bulk_get_pages_of_no_page (now : nat → Z) (fuel : nat)
    (self : UnbounceConnection) (date_start date_end : option string)
    (domain_list page_id_list : option (list pyval)) (state : option string)
    (w : world) :
  let t0 := now (count_events is_now w) in
  let t1 := now (S (count_events is_now w)) in
  get_pages (client self) (count_events is_request w) date_start date_end
  = Ok [] →
  timedelta_seconds t1 t0 ≤ extract_timeout_time self →
  (1 ≤ fuel)%nat →
  bulk_get_pages now fuel self date_start date_end domain_list page_id_list
    state w
  = Some (filters_on_nothing domain_list page_id_list state,
          EvGetPages date_start date_end (Ok []) :: EvNow t1 :: EvNow t0 :: w).
Proof.
  intros t0 t1 Hp Ht Hfuel. rewrite bulk_get_pages_unfold. cbn zeta.
  destruct fuel as [|fuel]; [lia|].
  rewrite pages_while_unfold. cbn [loop_cont].
  unfold pages_pass, pass. cbn [loop_df loop_date_start loop_itr].
  rewrite !count_events_cons. cbn [is_now is_request].
  fold t0 t1. rewrite (deadline_not_exceeded _ _ _ Ht).
  unfold pages_answer, pages_ev. rewrite Hp. cbn [loop_df rename fmap list_fmap].
  unfold pages_filters, filters_on_nothing, filter_isin, filter_eq.
  by destruct (truthy_list domain_list), (truthy_list page_id_list),
    (truthy_str state).
Qed.

Lemma bulk_get_pages_of_no_page_witness :
  bulk_get_pages clock_1s 1 (connection client_no_pages 3600) None None
    (Some [PyStr "get.example.com"]) None None []
  = Some (filters_on_nothing (Some [PyStr "get.example.com"]) None None,
          [EvGetPages None None (Ok []); EvNow (clock_1s 1); EvNow (clock_1s 0)]).
Proof.
  apply (bulk_get_pages_of_no_page clock_1s 1 (connection client_no_pages 3600)
           None None (Some [PyStr "get.example.com"]) None None []).
  - reflexivity.
  - vm_compute. discriminate.
  - lia.
Defined.

(** ** The number of requests *)

Lemma firsts_from_not_seen subset seen df :
  firsts_from subset seen df = [] → ∀ r, r ∈ df → row_key subset r ∈ seen.
Proof.
  intros Hf r Hr. destruct (decide (row_key subset r ∈ seen)) as [|Hn]; [done|].
  assert (row_key subset r ∈ keys subset (firsts_from subset seen df)) as Hk.
  { apply elem_of_keys_firsts. split; [|done]. apply elem_of_keys. eauto. }
  rewrite Hf in Hk. by apply elem_of_nil in Hk.
Qed.

Lemma firsts_app_known subset df new :
  NoDup (keys subset df) →
  firsts_from subset [] (df ++ new)
  = df ++ firsts_from subset (keys subset df) new.
Proof.
  intros Hnd. rewrite firsts_from_app.
  destruct (firsts_from_id subset [] df Hnd) as [-> _].
  { intros k _. apply not_elem_of_nil. }
  by rewrite app_nil_r.
Qed.

(** A pass after which the loop goes on has made the frame longer. *)
Lemma frame_grows subset df new :
  NoDup (keys subset df) →
  (length df ≤ length (firsts_from subset [] (df ++ new)))%nat
  ∧ (equals new (dups_from subset [] (df ++ new)) = false →
     (length df < length (firsts_from subset [] (df ++ new)))%nat).
Proof.
  intros Hnd. rewrite firsts_app_known, length_app by done.
  split; [lia|]. intros Heq.
  destruct (firsts_from subset (keys subset df) new) as [|x l] eqn:Hf;
    [|simpl; lia].
  apply not_true_iff_false in Heq. destruct Heq.
  apply equals_dropped; [done|]. by apply firsts_from_not_seen.
Qed.

Lemma count_events_nil p : count_events p [] = 0%nat.
Proof. done. Qed.

Lemma response_is_request e r : response e = Some r → is_request e = true.
Proof. by destruct e. Qed.

Section Bound.

Variable now : nat → Z.
Variable self : UnbounceConnection.
Variable START_TIME : Z.
Variable ev : option string → result (list record) → event.
Variable answer : option string → nat → result (list record).
Variable subset : list string.
Variable created : string.

Hypothesis ev_response : ∀ ds r, response (ev ds r) = Some r.

Lemma while_requests_bound fuel st w st' w' :
  NoDup (keys subset (loop_df st)) →
  request_while now self START_TIME (λ ds, request (ev ds) (answer ds))
    subset created fuel st w = Some (Ok st', w') →
  ∃ d,
    w' = d ++ w
    ∧ (length (loop_df st) ≤ length (loop_df st'))%nat
    ∧ (count_events is_request d + length (loop_df st)
       ≤ length (loop_df st') + 1)%nat
    ∧ (loop_cont st = true → 1 ≤ count_events is_request d)%nat.
Proof.
  revert st w. induction fuel as [|fuel IH]; intros st w Hnd Hrun.
  - simpl in Hrun. destruct (loop_cont st); unfold out_of_fuel, ret in Hrun;
      [done|]. simplify_eq. exists []. split; [done|].
    rewrite count_events_nil. split; [lia|]. split; [lia|done].
  - rewrite request_while_unfold in Hrun.
    destruct (loop_cont st).
    2:{ simplify_eq. exists []. split; [done|]. rewrite count_events_nil.
        split; [lia|]. split; [lia|done]. }
    destruct (pass _ _ _ _ _ _ _ st w) as [[[[b st1] | e1] w1]|] eqn:Hp;
      try done.
    apply pass_Ok_inv in Hp. cbn zeta in Hp.
    destruct Hp as (fetched & _ & _ & [(_ & -> & -> & ->)
                                      |(_ & -> & _ & Hdf & Hcont & _ & ->)]).
    + simplify_eq. eexists [_; _]. split; [done|].
      rewrite !count_events_cons, (response_is_request _ _ (ev_response _ _)).
      cbn [is_request]. rewrite count_events_nil. lia.
    + destruct (frame_grows subset (loop_df st) (DataFrame_of fetched) Hnd)
        as [Hle Hlt].
      rewrite <- Hdf in Hle, Hlt.
      destruct (loop_cont st1) eqn:Hc1.
      * apply IH in Hrun as (d & -> & Hle' & Hb & _).
        2:{ rewrite Hdf. apply NoDup_keys_firsts. }
        exists (d ++ pause_events (loop_itr st)
                  ++ [ev (loop_date_start st) (Ok fetched);
                      EvNow (now (count_events is_now w))]).
        split; [by rewrite <- !app_assoc|]. split; [lia|].
        rewrite !count_events_app, count_request_pause, !count_events_cons,
          (response_is_request _ _ (ev_response _ _)).
        cbn [is_request]. rewrite count_events_nil.
        assert (length (loop_df st) < length (loop_df st1))%nat
          by (apply Hlt; rewrite Hcont in Hc1; by apply negb_true_iff).
        lia.
      * rewrite request_while_stop in Hrun by done. simplify_eq.
        exists (pause_events (loop_itr st)
                  ++ [ev (loop_date_start st) (Ok fetched);
                      EvNow (now (count_events is_now w))]).
        split; [by rewrite <- !app_assoc|]. split; [lia|].
        rewrite !count_events_app, count_request_pause, !count_events_cons,
          (response_is_request _ _ (ev_response _ _)).
        cbn [is_request]. rewrite count_events_nil. lia.
Qed.

End Bound.

Lemma pages_while_requests_bound now fuel self START_TIME date_end st w st' w' :
  NoDup (keys pages_subset (loop_df st)) →
  pages_while now fuel self START_TIME date_end st w = Some (Ok st', w') →
  ∃ d,
    w' = d ++ w
    ∧ (length (loop_df st) ≤ length (loop_df st'))%nat
    ∧ (count_events is_request d + length (loop_df st)
       ≤ length (loop_df st') + 1)%nat
    ∧ (loop_cont st = true → 1 ≤ count_events is_request d)%nat.
Proof.
  apply (while_requests_bound now self START_TIME (pages_ev date_end)
           (pages_answer self date_end) pages_subset "createdAt"); done.
Qed.

Lemma leads_while_requests_bound now fuel self START_TIME date_end page_id
    st w st' w' :
  NoDup (keys leads_subset (loop_df st)) →
  leads_while now fuel self START_TIME date_end page_id st w
  = Some (Ok st', w') →
  ∃ d,
    w' = d ++ w
    ∧ (length (loop_df st) ≤ length (loop_df st'))%nat
    ∧ (count_events is_request d + length (loop_df st)
       ≤ length (loop_df st') + 1)%nat
    ∧ (loop_cont st = true → 1 ≤ count_events is_request d)%nat.
Proof.
  apply (while_requests_bound now self START_TIME (leads_ev page_id date_end)
           (leads_answer self page_id date_end) leads_subset "created_at");
    done.
Qed.

Lemma leads_for_requests_bound now fuel self START_TIME OG_DATE_START date_end
    ids leads_df itr w leads_df' itr' w' :
  NoDup (keys leads_subset leads_df) → 0 ≤ itr < 495 →
  leads_for now fuel self START_TIME OG_DATE_START date_end ids leads_df itr w
  = Some (Ok (leads_df', itr'), w') →
  ∃ d,
    w' = d ++ w
    ∧ (length leads_df ≤ length leads_df')%nat
    ∧ (length ids ≤ count_events is_request d)%nat
    ∧ (count_events is_request d + length leads_df
       ≤ length leads_df' + length ids)%nat.
Proof.
  revert leads_df itr w.
  induction ids as [|page_id ids IH]; intros leads_df itr w Hnd Hitr Hrun.
  - simpl in Hrun. unfold ret in Hrun. simplify_eq. exists [].
    rewrite count_events_nil. simpl. split; [done|]. lia.
  - simpl in Hrun. unfold bind in Hrun.
    destruct (leads_while _ _ _ _ _ _ _ _) as [[[st1|e] w1]|] eqn:Hw; try done.
    pose proof Hw as Hseg. apply leads_while_segment in Hseg; [|done..].
    destruct Hseg as (d0 & _ & _ & Hdf & Hi & _).
    apply leads_while_requests_bound in Hw as (d1 & -> & Hle1 & Hb1 & Hone);
      [|done].
    apply IH in Hrun as (d2 & -> & Hle2 & Hlow & Hb2); [| |done].
    2:{ rewrite Hdf. apply NoDup_keys_firsts. }
    exists (d2 ++ d1). split; [by rewrite app_assoc|].
    rewrite count_events_app. simpl in *. specialize (Hone eq_refl). lia.
Qed.

Lemma only_page_requests (d : world) :
  Forall (λ e, is_get_pages e = true ∨ response e = None) d →
  rows_of is_get_page_leads d = []
  ∧ count_events is_get_page_leads d = 0%nat
  ∧ count_events is_get_pages d = count_events is_request d.
Proof.
  induction 1 as [|e d He _ (IH1 & IH2 & IH3)]; [done|].
  rewrite rows_of_cons, !count_events_cons, IH1, IH2, IH3.
  destruct e; destruct He as [He|He]; try done.
Qed.

Lemma only_lead_requests (d : world) :
  Forall (λ e, is_get_page_leads e = true ∨ response e = None) d →
  rows_of is_get_pages d = []
  ∧ count_events is_get_pages d = 0%nat
  ∧ count_events is_get_page_leads d = count_events is_request d.
Proof.
  induction 1 as [|e d He _ (IH1 & IH2 & IH3)]; [done|].
  rewrite rows_of_cons, !count_events_cons, IH1, IH2, IH3.
  destruct e; destruct He as [He|He]; try done.
Qed.

(** What a run of [bulk_get_pages] that returns has done: the events [d] it
    added, all of them page requests, readings of the clock or pauses, and
    the frame [df] its loop ended with. *)
Lemma bulk_get_pages_run now fuel self date_start date_end domain_list
    page_id_list state w out w' :
  bulk_get_pages now fuel self date_start date_end domain_list page_id_list
    state w = Some (Ok out, w') →
  ∃ d df,
    w' = d ++ w
    ∧ Forall (λ e, is_get_pages e = true ∨ response e = None) d
    ∧ df = firsts_from pages_subset [] (rows_of is_get_pages d)
    ∧ (1 ≤ count_events is_request d ≤ length df + 1)%nat
    ∧ out = List.filter (page_passes domain_list page_id_list state)
              (rename_field "id" "page_id" <$> df.*2).
Proof.
  rewrite bulk_get_pages_unfold. cbn zeta. intros Hrun.
  destruct (pages_while _ _ _ _ _ _ _) as [[[st|e] w1]|] eqn:Hw; try done.
  destruct (pages_filters _ _ _ _) as [df'|] eqn:Hf; [|done].
  simplify_eq.
  pose proof Hw as Hb.
  apply pages_while_segment in Hw; [|constructor|done].
  destruct Hw as (d & Hd & Hk & Hdf & _). simpl in Hdf.
  apply pages_while_requests_bound in Hb as (d' & Hd' & _ & Hb & Hone);
    [|constructor].
  assert (d' = d) as -> by (eapply app_inv_tail; by rewrite <- Hd, <- Hd').
  subst w'. simpl in Hb. specialize (Hone eq_refl).
  apply pages_filters_Ok in Hf. fold (to_dict_records df') in Hf.
  fold (to_dict_records (rename "id" "page_id" (loop_df st))) in Hf.
  rewrite to_dict_records_rename in Hf.
  exists (d ++ [EvNow (now (count_events is_now w))]), (loop_df st).
  split; [by rewrite <- app_assoc|]. split.
  { apply Forall_app. split; [done|]. constructor; [by right|constructor]. }
  rewrite rows_of_app, count_events_app. simpl.
  split; [done|]. split; [|done].
  rewrite count_events_cons, count_events_nil. simpl. lia.
Qed.



(** ** The leads operation as a whole *)

(** The test a lead has to pass to be returned. *)
Definition lead_passes (lead_id_list : option (list pyval)) (r : record) : bool :=
  cell_in lead_id_list (r !! "lead_id").

Lemma leads_filter_Ok lead_id_list df df' :
  leads_filter lead_id_list df = Ok df' →
  df'.*2 = List.filter (lead_passes lead_id_list) df.*2.
Proof.
  unfold leads_filter, lead_passes, cell_in, filter_isin. intros Hf.
  rewrite <- filter_rows.
  destruct (truthy_list lead_id_list).
  - destruct (has_column "lead_id" df); [|done]. by simplify_eq.
  - simplify_eq. f_equal. symmetry. by apply forallb_filter_id, forallb_forall.
Qed.

Lemma column_cells c (l : list record) ser :
  column c (DataFrame_of l) = Ok ser → ser.*2 = (λ r : record, r !! c) <$> l.
Proof.
  unfold column. destruct (has_column _ _); [|done]. intros [= <-].
  rewrite <- list_fmap_compose.
  rewrite <- (DataFrame_of_records l) at 2. by rewrite <- list_fmap_compose.
Qed.

Lemma filter_no_filter (l : list record) :
  List.filter (page_passes None None None) l = l.
Proof. by apply forallb_filter_id, forallb_forall. Qed.

(** What a run of [bulk_get_leads] that returns has done: the events [dp] of
    the lookup of the page ids, then the events [dl] of the loop over the page
    ids, with the two frames and the number of requests of each part. *)
Lemma bulk_get_leads_run now fuel self date_start date_end lead_id_list
    page_id_list w out w' :
  bulk_get_leads now fuel self date_start date_end lead_id_list page_id_list w
  = Some (Ok out, w') →
  ∃ dl dp pages leads,
    w' = dl ++ dp ++ w
    ∧ Forall (λ e, is_get_pages e = true ∨ response e = None) dp
    ∧ Forall (λ e, is_get_page_leads e = true ∨ response e = None) dl
    ∧ pages = firsts_from pages_subset [] (rows_of is_get_pages dp)
    ∧ leads = firsts_from leads_subset [] (rows_of is_get_page_leads dl)
    ∧ (1 ≤ length pages)%nat
    ∧ (1 ≤ count_events is_request dp ≤ length pages + 1)%nat
    ∧ (length pages ≤ count_events is_request dl
       ≤ length leads + length pages)%nat
    ∧ out = List.filter (lead_passes lead_id_list)
              (rename_field "id" "lead_id" <$> leads.*2)
    ∧ (truthy_list lead_id_list = true → leads ≠ []).
Proof.
  rewrite bulk_get_leads_unfold. cbn zeta. intros Hrun.
  destruct (truthy_list page_id_list); [done|].
  destruct (bulk_get_pages _ _ _ _ _ _ _ _ _) as [[[pages|e] w1]|] eqn:Hpages;
    try done.
  destruct (column _ _) as [page_id|e] eqn:Hcol; [|done].
  pose proof (column_not_empty _ _ _ Hcol) as Hne.
  rewrite bool_decide_eq_false_2 in Hrun by done.
  destruct (leads_for _ _ _ _ _ _ _ _ _ _) as [[[[leads_df itr] | e] w2]|]
    eqn:Hleads; try done.
  destruct (leads_filter _ _) as [df|] eqn:Hf; [|done]. simplify_eq.
  apply bulk_get_pages_run in Hpages as (dp & pdf & -> & Hkp & -> & Hbp & ->).
  rewrite filter_no_filter in Hcol.
  assert (length page_id.*2
          = length (firsts_from pages_subset [] (rows_of is_get_pages dp)))
    as Hlen by (by rewrite (column_cells _ _ _ Hcol), !length_fmap).
  pose proof Hleads as Hb.
  apply leads_for_segment in Hleads; [|constructor|done].
  destruct Hleads as (dl & Hdl & Hkl & Hdf & _). simpl in Hdf.
  apply leads_for_requests_bound in Hb as (dl' & Hdl' & _ & Hlow & Hup);
    [|constructor|done].
  assert (dl' = dl) as -> by (eapply app_inv_tail; by rewrite <- Hdl, <- Hdl').
  simpl in Hf.
  assert (truthy_list lead_id_list = true → leads_df ≠ []) as Hneed.
  { intros Ht ->. unfold leads_filter, filter_isin in Hf. by rewrite Ht in Hf. }
  apply leads_filter_Ok in Hf. fold (to_dict_records df) in Hf.
  fold (to_dict_records (rename "id" "lead_id" leads_df)) in Hf.
  rewrite to_dict_records_rename in Hf.
  set (t0 := now (count_events is_now w)) in *.
  eexists dl, (dp ++ [EvNow t0]), _, leads_df.
  split; [by rewrite Hdl', <- app_assoc|]. split.
  { apply Forall_app. split; [done|]. constructor; [by right|constructor]. }
  split; [done|]. split; [reflexivity|]. split; [done|].
  rewrite rows_of_app, count_events_app, count_events_cons, count_events_nil.
  cbn [rows_of foldr is_get_pages is_request app]. simpl in Hup.
  rewrite Hlen in Hlow, Hup.
  split.
  { rewrite <- Hlen. destruct page_id; [done|]. rewrite fmap_cons. simpl. lia. }
  split; [lia|]. split; [lia|]. split; done.
Qed.


(** The run of a leads operation against [client_boundary]: two requests
    for the two pages, two requests for the one lead of the first page and
    one request for the second page, which brings the same lead again. *)
Definition trace_boundary_leads : world :=
  [EvGetPageLeads (Some "p2") None None (Ok [lead_l1]); EvNow 6000000;
   EvGetPageLeads (Some "p1") (Some "2019-08-10T08:30:00.000Z") None
     (Ok [lead_l1]);
   EvNow 5000000;
   EvGetPageLeads (Some "p1") None None (Ok [lead_l1]); EvNow 4000000;
   EvGetPages (Some "2019-08-09T11:00:00.000Z") None (Ok [page_p2]);
   EvNow 3000000;
   EvGetPages None None (Ok [page_p1; page_p2]); EvNow 2000000;
   EvNow 1000000; EvNow 0].




(** X10.  With a lead-id filter, [bulk_get_leads] returns only when some
    request has brought a lead: when no lead was fetched, the frame has no
    ['lead_id'] column and the filter raises [KeyError] where the empty list
    could have been returned. *)
Theorem lead_id_filter_needs_a_lead (now : nat → Z) (fuel : nat)
    (self : UnbounceConnection) (date_start date_end : option string)
    (lead_id_list page_id_list : option (list pyval)) (w : world)
    (out : list record) (w' : world) :
  truthy_list lead_id_list = true →
  bulk_get_leads now fuel self date_start date_end lead_id_list page_id_list w
  = Some (Ok out, w') →
  ∃ d, w' = d ++ w ∧ rows_of is_get_page_leads d ≠ [].
Proof.
  intros Ht (dl & dp & pages & leads & -> & Hkp & Hkl & -> & -> & _ & _ & _
             & -> & Hneed)%bulk_get_leads_run.
  destruct (only_page_requests _ Hkp) as (Hrp & _ & _).
  exists (dl ++ dp). split; [by rewrite app_assoc|].
  rewrite rows_of_app, Hrp. cbn [app]. intros Hnil.
  apply (Hneed Ht). by rewrite Hnil.
Qed.

Lemma lead_id_filter_needs_a_lead_witness :
  ∃ d, trace_boundary_leads = d ++ [] ∧ rows_of is_get_page_leads d ≠ [].
Proof.
  apply (lead_id_filter_needs_a_lead clock_1s 2
           (connection client_boundary 3600) None None
           (Some [PyStr "l1"; PyStr "l7"]) None []
           [rename_field "id" "lead_id" lead_l1]).
  - reflexivity.
  - vm_compute. reflexivity.
Defined.

(** The same filter on an account whose pages have no lead. *)
Example lead_id_filter_without_leads :
  ∃ w,
    bulk_get_leads clock_1s 2 (connection client_same_page 3600) None None
      (Some [PyStr "l1"]) None []
    = Some (Raise (KeyError "lead_id"), w)
    ∧ count_events is_get_page_leads w = 1%nat.
Proof. eexists. split; [vm_compute; reflexivity|]. done. Qed.

(** ** The requests for leads, page by page *)

(** An event that the loop over one page id may log: a reading of the clock,
    the pause of 60 seconds, or a request for the leads of this page up to
    [date_end]. *)
Definition for_page (page_id : cell) (date_end : option string) (e : event)
    : bool :=
  match e with
  | EvNow _ => true
  | EvGetPages _ _ _ => false
  | EvGetPageLeads p _ to _ =>
      bool_decide (p = page_id) && bool_decide (to = date_end)
  | EvSleep secs => secs =? 60
  end.

(** What the loop over one page id adds to the trace: read from the oldest
    event, a reading of the clock and the request for the leads of the page
    from [date_start] on, then events of this page only. *)
Definition page_block (date_start date_end : option string) (page_id : cell)
    (b : world) : Prop :=
  ∃ rest r t,
    b = rest ++ [EvGetPageLeads page_id date_start date_end r; EvNow t]
    ∧ Forall (λ e, for_page page_id date_end e = true) rest.

Section Shape.

Variable now : nat → Z.
Variable self : UnbounceConnection.
Variable START_TIME : Z.
Variable ev : option string → result (list record) → event.
Variable answer : option string → nat → result (list record).
Variable subset : list string.
Variable created : string.
Variable P : event → Prop.

Hypothesis P_ev : ∀ ds r, P (ev ds r).
Hypothesis P_now : ∀ t, P (EvNow t).
Hypothesis P_sleep : P (EvSleep 60).

Lemma P_pause itr : Forall P (pause_events itr).
Proof. unfold pause_events. destruct (_ =? _); by repeat constructor. Qed.

Lemma while_events fuel st w st' w' :
  request_while now self START_TIME (λ ds, request (ev ds) (answer ds))
    subset created fuel st w = Some (Ok st', w') →
  ∃ d, w' = d ++ w ∧ Forall P d.
Proof.
  intros Hrun.
  apply (request_while_invariant now self START_TIME ev answer subset created
           (λ _ w1, ∃ d, w1 = d ++ w ∧ Forall P d)) in Hrun; [done| |].
  - intros st1 w1 b st2 w2 (d & -> & Hd) Hp.
    apply pass_Ok_inv in Hp. cbn zeta in Hp.
    destruct Hp as (fetched & _ & _
                    & [(_ & _ & _ & ->)|(_ & _ & _ & _ & _ & _ & ->)]).
    + eexists (_ :: _ :: d). split; [done|]. by repeat constructor.
    + eexists (pause_events (loop_itr st1) ++ _ :: _ :: d).
      split; [by rewrite <- app_assoc|].
      apply Forall_app. split; [apply P_pause|]. by repeat constructor.
  - by exists [].
Qed.

(** A loop that is entered starts with a reading of the clock and a request
    from the cursor it was entered with. *)
Lemma while_first_request fuel st w st' w' :
  loop_cont st = true →
  request_while now self START_TIME (λ ds, request (ev ds) (answer ds))
    subset created fuel st w = Some (Ok st', w') →
  ∃ d r,
    w' = d ++ [ev (loop_date_start st) r; EvNow (now (count_events is_now w))]
           ++ w
    ∧ Forall P d.
Proof.
  intros Hc Hrun. destruct fuel as [|fuel].
  { simpl in Hrun. by rewrite Hc in Hrun. }
  rewrite request_while_unfold, Hc in Hrun.
  destruct (pass _ _ _ _ _ _ _ st w) as [[[[b st1] | e1] w1]|] eqn:Hp;
    try done.
  apply pass_Ok_inv in Hp. cbn zeta in Hp.
  destruct Hp as (fetched & _ & _
                  & [(_ & -> & -> & ->)|(_ & -> & _ & _ & _ & _ & ->)]).
  - simplify_eq. by exists [], (Ok fetched).
  - apply while_events in Hrun as (d & -> & Hd).
    exists (d ++ pause_events (loop_itr st)), (Ok fetched).
    split; [by rewrite <- !app_assoc|].
    apply Forall_app. split; [done|apply P_pause].
Qed.

End Shape.

Lemma leads_while_block now fuel self START_TIME date_end page_id st w st' w' :
  loop_cont st = true →
  leads_while now fuel self START_TIME date_end page_id st w
  = Some (Ok st', w') →
  ∃ b, w' = b ++ w ∧ page_block (loop_date_start st) date_end page_id b.
Proof.
  intros Hc Hrun.
  apply (while_first_request now self START_TIME (leads_ev page_id date_end)
           (leads_answer self page_id date_end) leads_subset "created_at"
           (λ e, for_page page_id date_end e = true)) in Hrun
    as (d & r & -> & Hd); [| |done..].
  - eexists (d ++ [_; _]). split; [by rewrite <- app_assoc|].
    by exists d, r, (now (count_events is_now w)).
  - intros ds r. unfold leads_ev. simpl. by rewrite !bool_decide_eq_true_2.
Qed.

Lemma leads_for_blocks now fuel self START_TIME OG_DATE_START date_end ids
    leads_df itr w r w' :
  leads_for now fuel self START_TIME OG_DATE_START date_end ids leads_df itr w
  = Some (Ok r, w') →
  ∃ blocks,
    w' = concat (reverse blocks) ++ w
    ∧ Forall2 (page_block OG_DATE_START date_end) ids blocks.
Proof.
  revert leads_df itr w. induction ids as [|page_id ids IH];
    intros leads_df itr w Hrun.
  - simpl in Hrun. unfold ret in Hrun. simplify_eq. exists []. by split.
  - simpl in Hrun. unfold bind in Hrun.
    destruct (leads_while _ _ _ _ _ _ _ _) as [[[st1|e] w1]|] eqn:Hw; try done.
    apply leads_while_block in Hw as (b & -> & Hb); [|done].
    apply IH in Hrun as (blocks & -> & Hblocks).
    exists (b :: blocks). split; [|by constructor].
    by rewrite reverse_cons, concat_app, <- app_assoc; simpl;
      rewrite app_nil_r.
Qed.

(** X11.  A leads operation that returns has looked up the pages with
    [date_end] as the only filter, and has then gone through the pages
    returned, in their order, one after the other: for each
    page it has read the clock and asked for the leads of this page from
    [date_start] on, and whatever it logged until the next page is a reading
    of the clock, a pause of 60 seconds or another request for the leads of
    this page; every request is for the leads created before [date_end]. *)
Theorem leads_requested_page_by_page (now : nat → Z) (fuel : nat)
    (self : UnbounceConnection) (date_start date_end : option string)
    (lead_id_list page_id_list : option (list pyval)) (w : world)
    (out : list record) (w' : world) :
  bulk_get_leads now fuel self date_start date_end lead_id_list page_id_list w
  = Some (Ok out, w') →
  ∃ pages w1 blocks,
    bulk_get_pages now fuel self None date_end None None None
      (EvNow (now (count_events is_now w)) :: w) = Some (Ok pages, w1)
    ∧ w' = concat (reverse blocks) ++ w1
    ∧ Forall2 (λ page b,
                 page_block date_start date_end (page !! "page_id") b)
        pages blocks.
Proof.
  rewrite bulk_get_leads_unfold. cbn zeta. intros Hrun.
  destruct (truthy_list page_id_list); [done|].
  destruct (bulk_get_pages _ _ _ _ _ _ _ _ _) as [[[pages|e] w1]|] eqn:Hpages;
    try done.
  destruct (column _ _) as [page_id|e] eqn:Hcol; [|done].
  rewrite bool_decide_eq_false_2 in Hrun by (by eapply column_not_empty).
  destruct (leads_for _ _ _ _ _ _ _ _ _ _) as [[[r | e] w2]|] eqn:Hleads;
    try done.
  destruct (leads_filter _ _) as [df|]; [|done]. simplify_eq.
  apply leads_for_blocks in Hleads as (blocks & -> & Hblocks).
  rewrite (column_cells _ _ _ Hcol) in Hblocks.
  rewrite Forall2_fmap_l in Hblocks.
  by exists pages, w1, blocks.
Qed.

Lemma leads_requested_page_by_page_witness :
  ∃ pages w1 blocks,
    bulk_get_pages clock_1s 2 (connection client_boundary 3600) None None
      None None None (EvNow (clock_1s (count_events is_now [])) :: [])
    = Some (Ok pages, w1)
    ∧ trace_boundary_leads = concat (reverse blocks) ++ w1
    ∧ Forall2 (λ page b, page_block None None (page !! "page_id") b)
        pages blocks.
Proof.
  apply (leads_requested_page_by_page clock_1s 2
           (connection client_boundary 3600) None None None None []
           [rename_field "id" "lead_id" lead_l1]).
  vm_compute. reflexivity.
Defined.

(** ** No request without a deadline test *)

(** The deadline test as the loops make it: the seconds field of the time
    since [START_TIME] is not over the limit. *)
Definition on_time (self : UnbounceConnection) (START_TIME t : Z) : bool :=
  timedelta_seconds t START_TIME <=? extract_timeout_time self.

(** Every request of the trace is of the kind [kind] and comes right after
    a reading of the clock that [ok] accepts. *)
Fixpoint checked (kind : event → bool) (ok : Z → bool) (w : world) : bool :=
  match w with
  | [] => true
  | e :: w' =>
      (if is_request e
       then kind e && match w' with
                      | EvNow t :: _ => ok t
                      | _ => false
                      end
       else true)
      && checked kind ok w'
  end.

Lemma checked_app kind ok d1 d2 :
  checked kind ok d1 = true → checked kind ok d2 = true →
  checked kind ok (d1 ++ d2) = true.
Proof.
  intros H1 H2. induction d1 as [|e d1 IH]; [done|].
  simpl in *. apply andb_true_iff in H1 as [He H1].
  apply andb_true_iff. split; [|by apply IH].
  destruct (is_request e); [|done].
  destruct (kind e); [|done]. by destruct d1 as [|[] d1].
Qed.

Lemma checked_pause kind ok itr : checked kind ok (pause_events itr) = true.
Proof. unfold pause_events. by destruct (_ =? _). Qed.

Section Deadline.

Variable now : nat → Z.
Variable self : UnbounceConnection.
Variable START_TIME : Z.
Variable ev : option string → result (list record) → event.
Variable answer : option string → nat → result (list record).
Variable subset : list string.
Variable created : string.
Variable kind : event → bool.

Hypothesis ev_kind : ∀ ds r, kind (ev ds r) = true.

Let ok := on_time self START_TIME.

Lemma checked_request ds r t :
  ok t = true → checked kind ok [ev ds r; EvNow t] = true.
Proof.
  intros Ht. simpl. rewrite ev_kind, Ht. by destruct (is_request _).
Qed.

(** Whatever its outcome, a pass makes its request only after a reading of
    the clock that passed the test. *)
Lemma pass_checked st w out w' :
  pass now self START_TIME ev answer subset created st w = Some (out, w') →
  ∃ d, w' = d ++ w ∧ checked kind ok d = true.
Proof.
  unfold pass. cbn zeta. intros Hp.
  destruct (_ >? _) eqn:Ht.
  { simplify_eq. by eexists [_]. }
  assert (ok (now (count_events is_now w)) = true) as Hok.
  { unfold ok, on_time. rewrite Z.gtb_ltb in Ht. apply Z.ltb_ge in Ht.
    by apply Z.leb_le. }
  destruct (answer _ _) as [fetched|e] eqn:Ha.
  2:{ simplify_eq. eexists [_; _]. split; [done|]. by apply checked_request. }
  destruct fetched as [|r0 fetched].
  { simplify_eq. eexists [_; _]. split; [done|]. by apply checked_request. }
  destruct (duplicated _ _) as [mask|e].
  2:{ simplify_eq. eexists [_; _]. split; [done|]. by apply checked_request. }
  destruct (last_field _ _) as [c|e].
  2:{ simplify_eq. eexists [_; _]. split; [done|]. by apply checked_request. }
  simplify_eq. eexists (pause_events (loop_itr st) ++ [_; _]).
  split; [by rewrite <- app_assoc|].
  apply checked_app; [apply checked_pause|by apply checked_request].
Qed.

Lemma while_checked fuel st w out w' :
  request_while now self START_TIME (λ ds, request (ev ds) (answer ds))
    subset created fuel st w = Some (out, w') →
  ∃ d, w' = d ++ w ∧ checked kind ok d = true.
Proof.
  revert st w. induction fuel as [|fuel IH]; intros st w Hrun.
  - simpl in Hrun. destruct (loop_cont st); unfold out_of_fuel, ret in Hrun;
      [done|]. simplify_eq. by exists [].
  - rewrite request_while_unfold in Hrun.
    destruct (loop_cont st); [|simplify_eq; by exists []].
    destruct (pass _ _ _ _ _ _ _ st w) as [[[[[] st1] | e1] w1]|] eqn:Hp;
      try done.
    + simplify_eq. by eapply pass_checked.
    + apply pass_checked in Hp as (d1 & -> & H1).
      apply IH in Hrun as (d2 & -> & H2).
      exists (d2 ++ d1). split; [by rewrite app_assoc|]. by apply checked_app.
    + simplify_eq. by eapply pass_checked.
Qed.

End Deadline.

Lemma bulk_get_pages_checked now fuel self date_start date_end domain_list
    page_id_list state w out w' :
  bulk_get_pages now fuel self date_start date_end domain_list page_id_list
    state w = Some (out, w') →
  ∃ d,
    w' = d ++ EvNow (now (count_events is_now w)) :: w
    ∧ checked is_get_pages (on_time self (now (count_events is_now w))) d
      = true.
Proof.
  rewrite bulk_get_pages_unfold. cbn zeta. intros Hrun.
  destruct (pages_while _ _ _ _ _ _ _) as [[out1 w1]|] eqn:Hw; [|done].
  apply (while_checked now self _ (pages_ev date_end)
           (pages_answer self date_end) pages_subset "createdAt" is_get_pages)
    in Hw as (d & -> & Hd); [|done].
  exists d. split; [|done].
  destruct out1 as [st|e]; [destruct (pages_filters _ _ _ _)|]; by simplify_eq.
Qed.

Lemma leads_for_checked now fuel self START_TIME OG_DATE_START date_end ids
    leads_df itr w out w' :
  leads_for now fuel self START_TIME OG_DATE_START date_end ids leads_df itr w
  = Some (out, w') →
  ∃ d, w' = d ++ w
       ∧ checked is_get_page_leads (on_time self START_TIME) d = true.
Proof.
  revert leads_df itr w. induction ids as [|page_id ids IH];
    intros leads_df itr w Hrun.
  - simpl in Hrun. unfold ret in Hrun. simplify_eq. by exists [].
  - simpl in Hrun. unfold bind in Hrun.
    destruct (leads_while _ _ _ _ _ _ _ _) as [[out1 w1]|] eqn:Hw; [|done].
    apply (while_checked now self _ (leads_ev page_id date_end)
             (leads_answer self page_id date_end) leads_subset "created_at"
             is_get_page_leads) in Hw as (d1 & -> & Hd1); [|done].
    destruct out1 as [st1|x].
    + apply IH in Hrun as (d2 & -> & Hd2). exists (d2 ++ d1).
      split; [by rewrite app_assoc|]. by apply checked_app.
    + simplify_eq. by exists d1.
Qed.

(** X12.  Whatever the outcome of [bulk_get_pages], each of its requests
    is a request for pages made right after a reading of the clock at which
    the seconds field of the time since the start of the method was not over
    [extract_timeout_time]. *)
Theorem page_requests_follow_deadline_test (now : nat → Z) (fuel : nat)
    (self : UnbounceConnection) (date_start date_end : option string)
    (domain_list page_id_list : option (list pyval)) (state : option string)
    (w : world) (out : result (list record)) (w' : world) :
  bulk_get_pages now fuel self date_start date_end domain_list page_id_list
    state w = Some (out, w') →
  ∃ d,
    w' = d ++ EvNow (now (count_events is_now w)) :: w
    ∧ checked is_get_pages (on_time self (now (count_events is_now w))) d
      = true.
Proof. apply bulk_get_pages_checked. Qed.

Lemma page_requests_follow_deadline_test_witness :
  ∃ d,
    trace_boundary_page = d ++ EvNow (clock_1s (count_events is_now [])) :: []
    ∧ checked is_get_pages
        (on_time (connection client_boundary 3600)
           (clock_1s (count_events is_now []))) d
      = true.
Proof.
  apply (page_requests_follow_deadline_test clock_1s 2
           (connection client_boundary 3600) None None None None None []
           (Ok [rename_field "id" "page_id" page_p1;
                rename_field "id" "page_id" page_p2])).
  vm_compute. reflexivity.
Defined.

(** X13.  Whatever the outcome of [bulk_get_leads], the lookup of the
    pages measures its deadline from its own start, the second reading of the
    clock, and the requests for leads measure theirs from the start of the
    operation, the first reading: every request comes right after a reading
    of the clock that passed the test against its own start, the requests
    for pages first. *)
Theorem lead_requests_follow_deadline_test (now : nat → Z) (fuel : nat)
    (self : UnbounceConnection) (date_start date_end : option string)
    (lead_id_list page_id_list : option (list pyval)) (w : world)
    (out : result (list record)) (w' : world) :
  bulk_get_leads now fuel self date_start date_end lead_id_list page_id_list w
  = Some (out, w') →
  ∃ dl dp,
    w' = dl ++ dp ++ EvNow (now (count_events is_now w)) :: w
    ∧ checked is_get_pages
        (on_time self (now (S (count_events is_now w)))) dp = true
    ∧ checked is_get_page_leads
        (on_time self (now (count_events is_now w))) dl = true.
Proof.
  rewrite bulk_get_leads_unfold. cbn zeta. intros Hrun.
  set (t0 := now (count_events is_now w)) in *.
  destruct (truthy_list page_id_list).
  { simplify_eq. by exists [], []. }
  destruct (bulk_get_pages _ _ _ _ _ _ _ _ _) as [[out1 w1]|] eqn:Hpages;
    [|done].
  apply bulk_get_pages_checked in Hpages as (d & -> & Hd).
  rewrite count_events_cons in Hd. cbn [is_now] in Hd.
  set (dp := d ++ [EvNow (now (S (count_events is_now w)))]).
  assert (checked is_get_pages (on_time self (now (S (count_events is_now w))))
            dp = true) as Hdp by (by apply checked_app).
  assert (∀ w0, d ++ EvNow (now (count_events is_now (EvNow t0 :: w))) :: w0
                = dp ++ w0) as Hw1.
  { intros w0. unfold dp. rewrite count_events_cons. cbn [is_now].
    by rewrite <- app_assoc. }
  rewrite Hw1 in Hrun.
  destruct out1 as [pages|x]; [|simplify_eq; by exists [], dp].
  destruct (column _ _) as [page_id|x]; [|simplify_eq; by exists [], dp].
  destruct (bool_decide _); [simplify_eq; by exists [], dp|].
  destruct (leads_for _ _ _ _ _ _ _ _ _ _) as [[out2 w2]|] eqn:Hleads; [|done].
  apply leads_for_checked in Hleads as (dl & -> & Hdl).
  exists dl, dp. split; [|done].
  destruct out2 as [r|x]; [destruct (leads_filter _ _)|]; by simplify_eq.
Qed.

Lemma lead_requests_follow_deadline_test_witness :
  ∃ dl dp,
    trace_boundary_leads
    = dl ++ dp ++ EvNow (clock_1s (count_events is_now [])) :: []
    ∧ checked is_get_pages
        (on_time (connection client_boundary 3600)
           (clock_1s (S (count_events is_now [])))) dp = true
    ∧ checked is_get_page_leads
        (on_time (connection client_boundary 3600)
           (clock_1s (count_events is_now []))) dl = true.
Proof.
  apply (lead_requests_follow_deadline_test clock_1s 2
           (connection client_boundary 3600) None None None None []
           (Ok [rename_field "id" "lead_id" lead_l1])).
  vm_compute. reflexivity.
Defined.

(** A request logged after a reading of the clock that is over the limit
    is not accepted. *)
Example checked_rejects_late_request :
  checked is_get_pages (on_time (connection client_same_page 3600) 0)
    [EvGetPages None None (Ok [page_p1]); EvNow 3601000000; EvNow 0] = false
  ∧ checked is_get_pages (on_time (connection client_same_page 3600) 0)
      [EvGetPages None None (Ok [page_p1]); EvNow 3600999999; EvNow 0] = true.
Proof. by vm_compute. Qed.

(** ** The number of pauses *)

Section Brought.

Variable now : nat → Z.
Variable self : UnbounceConnection.
Variable START_TIME : Z.
Variable ev : option string → result (list record) → event.
Variable answer : option string → nat → result (list record).
Variable subset : list string.
Variable created : string.

Hypothesis ev_response : ∀ ds r, response (ev ds r) = Some r.

(** Only the last request of a loop can have brought nothing: the empty
    page leaves the loop. *)
Lemma while_brought fuel st w st' w' :
  request_while now self START_TIME (λ ds, request (ev ds) (answer ds))
    subset created fuel st w = Some (Ok st', w') →
  ∃ d,
    w' = d ++ w
    ∧ (count_events is_request d ≤ count_events brought_records d + 1)%nat.
Proof.
  revert st w. induction fuel as [|fuel IH]; intros st w Hrun.
  - simpl in Hrun. destruct (loop_cont st); unfold out_of_fuel, ret in Hrun;
      [done|]. simplify_eq. exists []. split; [done|].
    rewrite !count_events_nil. lia.
  - rewrite request_while_unfold in Hrun.
    destruct (loop_cont st).
    2:{ simplify_eq. exists []. split; [done|]. rewrite !count_events_nil. lia. }
    destruct (pass _ _ _ _ _ _ _ st w) as [[[[b st1] | e1] w1]|] eqn:Hp;
      try done.
    apply pass_Ok_inv in Hp. cbn zeta in Hp.
    destruct Hp as (fetched & _ & _ & [(_ & -> & -> & ->)
                                      |(Hne & -> & _ & _ & _ & _ & ->)]).
    + simplify_eq. eexists [_; _]. split; [done|].
      rewrite !count_events_cons, (response_is_request _ _ (ev_response _ _)).
      cbn [is_request]. rewrite !count_events_nil.
      destruct (brought_records _), (brought_records _); lia.
    + apply IH in Hrun as (d & -> & Hb).
      exists (d ++ pause_events (loop_itr st)
                ++ [ev (loop_date_start st) (Ok fetched);
                    EvNow (now (count_events is_now w))]).
      split; [by rewrite <- !app_assoc|].
      rewrite !count_events_app, count_request_pause, !count_events_cons,
        (response_is_request _ _ (ev_response _ _)).
      assert (brought_records (ev (loop_date_start st) (Ok fetched)) = true)
        as -> by (unfold brought_records; rewrite ev_response;
                  by destruct fetched).
      cbn [is_request brought_records response]. rewrite !count_events_nil.
      lia.
Qed.

End Brought.

(** X14.  A run of [bulk_get_pages] that returns has paused once for every
    495 requests that brought pages, and all its requests brought pages
    except possibly the last one: with [n] requests made, the number of
    pauses is between the integer parts of [(n - 1) / 495] and of
    [n / 495]. *)
Theorem bulk_get_pages_pauses (now : nat → Z) (fuel : nat)
    (self : UnbounceConnection) (date_start date_end : option string)
    (domain_list page_id_list : option (list pyval)) (state : option string)
    (w : world) (out : list record) (w' : world) :
  bulk_get_pages now fuel self date_start date_end domain_list page_id_list
    state w = Some (Ok out, w') →
  ∃ d,
    w' = d ++ w
    ∧ Z.of_nat (count_events is_sleep d)
      = Z.of_nat (count_events brought_records d) `div` 495
    ∧ (count_events brought_records d ≤ count_events is_request d
       ≤ count_events brought_records d + 1)%nat
    ∧ (Z.of_nat (count_events is_request d) - 1) `div` 495
      ≤ Z.of_nat (count_events is_sleep d)
      ≤ Z.of_nat (count_events is_request d) `div` 495.
Proof.
  intros Hrun. pose proof Hrun as Htrace.
  apply bulk_get_pages_trace in Htrace as (d & itr & -> & _ & Hg).
  rewrite bulk_get_pages_unfold in Hrun. cbn zeta in Hrun.
  destruct (pages_while _ _ _ _ _ _ _) as [[[st|e] w1]|] eqn:Hw; try done.
  destruct (pages_filters _ _ _ _) as [df'|]; [|done].
  apply (while_brought now self _ (pages_ev date_end)
           (pages_answer self date_end) pages_subset "createdAt") in Hw
    as (d1 & -> & Hb); [|done].
  assert (d = d1 ++ [EvNow (now (count_events is_now w))]) as Hd.
  { eapply app_inv_tail. rewrite <- app_assoc. simpl. by simplify_eq. }
  assert (count_events is_request d ≤ count_events brought_records d + 1)%nat
    as Hreq.
  { rewrite Hd, !count_events_app, !count_events_cons, !count_events_nil.
    cbn [is_request brought_records response]. lia. }
  pose proof (count_brought_le_requests d) as Hle.
  pose proof (governor_run_count _ 0 _ _ brought_records_not_sleep
                ltac:(lia) Hg) as [Hitr Hcount].
  assert (Z.of_nat (count_events is_sleep d)
          = Z.of_nat (count_events brought_records d) `div` 495) as Hs.
  { apply (Z.div_unique _ 495 _ itr); lia. }
  exists d. split; [done|]. split; [done|]. split; [lia|].
  rewrite Hs. split; apply Z.div_le_mono; lia.
Qed.

Lemma bulk_get_pages_pauses_witness :
  ∃ d,
    trace_boundary_page = d ++ []
    ∧ Z.of_nat (count_events is_sleep d)
      = Z.of_nat (count_events brought_records d) `div` 495
    ∧ (count_events brought_records d ≤ count_events is_request d
       ≤ count_events brought_records d + 1)%nat
    ∧ (Z.of_nat (count_events is_request d) - 1) `div` 495
      ≤ Z.of_nat (count_events is_sleep d)
      ≤ Z.of_nat (count_events is_request d) `div` 495.
Proof.
  apply (bulk_get_pages_pauses clock_1s 2 (connection client_boundary 3600)
           None None None None None []
           [rename_field "id" "page_id" page_p1;
            rename_field "id" "page_id" page_p2]).
  vm_compute. reflexivity.
Defined.

(** ** The loops end *)

Section Termination.

Variable now : nat → Z.
Variable self : UnbounceConnection.
Variable START_TIME : Z.
Variable ev : option string → result (list record) → event.
Variable answer : option string → nat → result (list record).
Variable subset : list string.
Variable created : string.

(** The keys that the records of the account can have. *)
Variable K : list (list cell).

Hypothesis ev_response : ∀ ds r, response (ev ds r) = Some r.
Hypothesis answer_keys :
  ∀ ds n p r, answer ds n = Ok p → r ∈ DataFrame_of p → row_key subset r ∈ K.

Lemma pass_Some st w :
  pass now self START_TIME ev answer subset created st w ≠ None.
Proof.
  unfold pass. cbn zeta. destruct (_ >? _); [done|].
  destruct (answer _ _) as [[|r0 fetched]|e]; try done.
  destruct (duplicated _ _); [|done]. by destruct (last_field _ _).
Qed.

Lemma count_request_events ds r t :
  count_events is_request [ev ds r; EvNow t] = 1%nat.
Proof.
  by rewrite !count_events_cons, (response_is_request _ _ (ev_response _ _)).
Qed.

Lemma pass_one_request st w out w' :
  pass now self START_TIME ev answer subset created st w = Some (out, w') →
  ∃ d, w' = d ++ w ∧ (count_events is_request d ≤ 1)%nat.
Proof.
  unfold pass. cbn zeta. intros Hp.
  destruct (_ >? _).
  { simplify_eq. eexists [_]. split; [done|].
    rewrite count_events_cons, count_events_nil. simpl. lia. }
  destruct (answer _ _) as [fetched|e] eqn:Ha.
  2:{ simplify_eq. eexists [_; _]. split; [done|].
      by rewrite count_request_events. }
  destruct fetched as [|r0 fetched].
  { simplify_eq. eexists [_; _]. split; [done|].
    by rewrite count_request_events. }
  destruct (duplicated _ _) as [mask|e].
  2:{ simplify_eq. eexists [_; _]. split; [done|].
      by rewrite count_request_events. }
  destruct (last_field _ _) as [c|e].
  2:{ simplify_eq. eexists [_; _]. split; [done|].
      by rewrite count_request_events. }
  simplify_eq. eexists (pause_events (loop_itr st) ++ [_; _]).
  split; [by rewrite <- app_assoc|].
  by rewrite count_events_app, count_request_pause, count_request_events.
Qed.

(** A frame without two rows of the same key has at most as many rows as
    there are keys. *)
Lemma frame_keys_bound df :
  NoDup (keys subset df) → (∀ k, k ∈ keys subset df → k ∈ K) →
  (length df ≤ length K)%nat.
Proof.
  intros Hnd Hin. rewrite <- (length_fmap (row_key subset) df).
  by apply submseteq_length, NoDup_submseteq.
Qed.

Lemma firsts_keys_within df p ds n :
  (∀ k, k ∈ keys subset df → k ∈ K) → answer ds n = Ok p →
  ∀ k, k ∈ keys subset (firsts_from subset [] (df ++ DataFrame_of p)) → k ∈ K.
Proof.
  intros Hin Ha k (r & Hr & <-)%elem_of_keys.
  eapply elem_of_sublist in Hr; [|apply firsts_from_sublist].
  apply elem_of_app in Hr as [Hr|Hr].
  - apply Hin, elem_of_keys. eauto.
  - by eapply answer_keys.
Qed.

(** The loop ends, whatever the clock and the answers: a pass after which
    the loop goes on has met a key that was not in the frame, and there are
    [length K] keys at most.  So as many passes of fuel, and one more,
    always give a result, reached after at most as many requests. *)
Lemma while_terminates fuel st w :
  NoDup (keys subset (loop_df st)) →
  (∀ k, k ∈ keys subset (loop_df st) → k ∈ K) →
  (length K < fuel + length (loop_df st))%nat →
  ∃ out d,
    request_while now self START_TIME (λ ds, request (ev ds) (answer ds))
      subset created fuel st w = Some (out, d ++ w)
    ∧ (count_events is_request d + length (loop_df st) ≤ length K + 1)%nat
    ∧ ∀ st', out = Ok st' →
        NoDup (keys subset (loop_df st'))
        ∧ ∀ k, k ∈ keys subset (loop_df st') → k ∈ K.
Proof.
  revert st w. induction fuel as [|fuel IH]; intros st w Hnd Hin Hlen.
  { pose proof (frame_keys_bound _ Hnd Hin). lia. }
  pose proof (frame_keys_bound _ Hnd Hin) as Hdf0.
  rewrite request_while_unfold. destruct (loop_cont st) eqn:Hc.
  2:{ exists (Ok st), []. split; [done|]. rewrite count_events_nil.
      split; [lia|]. by intros st' [= <-]. }
  destruct (pass _ _ _ _ _ _ _ st w) as [[[[b st1] | e1] w1]|] eqn:Hp.
  - pose proof Hp as Hone. apply pass_one_request in Hone as (d1 & -> & H1).
    apply pass_Ok_inv in Hp. cbn zeta in Hp.
    destruct Hp as (fetched & Ha & _ & [(_ & -> & -> & _)
                                       |(_ & -> & _ & Hdf & Hcont & _ & _)]).
    { exists (Ok st), d1. split; [done|]. split; [lia|]. by intros st' [= <-]. }
    assert (NoDup (keys subset (loop_df st1))) as Hnd1
      by (rewrite Hdf; apply NoDup_keys_firsts).
    assert (∀ k, k ∈ keys subset (loop_df st1) → k ∈ K) as Hin1
      by (rewrite Hdf; by eapply firsts_keys_within).
    destruct (frame_grows subset (loop_df st) (DataFrame_of fetched) Hnd)
      as [Hle Hlt].
    rewrite <- Hdf in Hle, Hlt.
    destruct (loop_cont st1) eqn:Hc1.
    + assert (length (loop_df st) < length (loop_df st1))%nat as Hgrow
        by (apply Hlt; rewrite Hcont in Hc1; by apply negb_true_iff).
      destruct (IH st1 (d1 ++ w) Hnd1 Hin1) as (out & d2 & Hrun & Hb & Hok);
        [lia|].
      exists out, (d2 ++ d1). split; [by rewrite <- app_assoc|].
      split; [rewrite count_events_app; lia|done].
    + rewrite request_while_stop by done.
      exists (Ok st1), d1. split; [done|]. split; [lia|]. by intros st' [= <-].
  - apply pass_one_request in Hp as (d1 & -> & H1).
    exists (Raise e1), d1. split; [done|]. split; [lia|done].
  - by apply pass_Some in Hp.
Qed.

End Termination.

(** More fuel never changes the result of the loops and of the methods. *)
Lemma pages_while_fuel now fuel fuel' self START_TIME date_end st w out :
  (fuel ≤ fuel')%nat →
  pages_while now fuel self START_TIME date_end st w = Some out →
  pages_while now fuel' self START_TIME date_end st w = Some out.
Proof.
  apply (request_while_fuel now self START_TIME (pages_ev date_end)
           (pages_answer self date_end) pages_subset "createdAt").
Qed.

Lemma leads_while_fuel now fuel fuel' self START_TIME date_end page_id st w
    out :
  (fuel ≤ fuel')%nat →
  leads_while now fuel self START_TIME date_end page_id st w = Some out →
  leads_while now fuel' self START_TIME date_end page_id st w = Some out.
Proof.
  apply (request_while_fuel now self START_TIME (leads_ev page_id date_end)
           (leads_answer self page_id date_end) leads_subset "created_at").
Qed.

Lemma pages_while_terminates now fuel self START_TIME date_end st w
    (ids : list cell) :
  (∀ n ds de p r,
     get_pages (client self) n ds de = Ok p → r ∈ p → r !! "id" ∈ ids) →
  NoDup (keys pages_subset (loop_df st)) →
  (∀ k, k ∈ keys pages_subset (loop_df st) → k ∈ (λ c, [c]) <$> ids) →
  (length ids < fuel + length (loop_df st))%nat →
  ∃ out d,
    pages_while now fuel self START_TIME date_end st w = Some (out, d ++ w)
    ∧ (count_events is_request d + length (loop_df st) ≤ length ids + 1)%nat
    ∧ ∀ st', out = Ok st' → (length (loop_df st') ≤ length ids)%nat.
Proof.
  intros Hids Hnd Hin Hfuel.
  destruct (while_terminates now self START_TIME (pages_ev date_end)
              (pages_answer self date_end) pages_subset "createdAt"
              ((λ c, [c]) <$> ids) ltac:(done)) with (fuel := fuel) (st := st)
              (w := w) as (out1 & d & Hrun & Hb & Hok); [|done|done| |].
  - intros ds n p r Ha Hr. rewrite pages_key_id.
    apply list_elem_of_fmap. eexists. split; [done|].
    eapply Hids; [exact Ha|]. by apply elem_of_DataFrame_of.
  - by rewrite length_fmap.
  - exists out1, d. split; [exact Hrun|]. rewrite length_fmap in Hb.
    split; [done|]. intros st' ->. destruct (Hok st' eq_refl) as [Hnd' Hin'].
    pose proof (frame_keys_bound pages_subset _ _ Hnd' Hin') as Hlen.
    by rewrite length_fmap in Hlen.
Qed.

Lemma leads_while_terminates now fuel self START_TIME date_end page_id st w
    (K : list (list cell)) :
  (∀ n page_id ds de p r,
     get_page_leads (client self) n page_id ds de = Ok p → r ∈ p →
     ((λ c, r !! c) <$> leads_subset) ∈ K) →
  NoDup (keys leads_subset (loop_df st)) →
  (∀ k, k ∈ keys leads_subset (loop_df st) → k ∈ K) →
  (length K < fuel + length (loop_df st))%nat →
  ∃ out d,
    leads_while now fuel self START_TIME date_end page_id st w
    = Some (out, d ++ w)
    ∧ (count_events is_request d + length (loop_df st) ≤ length K + 1)%nat
    ∧ ∀ st', out = Ok st' →
        NoDup (keys leads_subset (loop_df st'))
        ∧ ∀ k, k ∈ keys leads_subset (loop_df st') → k ∈ K.
Proof.
  intros HK Hnd Hin Hfuel.
  apply (while_terminates now self START_TIME (leads_ev page_id date_end)
           (leads_answer self page_id date_end) leads_subset "created_at"
           K ltac:(done)); [|done..].
  intros ds n p r Ha Hr. eapply HK; [exact Ha|].
  by apply elem_of_DataFrame_of.
Qed.

Lemma bulk_get_pages_fuel now fuel fuel' self date_start date_end domain_list
    page_id_list state w out :
  (fuel ≤ fuel')%nat →
  bulk_get_pages now fuel self date_start date_end domain_list page_id_list
    state w = Some out →
  bulk_get_pages now fuel' self date_start date_end domain_list page_id_list
    state w = Some out.
Proof.
  intros Hle. rewrite !bulk_get_pages_unfold. cbn zeta.
  destruct (pages_while now fuel _ _ _ _ _) as [out1|] eqn:Hw; [|done].
  by rewrite (pages_while_fuel _ _ _ _ _ _ _ _ _ Hle Hw).
Qed.

Lemma leads_for_fuel now fuel fuel' self START_TIME OG_DATE_START date_end
    ids leads_df itr w out :
  (fuel ≤ fuel')%nat →
  leads_for now fuel self START_TIME OG_DATE_START date_end ids leads_df itr w
  = Some out →
  leads_for now fuel' self START_TIME OG_DATE_START date_end ids leads_df itr w
  = Some out.
Proof.
  intros Hle. revert leads_df itr w.
  induction ids as [|page_id ids IH]; intros leads_df itr w; [done|].
  simpl. unfold bind.
  destruct (leads_while now fuel _ _ _ _ _ _) as [out1|] eqn:Hw; [|done].
  rewrite (leads_while_fuel _ _ _ _ _ _ _ _ _ _ Hle Hw).
  destruct out1 as [[st1|e] w1]; [apply IH|done].
Qed.

Lemma bulk_get_leads_fuel now fuel fuel' self date_start date_end lead_id_list
    page_id_list w out :
  (fuel ≤ fuel')%nat →
  bulk_get_leads now fuel self date_start date_end lead_id_list page_id_list w
  = Some out →
  bulk_get_leads now fuel' self date_start date_end lead_id_list page_id_list w
  = Some out.
Proof.
  intros Hle. rewrite !bulk_get_leads_unfold. cbn zeta.
  destruct (truthy_list page_id_list); [done|].
  destruct (bulk_get_pages now fuel _ _ _ _ _ _ _) as [out1|] eqn:Hpages;
    [|done].
  rewrite (bulk_get_pages_fuel _ _ _ _ _ _ _ _ _ _ _ Hle Hpages).
  destruct out1 as [[pages|e] w1]; [|done].
  destruct (column _ _) as [page_id|e]; [|done].
  destruct (bool_decide _); [done|].
  destruct (leads_for now fuel _ _ _ _ _ _ _ _) as [out2|] eqn:Hleads; [|done].
  by rewrite (leads_for_fuel _ _ _ _ _ _ _ _ _ _ _ _ Hle Hleads).
Qed.

Lemma bulk_get_pages_finishes now fuel self date_start date_end domain_list
    page_id_list state w (ids : list cell) :
  (∀ n ds de p r,
     get_pages (client self) n ds de = Ok p → r ∈ p → r !! "id" ∈ ids) →
  (length ids < fuel)%nat →
  ∃ out d,
    bulk_get_pages now fuel self date_start date_end domain_list page_id_list
      state w = Some (out, d ++ w)
    ∧ (count_events is_request d ≤ length ids + 1)%nat
    ∧ ∀ pages, out = Ok pages → (length pages ≤ length ids)%nat.
Proof.
  intros Hids Hfuel. rewrite bulk_get_pages_unfold. cbn zeta.
  set (t0 := now (count_events is_now w)).
  set (st0 := {| loop_df := []; loop_date_start := date_start;
                 loop_cont := true; loop_itr := 0 |}).
  destruct (pages_while_terminates now fuel self t0 date_end st0
              (EvNow t0 :: w) ids Hids) as (out1 & d & Hrun & Hb & Hok).
  { constructor. }
  { intros k Hk. by apply elem_of_nil in Hk. }
  { simpl. lia. }
  rewrite Hrun. simpl in Hb.
  assert (count_events is_request (d ++ [EvNow t0]) ≤ length ids + 1)%nat
    as Hcount.
  { rewrite count_events_app, count_events_cons, count_events_nil.
    cbn [is_request]. lia. }
  destruct out1 as [st|e].
  2:{ exists (Raise e), (d ++ [EvNow t0]).
      split; [by rewrite <- app_assoc|]. split; [done|]. by intros. }
  specialize (Hok st eq_refl).
  destruct (pages_filters _ _ _ _) as [df|e] eqn:Hf.
  2:{ exists (Raise e), (d ++ [EvNow t0]).
      split; [by rewrite <- app_assoc|]. split; [done|]. by intros. }
  exists (Ok (to_dict_records df)), (d ++ [EvNow t0]).
  split; [by rewrite <- app_assoc|]. split; [done|].
  intros pages [= <-]. apply pages_filters_Ok in Hf.
  unfold to_dict_records. rewrite Hf.
  etrans; [apply List.filter_length_le|].
  unfold rename. by rewrite !length_fmap.
Qed.

Lemma leads_for_finishes now fuel self START_TIME OG_DATE_START date_end
    (K : list (list cell)) ids leads_df itr w :
  (∀ n page_id ds de p r,
     get_page_leads (client self) n page_id ds de = Ok p → r ∈ p →
     ((λ c, r !! c) <$> leads_subset) ∈ K) →
  (length K < fuel)%nat →
  NoDup (keys leads_subset leads_df) →
  (∀ k, k ∈ keys leads_subset leads_df → k ∈ K) →
  ∃ out d,
    leads_for now fuel self START_TIME OG_DATE_START date_end ids leads_df itr w
    = Some (out, d ++ w)
    ∧ (count_events is_request d + length leads_df ≤ length K + length ids)%nat.
Proof.
  intros HK Hfuel. revert leads_df itr w.
  induction ids as [|page_id ids IH]; intros leads_df itr w Hnd Hin.
  { exists (Ok (leads_df, itr)), []. split; [done|].
    pose proof (frame_keys_bound leads_subset K _ Hnd Hin).
    rewrite count_events_nil. simpl. lia. }
  simpl. unfold bind.
  set (st0 := {| loop_df := leads_df; loop_date_start := OG_DATE_START;
                 loop_cont := true; loop_itr := itr |}).
  destruct (leads_while_terminates now fuel self START_TIME date_end page_id
              st0 w K HK) as (out1 & d1 & Hrun & Hb & Hok);
    [done|done|simpl; lia|].
  rewrite Hrun. simpl in Hb.
  destruct out1 as [st1|e].
  2:{ exists (Raise e), d1. split; [done|]. simpl. lia. }
  destruct (Hok st1 eq_refl) as [Hnd1 Hin1].
  apply leads_while_requests_bound in Hrun as (d1' & Hd1 & _ & Hb1 & _);
    [|done].
  apply app_inv_tail in Hd1 as <-. simpl in Hb1.
  destruct (IH (loop_df st1) (loop_itr st1) (d1 ++ w) Hnd1 Hin1)
    as (out & d2 & Hrest & Hb2).
  exists out, (d2 ++ d1). rewrite Hrest.
  split; [by rewrite <- app_assoc|].
  rewrite count_events_app. simpl. lia.
Qed.





(** ** No duplicates in what is returned *)

Lemma returned_keys_NoDup subset (key : record → list cell)
    (g : record → record) (f : record → bool) (df : DataFrame) :
  NoDup (keys subset df) →
  (∀ r, r ∈ df → key (g r.2) = row_key subset r) →
  NoDup (key <$> List.filter f (g <$> df.*2)).
Proof.
  intros Hnd Hkey. eapply sublist_NoDup; [|apply fmap_sublist, filter_sublist].
  assert (key <$> (g <$> df.*2) = keys subset df) as ->; [|done].
  unfold keys. rewrite <- !list_fmap_compose.
  apply Forall_fmap_ext, Forall_forall. intros r Hr. by apply Hkey.
Qed.

Lemma fetched_row kind (d w : world) subset (r : row) :
  r ∈ firsts_from subset [] (rows_of kind d) → r.2 ∈ (rows_of kind (d ++ w)).*2.
Proof.
  intros Hr. apply list_elem_of_fmap. exists r. split; [done|].
  rewrite rows_of_app. apply elem_of_app. right.
  eapply elem_of_sublist; [exact Hr|apply firsts_from_sublist].
Qed.





(** Two leads with the same id on two variants are both returned. *)
Example same_lead_on_two_variants :
  let l1' := <[ "variant_id" := "b" ]> lead_l1 in
  let c := {| get_pages := λ _ _ _, Ok [page_p1];
              get_page_leads := λ _ _ _ _, Ok [lead_l1; l1'] |} in
  ∃ w, bulk_get_leads clock_1s 2 (connection c 3600) None None None None []
       = Some (Ok [rename_field "id" "lead_id" lead_l1;
                   rename_field "id" "lead_id" l1'], w).
Proof. eexists. vm_compute. reflexivity. Qed.
